(** * Deal discovery and ranking pipeline: a shallow embedding

    The development follows the two scraper modules of the repository
    (the community-deal scraper and the Amazon scraper): price parsing,
    deal scoring, per-card extraction, quality filtering, deduplication,
    the retrying fetcher with its session budget and the discovery loop.

    Conventions of the embedding.
    - A JavaScript string is the list of its UTF-16 code units ([list N]),
      so that [length] is the JavaScript [length].
    - A JavaScript number is [NaN], an infinity or a finite value; finite
      values are exact rationals and arithmetic on them is exact (rounding
      to binary64 and signed zeros are not modelled).
    - [Math.log10] is implementation-approximated in ECMAScript; it is a
      parameter of the scorer.
    - A [Map] keeps its keys in insertion order: it is an association list.
    - An object literal used as a table is the finite map of its own
      properties; a property access that finds none of them falls back on
      the properties inherited from [Object.prototype].
    - The DOM library is a parameter: the extractors are written against
      the queries they issue on a card.
    - A regular expression of the source is the function that computes what
      it matches or captures.
    - The case mappings of strings ([toLowerCase], [toUpperCase]), the
      conversion of a number to a string and the clock are parameters.
    - Awaited calls run in sequence; the network is an oracle that answers
      each attempt, and sleeping only leaves an event in the trace. *)

From Stdlib Require Import ZArith QArith Qround List String Ascii Lia Lqa.
From Stdlib Require Import Sorted Permutation DecimalString.
From stdpp Require Import base gmap list.

Open Scope Z_scope.

(** ** JavaScript strings *)

Module JSString.

Abbreviation jsstring := (list N).

(** UTF-8 bytes to UTF-16 code units. *)
Fixpoint utf16_of_utf8 (bs : list N) : jsstring :=
  match bs with
  | [] => []
  | b0 :: r0 =>
      if (b0 <? 192)%N then b0 :: utf16_of_utf8 r0
      else match r0 with
      | [] => [b0]
      | b1 :: r1 =>
          if (b0 <? 224)%N
          then (N.land b0 31 * 64 + N.land b1 63)%N :: utf16_of_utf8 r1
          else match r1 with
          | [] => [b0; b1]
          | b2 :: r2 =>
              if (b0 <? 240)%N
              then (N.land b0 15 * 4096 + N.land b1 63 * 64 + N.land b2 63)%N
                   :: utf16_of_utf8 r2
              else match r2 with
              | [] => [b0; b1; b2]
              | b3 :: r3 =>
                  let cp := (N.land b0 7 * 262144 + N.land b1 63 * 4096
                             + N.land b2 63 * 64 + N.land b3 63 - 65536)%N in
                  (55296 + N.shiftr cp 10)%N :: (56320 + N.land cp 1023)%N
                  :: utf16_of_utf8 r3
              end
          end
      end
  end.

(** A string literal of the source (the literal is read as UTF-8). *)
Definition str (s : string) : jsstring :=
  utf16_of_utf8 (List.map N_of_ascii (list_ascii_of_string s)).

Definition chr (c : ascii) : N := N_of_ascii c.

(** [\s] of a regular expression, [trim] and [parseFloat] share one class:
    WhiteSpace and LineTerminator. *)
Definition is_space (c : N) : bool :=
  ((9 <=? c) && (c <=? 13) || (c =? 32) || (c =? 160) || (c =? 5760)
   || (8192 <=? c) && (c <=? 8202) || (c =? 8232) || (c =? 8233)
   || (c =? 8239) || (c =? 8287) || (c =? 12288) || (c =? 65279))%N.

(** [\d] without the unicode flag: the ten ASCII digits. *)
Definition is_digit (c : N) : bool := ((48 <=? c) && (c <=? 57))%N.

Definition digit_val (c : N) : Z := Z.of_N c - 48.

Fixpoint drop_while (p : N -> bool) (s : jsstring) : jsstring :=
  match s with
  | c :: r => if p c then drop_while p r else s
  | [] => []
  end.

Fixpoint take_while (p : N -> bool) (s : jsstring) : jsstring :=
  match s with
  | c :: r => if p c then c :: take_while p r else []
  | [] => []
  end.

Definition trim (s : jsstring) : jsstring :=
  rev (drop_while is_space (rev (drop_while is_space s))).

Definition eqb (a b : jsstring) : bool := bool_decide (a = b).

Fixpoint startsWith (s p : jsstring) : bool :=
  match p, s with
  | [], _ => true
  | a :: p', b :: s' => (a =? b)%N && startsWith s' p'
  | _ :: _, [] => false
  end.

Fixpoint includes (s p : jsstring) : bool :=
  startsWith s p ||
  match s with
  | [] => false
  | _ :: s' => includes s' p
  end.

(** [s.substring(0, n)] for a literal [n >= 0]. *)
Definition substring0 (n : nat) (s : jsstring) : jsstring := firstn n s.

(** Truthiness of a string: only the empty string is falsy. *)
Definition truthy (s : jsstring) : bool :=
  match s with [] => false | _ => true end.

(** [a || b] on strings. *)
Definition or_else (a b : jsstring) : jsstring := if truthy a then a else b.

(** Value of a run of decimal digits, most significant first. *)
Definition digits_val (ds : jsstring) : Z :=
  fold_left (fun acc c => 10 * acc + digit_val c) ds 0.

(** The first maximal run of digits of [s] (what [/(\d+)/] captures). *)
Definition first_digit_run (s : jsstring) : option jsstring :=
  match drop_while (fun c => negb (is_digit c)) s with
  | [] => None
  | r => Some (take_while is_digit r)
  end.

(** [s.split(sep)] for a non-empty separator. *)
Fixpoint split_aux (sep : jsstring) (skip : nat) (cur : jsstring)
    (s : jsstring) : list jsstring :=
  match s with
  | [] => [rev cur]
  | c :: r =>
      match skip with
      | S k => split_aux sep k cur r
      | O =>
          if startsWith s sep
          then rev cur :: split_aux sep (length sep - 1) [] r
          else split_aux sep 0 (c :: cur) r
      end
  end.

Definition split (s sep : jsstring) : list jsstring := split_aux sep 0 [] s.

(** The double quote, for literals that contain one. *)
Definition dq : jsstring := [34%N].

(** What [/(\d+)%/] captures: the first maximal run of digits that a
    percent sign follows.  [prev_digit] tells that the character before
    [s] was a digit. *)
Fixpoint percent_run (prev_digit : bool) (s : jsstring) : option jsstring :=
  match s with
  | [] => None
  | c :: r =>
      if is_digit c && negb prev_digit then
        if startsWith (drop_while is_digit s) [37%N]
        then Some (take_while is_digit s)
        else percent_run true r
      else percent_run (is_digit c) r
  end.

(** What [/(\d)[,.](\d)/] captures: the first digit, separator, digit. *)
Fixpoint digit_sep_digit (s : jsstring) : option (N * N) :=
  match s with
  | a :: r =>
      match r with
      | b :: c :: _ =>
          if is_digit a && ((b =? 44) || (b =? 46))%N && is_digit c
          then Some (a, c)
          else digit_sep_digit r
      | _ => None
      end
  | [] => None
  end.

(** Letters and digits of ASCII: what the class [[A-Z0-9]] matches under
    the [i] flag (without the unicode flag no other character folds to an
    ASCII letter). *)
Definition is_alnum (c : N) : bool :=
  (is_digit c || (65 <=? c) && (c <=? 90) || (97 <=? c) && (c <=? 122))%N.

Definition ascii_lower (c : N) : N :=
  if ((65 <=? c) && (c <=? 90))%N then (c + 32)%N else c.

Definition ascii_upper (c : N) : N :=
  if ((97 <=? c) && (c <=? 122))%N then (c - 32)%N else c.

(** [s] starts with the literal text [p] of a pattern that has the [i]
    flag; [p] is written in lower case. *)
Fixpoint startsWith_i (s p : jsstring) : bool :=
  match p, s with
  | [], _ => true
  | a :: p', b :: s' => (a =? ascii_lower b)%N && startsWith_i s' p'
  | _ :: _, [] => false
  end.

(** The group that [s.match(/literal(group)/i)] captures: at the leftmost
    position where the literal is found and [group] matches what follows
    it. *)
Fixpoint match_after (literal : jsstring)
    (group : jsstring -> option jsstring) (s : jsstring) : option jsstring :=
  let here :=
    if startsWith_i s literal then group (skipn (length literal) s)
    else None in
  match here with
  | Some captured => Some captured
  | None =>
      match s with
      | [] => None
      | _ :: r => match_after literal group r
      end
  end.

(** The group [([A-Z0-9]{10})] under the [i] flag. *)
Definition ten_alnum (s : jsstring) : option jsstring :=
  let captured := firstn 10 s in
  if (length captured =? 10)%nat && forallb is_alnum captured
  then Some captured else None.

(** A group [(class+)] at the end of a pattern: the longest run, which is
    not empty. *)
Definition run_of (class : N -> bool) (s : jsstring) : option jsstring :=
  match take_while class s with
  | [] => None
  | captured => Some captured
  end.

(** [a || b] where [a] may be [undefined]. *)
Definition opt_or (a : option jsstring) (b : jsstring) : jsstring :=
  match a with
  | Some x => or_else x b
  | None => b
  end.

(** [a || undefined] where [a] may be [null]. *)
Definition opt_truthy (a : option jsstring) : option jsstring :=
  match a with
  | Some x => if truthy x then Some x else None
  | None => None
  end.

End JSString.

(** The value of [v] after [for (c of candidates) { v = c; if (hit(v)) break; }]
    when [v] was [init] before the loop. *)
Fixpoint loop_until {A : Type} (hit : A -> bool) (init : A)
    (candidates : list A) : A :=
  match candidates with
  | [] => init
  | c :: r => if hit c then c else loop_until hit c r
  end.

(** The value of [v] after
    [for (c of candidates) { if (hit(c)) { v = c; break; } }]. *)
Definition first_such {A : Type} (hit : A -> bool) (init : A)
    (candidates : list A) : A :=
  match List.find hit candidates with
  | Some c => c
  | None => init
  end.

(** ** JavaScript numbers *)

Module JSNumber.

Inductive number : Type :=
| NaN
| Infinity (negative : bool)
| Finite (q : Q).

Definition zero : number := Finite 0.
Definition of_Z (z : Z) : number := Finite (inject_Z z).

Definition is_nan (x : number) : bool :=
  match x with NaN => true | _ => false end.

Definition Qltb (a b : Q) : bool := negb (Qle_bool b a).
Definition Qsign_neg (a : Q) : bool := Qltb a 0.

Definition neg (x : number) : number :=
  match x with
  | NaN => NaN
  | Infinity s => Infinity (negb s)
  | Finite q => Finite (- q)
  end.

Definition add (x y : number) : number :=
  match x, y with
  | NaN, _ | _, NaN => NaN
  | Infinity s, Infinity t => if Bool.eqb s t then Infinity s else NaN
  | Infinity s, Finite _ | Finite _, Infinity s => Infinity s
  | Finite a, Finite b => Finite (a + b)
  end.

Definition sub (x y : number) : number := add x (neg y).

Definition mul (x y : number) : number :=
  match x, y with
  | NaN, _ | _, NaN => NaN
  | Infinity s, Infinity t => Infinity (xorb s t)
  | Infinity s, Finite a | Finite a, Infinity s =>
      if Qeq_bool a 0 then NaN else Infinity (xorb s (Qsign_neg a))
  | Finite a, Finite b => Finite (a * b)
  end.

Definition div (x y : number) : number :=
  match x, y with
  | NaN, _ | _, NaN => NaN
  | Infinity _, Infinity _ => NaN
  | Infinity s, Finite b => Infinity (xorb s (Qsign_neg b))
  | Finite _, Infinity _ => Finite 0
  | Finite a, Finite b =>
      if Qeq_bool b 0
      then (if Qeq_bool a 0 then NaN else Infinity (Qsign_neg a))
      else Finite (a / b)
  end.

(** [x < y]; every comparison with [NaN] is false. *)
Definition ltb (x y : number) : bool :=
  match x, y with
  | NaN, _ | _, NaN => false
  | Infinity s, Infinity t => s && negb t
  | Infinity s, Finite _ => s
  | Finite _, Infinity t => negb t
  | Finite a, Finite b => Qltb a b
  end.

Definition gtb (x y : number) : bool := ltb y x.

(** [x <= y]. *)
Definition leb (x y : number) : bool :=
  match x, y with
  | NaN, _ | _, NaN => false
  | Infinity s, Infinity t => s || negb t
  | Infinity s, Finite _ => s
  | Finite _, Infinity t => negb t
  | Finite a, Finite b => Qle_bool a b
  end.

Definition geb (x y : number) : bool := leb y x.

(** [x === y]. *)
Definition eqb (x y : number) : bool :=
  match x, y with
  | Infinity s, Infinity t => Bool.eqb s t
  | Finite a, Finite b => Qeq_bool a b
  | _, _ => false
  end.

(** Truthiness: [NaN] and zero are falsy. *)
Definition truthy (x : number) : bool :=
  match x with
  | NaN => false
  | Infinity _ => true
  | Finite q => negb (Qeq_bool q 0)
  end.

(** [x || y] on numbers. *)
Definition or_else (x y : number) : number := if truthy x then x else y.

Definition Math_min (x y : number) : number :=
  match x, y with
  | NaN, _ | _, NaN => NaN
  | _, _ => if ltb y x then y else x
  end.

Definition Math_max (x y : number) : number :=
  match x, y with
  | NaN, _ | _, NaN => NaN
  | _, _ => if ltb x y then y else x
  end.

(** [Math.round]: the nearest integer, ties towards +Infinity. *)
Definition Math_round (x : number) : number :=
  match x with
  | Finite q => of_Z (Qfloor (q + (1 # 2)))
  | _ => x
  end.

(** The integer stored in a number; [None] when there is none. *)
Definition to_Z (x : number) : option Z :=
  match x with
  | Finite q => if Qeq_bool (inject_Z (Qfloor q)) q then Some (Qfloor q) else None
  | _ => None
  end.

(** [parseInt(s, 10)] of a string: optional blanks, optional sign, digits. *)
Definition parseInt (s : list N) : number :=
  let s1 := JSString.drop_while JSString.is_space s in
  let '(sgn, s2) :=
    match s1 with
    | c :: r => if (c =? 45)%N then (true, r)
                else if (c =? 43)%N then (false, r) else (false, s1)
    | [] => (false, s1)
    end in
  match JSString.take_while JSString.is_digit s2 with
  | [] => NaN
  | ds => of_Z (if sgn then - JSString.digits_val ds else JSString.digits_val ds)
  end.

(** The exponent part [e[+-]ddd] at the head of [s], zero when absent. *)
Definition exponent_part (s : list N) : Z :=
  match s with
  | c :: r =>
      if ((c =? 101) || (c =? 69))%N then
        let '(sgn, r1) :=
          match r with
          | d :: r' => if (d =? 45)%N then (true, r')
                       else if (d =? 43)%N then (false, r') else (false, r)
          | [] => (false, r)
          end in
        match JSString.take_while JSString.is_digit r1 with
        | [] => 0
        | ds => if sgn then - JSString.digits_val ds else JSString.digits_val ds
        end
      else 0
  | [] => 0
  end.

(** [m * 10^k] as a rational. *)
Definition scale10 (m k : Z) : Q :=
  if 0 <=? k then inject_Z (m * 10 ^ k) else m # Z.to_pos (10 ^ (- k)).

(** [parseFloat]: the longest prefix that is a StrDecimalLiteral. *)
Definition parseFloat (s : list N) : number :=
  let s1 := JSString.drop_while JSString.is_space s in
  let '(sgn, s2) :=
    match s1 with
    | c :: r => if (c =? 45)%N then (true, r)
                else if (c =? 43)%N then (false, r) else (false, s1)
    | [] => (false, s1)
    end in
  if JSString.startsWith s2 (JSString.str "Infinity") then Infinity sgn
  else
    let ip := JSString.take_while JSString.is_digit s2 in
    let r1 := JSString.drop_while JSString.is_digit s2 in
    let '(fp, r2) :=
      match r1 with
      | c :: r => if (c =? 46)%N
                  then (JSString.take_while JSString.is_digit r,
                        JSString.drop_while JSString.is_digit r)
                  else ([], r1)
      | [] => ([], r1)
      end in
    match ip ++ fp with
    | [] => NaN
    | ds =>
        let m := JSString.digits_val ds in
        let k := exponent_part r2 - Z.of_nat (length fp) in
        Finite (scale10 (if sgn then - m else m) k)
    end.

Declare Scope js_scope.
Delimit Scope js_scope with js.
Bind Scope js_scope with number.
Infix "+" := add : js_scope.
Infix "-" := sub : js_scope.
Infix "*" := mul : js_scope.
Infix "/" := div : js_scope.
Infix "<?" := ltb : js_scope.
Infix ">?" := gtb : js_scope.
Infix "<=?" := leb : js_scope.
Infix ">=?" := geb : js_scope.
Infix "===" := eqb (at level 70) : js_scope.

End JSNumber.

Import JSString JSNumber.
Coercion Finite : Q >-> number.

(** ** Object literals used as tables *)

Module JSObject.

(** The properties that an object literal inherits from
    [Object.prototype]; their values are functions and objects. *)
Definition Object_prototype : list jsstring := [
  str "constructor"; str "__defineGetter__"; str "__defineSetter__";
  str "hasOwnProperty"; str "__lookupGetter__"; str "__lookupSetter__";
  str "isPrototypeOf"; str "propertyIsEnumerable"; str "toString";
  str "valueOf"; str "__proto__"; str "toLocaleString"
].

Definition inherited (key : jsstring) : bool :=
  existsb (JSString.eqb key) Object_prototype.

(** What a property access finds in a literal whose own properties are
    numbers. *)
Inductive value : Type :=
| Own (n : number)
| Inherited
| Undefined.

(** [o[key]]: the own property, else the one of the prototype, else
    [undefined]. *)
Definition get (o : gmap jsstring number) (key : jsstring) : value :=
  match o !! key with
  | Some n => Own n
  | None => if inherited key then Inherited else Undefined
  end.

(** Functions and objects are truthy, [undefined] is falsy. *)
Definition truthy (v : value) : bool :=
  match v with
  | Own n => JSNumber.truthy n
  | Inherited => true
  | Undefined => false
  end.

(** [a || b] *)
Definition or_else (a b : value) : value := if truthy a then a else b.

(** The number that arithmetic takes a value for: a function, an object
    of the prototype and [undefined] convert to [NaN]. *)
Definition to_number (v : value) : number :=
  match v with
  | Own n => n
  | Inherited | Undefined => NaN
  end.

End JSObject.

(** ** Price parsing (both scrapers have the same function) *)

Module Price.

(** [s.replace(/[R$\s]/g, "")] *)
Definition strip_currency (s : jsstring) : jsstring :=
  List.filter
    (fun c => negb ((c =? chr "R")%N || (c =? chr "$")%N || is_space c)) s.

Definition three_digits_ahead (s : jsstring) : bool :=
  match s with
  | a :: b :: c :: _ => is_digit a && is_digit b && is_digit c
  | _ => false
  end.

(** [s.replace(/\.(?=\d{3})/g, "")] *)
Fixpoint strip_thousands (s : jsstring) : jsstring :=
  match s with
  | [] => []
  | c :: r =>
      if (c =? chr ".")%N && three_digits_ahead r
      then strip_thousands r
      else c :: strip_thousands r
  end.

(** [s.replace(",", ".")]: the first comma only. *)
Fixpoint comma_to_dot (s : jsstring) : jsstring :=
  match s with
  | [] => []
  | c :: r => if (c =? chr ",")%N then chr "." :: r else c :: comma_to_dot r
  end.

Definition cleaned (priceStr : jsstring) : jsstring :=
  comma_to_dot (strip_thousands (strip_currency priceStr)).

Definition parsePrice (priceStr : jsstring) : number :=
  if negb (JSString.truthy priceStr) then zero
  else
    let price := parseFloat (cleaned priceStr) in
    if is_nan price then zero else price.

End Price.


(** ** Arrays and Maps of the JavaScript library *)

Module JSArray.

Section Ops.
Context {A : Type}.

(** [arr.slice(0, end)]: a negative [end] counts from the end of the
    array. *)
Definition slice0 (arr : list A) (end_ : Z) : list A :=
  let len := Z.of_nat (length arr) in
  let final := if end_ <? 0 then Z.max (len + end_) 0 else Z.min end_ len in
  firstn (Z.to_nat final) arr.

(** [arr.sort(cmp)] is a stable sort (ECMAScript 2019): with a consistent
    comparator its result is the one of any stable sorting algorithm;
    insertion from the right is used here.  [cmp a b > 0] means that [a]
    goes after [b]. *)
Fixpoint insert (cmp : A -> A -> Z) (x : A) (sorted : list A) : list A :=
  match sorted with
  | [] => [x]
  | y :: r => if 0 <? cmp x y then y :: insert cmp x r else x :: sorted
  end.

Definition sort (cmp : A -> A -> Z) (arr : list A) : list A :=
  fold_right (insert cmp) [] arr.

End Ops.

End JSArray.

Module JSMap.

Section Ops.
Context {V : Type}.

(** Entries in insertion order. *)
Definition t : Type := list (jsstring * V).

Definition empty : t := [].

Fixpoint get (m : t) (k : jsstring) : option V :=
  match m with
  | [] => None
  | (k', v) :: r => if JSString.eqb k k' then Some v else get r k
  end.

(** [m.set(k, v)]: a key that is present keeps its position. *)
Fixpoint set (m : t) (k : jsstring) (v : V) : t :=
  match m with
  | [] => [(k, v)]
  | (k', v') :: r =>
      if JSString.eqb k k' then (k, v) :: r else (k', v') :: set r k v
  end.

(** [Array.from(m.values())] *)
Definition values (m : t) : list V := List.map snd m.

End Ops.

End JSMap.

(** ** The network and the session trace *)

Module Net.

(** What one attempt observes: the body of a 2xx response, or the
    message of whatever the [try] block threw (network error, abort on
    timeout, non-2xx status). *)
Inductive response : Type :=
| Body (html : jsstring)
| Failure (errorMsg : jsstring).

(** The answer to the request issued when the request counter has just
    become [n], for the given URL. *)
Definition oracle : Type := nat -> jsstring -> response.

Inductive event : Type :=
| Request (url : jsstring)
| Skipped (url : jsstring)
| Slept (ms : Z)
| RandomDelay (minMs maxMs : Z)
| LimitReached.

Definition requests (log : list event) : list jsstring :=
  flat_map (fun e => match e with Request u => [u] | _ => [] end) log.

End Net.

Import Net.

(** ** The community-deal scraper *)

Module Community.

Record Config : Type := {
  MAX_REQUESTS : nat;
  DELAY_MIN_MS : Z;
  DELAY_MAX_MS : Z;
  MAX_RETRIES : nat;
  RETRY_DELAY_MS : Z;
  TIMEOUT_MS : Z;
  MAX_PRODUCTS_PER_SOURCE : nat;
  MIN_UPVOTES : number;
  MIN_DISCOUNT : number
}.

Definition CONFIG : Config := {|
  MAX_REQUESTS := 4;
  DELAY_MIN_MS := 3000;
  DELAY_MAX_MS := 6000;
  MAX_RETRIES := 2;
  RETRY_DELAY_MS := 2000;
  TIMEOUT_MS := 20000;
  MAX_PRODUCTS_PER_SOURCE := 30;
  MIN_UPVOTES := 5%Q;
  MIN_DISCOUNT := 10%Q
|}.

Record Selectors : Type := {
  sel_dealCard : jsstring;
  sel_title : jsstring;
  sel_price : jsstring;
  sel_originalPrice : jsstring;
  sel_discount : jsstring;
  sel_link : jsstring;
  sel_image : jsstring;
  sel_upvotes : jsstring;
  sel_category : jsstring
}.

Record Source : Type := {
  src_name : jsstring;
  src_url : jsstring;
  selectors : Selectors
}.

Definition COMMUNITY_SOURCES : list Source := [
  {| src_name := str "Pelando";
     src_url := str "https://www.pelando.com.br/search?q=amazon";
     selectors := {|
       sel_dealCard :=
         str "[data-t=" ++ dq ++ str "dealCard" ++ dq
         ++ str "], .sc-b0f6b0c2-0, .dealCard";
       sel_title :=
         str "[data-t=" ++ dq ++ str "dealTitle" ++ dq
         ++ str "], .thread-title, .dealTitle";
       sel_price :=
         str "[data-t=" ++ dq ++ str "dealPrice" ++ dq
         ++ str "], .dealPrice, .thread-price";
       sel_originalPrice :=
         str "[data-t=" ++ dq ++ str "originalPrice" ++ dq
         ++ str "], .originalPrice, .thread-price-old";
       sel_discount :=
         str "[data-t=" ++ dq ++ str "discount" ++ dq
         ++ str "], .discount-badge, .dealDiscount";
       sel_link := str "a[href*=" ++ dq ++ str "amazon" ++ dq ++ str "]";
       sel_image :=
         str "img[src*=" ++ dq ++ str "amazon" ++ dq
         ++ str "], img[data-src*=" ++ dq ++ str "amazon" ++ dq ++ str "]";
       sel_upvotes :=
         str "[data-t=" ++ dq ++ str "voteCount" ++ dq
         ++ str "], .vote-count, .dealVotes";
       sel_category :=
         str "[data-t=" ++ dq ++ str "category" ++ dq
         ++ str "], .category-tag, .threadCategory"
     |} |};
  {| src_name := str "Promobit";
     src_url := str "https://www.promobit.com.br/promocoes/loja/amazon";
     selectors := {|
       sel_dealCard := str ".offer-card, .promotion-card, [data-offer-id]";
       sel_title := str ".offer-title, .promotion-title, h2 a";
       sel_price := str ".offer-price, .price-current, .promotion-price";
       sel_originalPrice := str ".offer-price-old, .price-old";
       sel_discount := str ".offer-discount, .discount-tag";
       sel_link := str "a[href*=" ++ dq ++ str "amazon" ++ dq ++ str "]";
       sel_image := str "img.offer-image, img.promotion-image";
       sel_upvotes := str ".offer-votes, .vote-count";
       sel_category := str ".offer-category, .category-name"
     |} |}
].

(** The entries in the order of [Object.entries]. *)
Definition CATEGORY_KEYWORDS : list (jsstring * list jsstring) := [
  (str "electronics",
   [str "eletrônico"; str "celular"; str "smartphone"; str "notebook";
    str "tablet"; str "fone"; str "tv"; str "monitor"; str "ssd"; str "hd";
    str "mouse"; str "teclado"; str "webcam"; str "câmera"; str "console";
    str "playstation"; str "xbox"; str "switch"; str "gamer"]);
  (str "home",
   [str "casa"; str "cozinha"; str "eletrodoméstico"; str "aspirador";
    str "cafeteira"; str "liquidificador"; str "airfryer"; str "panela";
    str "fogão"; str "geladeira"; str "micro-ondas"; str "ventilador";
    str "ar condicionado"]);
  (str "sports",
   [str "esporte"; str "academia"; str "fitness"; str "bike";
    str "bicicleta"; str "tênis"; str "corrida"; str "whey";
    str "suplemento"; str "haltere"; str "esteira"]);
  (str "toys",
   [str "brinquedo"; str "lego"; str "boneca"; str "carrinho"; str "jogo";
    str "nerf"; str "barbie"; str "hot wheels"])
].

Definition CATEGORY_WEIGHTS : gmap jsstring number :=
  <[ str "electronics" := Finite 100 ]>
  (<[ str "home" := Finite 80 ]>
  (<[ str "sports" := Finite 75 ]>
  (<[ str "toys" := Finite 70 ]>
  (<[ str "other" := Finite 50 ]> ∅)))).

(** [dealScore] is only ever written from [calculateDealScore], whose
    result is an integer there (see [community_stored_score] and
    [amazon_stored_score]); it is kept as an integer, the domain on which
    the comparator of the final sort is consistent. *)
Record CommunityDeal : Type := {
  id : jsstring;
  title : jsstring;
  price : number;
  originalPrice : option number;
  discount : number;
  dealUrl : jsstring;
  amazonUrl : option jsstring;
  asin : option jsstring;
  imageUrl : jsstring;
  upvotes : number;
  category : jsstring;
  normalizedCategory : jsstring;
  source : jsstring;
  dealScore : Z;
  scrapedAt : Z
}.

Record ScrapeStats : Type := {
  requestCount : nat;
  dealsFound : nat;
  errors : list jsstring;
  startTime : Z
}.

(** The session: its statistics and what it did on the network. *)
Record session : Type := { stats : ScrapeStats; trace : list event }.

Definition count_request (url : jsstring) (w : session) : session :=
  {| stats := {| requestCount := S (requestCount (stats w));
                 dealsFound := dealsFound (stats w);
                 errors := errors (stats w);
                 startTime := startTime (stats w) |};
     trace := trace w ++ [Request url] |}.

Definition push_error (msg : jsstring) (w : session) : session :=
  {| stats := {| requestCount := requestCount (stats w);
                 dealsFound := dealsFound (stats w);
                 errors := errors (stats w) ++ [msg];
                 startTime := startTime (stats w) |};
     trace := trace w |}.

Definition add_found (n : nat) (w : session) : session :=
  {| stats := {| requestCount := requestCount (stats w);
                 dealsFound := dealsFound (stats w) + n;
                 errors := errors (stats w);
                 startTime := startTime (stats w) |};
     trace := trace w |}.

Definition emit (e : event) (w : session) : session :=
  {| stats := stats w; trace := trace w ++ [e] |}.

(** *** HTTP fetching *)

(** The [for] loop of [fetchWithRetry] from attempt number [attempt],
    with [remaining] iterations left. *)
Fixpoint attempts (cfg : Config) (net : oracle) (url : jsstring)
    (remaining attempt : nat) (w : session) : option jsstring * session :=
  match remaining with
  | O => (None, w)
  | S remaining' =>
      let w1 := count_request url w in
      match net (requestCount (stats w1)) url with
      | Body html => (Some html, w1)
      | Failure errorMsg =>
          let w2 :=
            if (attempt <? MAX_RETRIES cfg)%nat
            then emit (Slept (RETRY_DELAY_MS cfg * Z.of_nat attempt)) w1
            else push_error
                   (str "Failed to fetch " ++ url ++ str ": " ++ errorMsg) w1 in
          attempts cfg net url remaining' (S attempt) w2
      end
  end.

Definition fetchWithRetry (cfg : Config) (net : oracle) (url : jsstring)
    (w : session) : option jsstring * session :=
  if (MAX_REQUESTS cfg <=? requestCount (stats w))%nat
  then (None, emit (Skipped url) w)
  else attempts cfg net url (MAX_RETRIES cfg) 1 w.

(** *** Parsing functions *)

Definition parsePrice := Price.parsePrice.

Definition parseDiscount (discountStr : jsstring) : number :=
  if negb (JSString.truthy discountStr) then zero
  else match first_digit_run discountStr with
       | Some ds => parseInt ds
       | None => zero
       end.

Definition parseUpvotes (voteStr : jsstring) : number :=
  if negb (JSString.truthy voteStr) then zero
  else
    let cleaned :=
      List.filter (fun c => is_digit c || (c =? chr "-")%N) voteStr in
    or_else (parseInt cleaned) zero.

Section Helpers.

(** The case mappings of [String.prototype] and the conversion of a
    number to a string are parameters. *)
Variable toLowerCase toUpperCase : jsstring -> jsstring.
Variable Number_toString : number -> jsstring.

(** Each pattern of [extractAsin]: its literal text and its group. *)
Definition patterns : list (jsstring * (jsstring -> option jsstring)) := [
  (str "amazon.com.br/dp/", ten_alnum);
  (str "amazon.com.br/gp/product/", ten_alnum);
  (str "amzn.to/", run_of is_alnum);
  (str "tag=", run_of (fun c => negb (c =? chr "&")%N))
].

(** The loop over the patterns. *)
Fixpoint firstAsin (patterns : list (jsstring * (jsstring -> option jsstring)))
    (url : jsstring) : option jsstring :=
  match patterns with
  | [] => None
  | (literal, group) :: rest =>
      match match_after literal group url with
      | Some captured =>
          if (length captured =? 10)%nat then Some (toUpperCase captured)
          else firstAsin rest url
      | None => firstAsin rest url
      end
  end.

Definition extractAsin (url : jsstring) : option jsstring :=
  if negb (JSString.truthy url) then None else firstAsin patterns url.

Definition normalizeCategory (text : jsstring) : jsstring :=
  let lower := toLowerCase text in
  match List.find
          (fun entry => existsb (fun kw => includes lower kw) (snd entry))
          CATEGORY_KEYWORDS with
  | Some entry => fst entry
  | None => str "other"
  end.

Definition generateDealId (source title : jsstring) (price : number)
    : jsstring :=
  let hash :=
    substring0 20
      (List.filter
         (fun c => (97 <=? c) && (c <=? 122) || is_digit c)%N
         (toLowerCase title)) in
  toLowerCase source ++ str "-" ++ hash ++ str "-"
  ++ Number_toString (Math_round price).

End Helpers.

(** *** Deal score *)

Definition has_asin (deal : CommunityDeal) : bool :=
  match asin deal with
  | Some a => JSString.truthy a
  | None => false
  end.

Section Scorer.
Variable Math_log10 : number -> number.

Definition calculateDealScore (deal : CommunityDeal) : number :=
  let discount := or_else (discount deal) zero in
  let upvotes := or_else (upvotes deal) zero in
  let category := JSString.or_else (normalizedCategory deal) (str "other") in
  let discountScore := Math_min (discount / 40%Q * 100%Q) 100%Q in
  let upvoteScore :=
    Math_min (Math_log10 (Math_max upvotes 1%Q + 1%Q) / 2%Q * 100%Q) 100%Q in
  let categoryScore :=
    JSObject.or_else (JSObject.get CATEGORY_WEIGHTS category)
      (JSObject.get CATEGORY_WEIGHTS (str "other")) in
  let asinBonus : number := if has_asin deal then 15%Q else 0%Q in
  let score :=
    (discountScore * 0.35%Q + upvoteScore * 0.30%Q
     + JSObject.to_number categoryScore * 0.20%Q + asinBonus)%js in
  Math_round (Math_min score 100%Q).
End Scorer.

(** *** Quality filtering and deduplication *)

Definition filterQualityDeals (cfg : Config) (deals : list CommunityDeal)
    : list CommunityDeal :=
  List.filter
    (fun d =>
       if negb (JSString.truthy (title d)) || (length (title d) <? 10)%nat
       then false
       else if (price d >? 0%Q)%js
               && ((price d <? 20%Q)%js || (price d >? 3000%Q)%js)
       then false
       else if (upvotes d <? MIN_UPVOTES cfg)%js then false
       else if (discount d <? MIN_DISCOUNT cfg)%js then false
       else true)
    deals.

(** [deal.asin || deal.id] *)
Definition dedup_key (deal : CommunityDeal) : jsstring :=
  match asin deal with
  | Some a => JSString.or_else a (id deal)
  | None => id deal
  end.

Definition dedup_step (seen : JSMap.t) (deal : CommunityDeal) : JSMap.t :=
  let key := dedup_key deal in
  match JSMap.get seen key with
  | None => JSMap.set seen key deal
  | Some existing =>
      if dealScore deal >? dealScore existing
      then JSMap.set seen key deal
      else seen
  end.

Definition deduplicateDeals (deals : list CommunityDeal) : list CommunityDeal :=
  JSMap.values (fold_left dedup_step deals JSMap.empty).

(** The post-processing of [discoverCommunityDeals]: deduplicate,
    filter, sort by score and take the top [limit]. *)
Definition postProcess (cfg : Config) (allDeals : list CommunityDeal)
    (limit : Z) : list CommunityDeal :=
  let allDeals := deduplicateDeals allDeals in
  let allDeals := filterQualityDeals cfg allDeals in
  let allDeals :=
    JSArray.sort (fun a b => dealScore b - dealScore a) allDeals in
  JSArray.slice0 allDeals limit.

(** *** Source scrapers *)

(** [deal.dealScore = score] *)
Definition set_dealScore (deal : CommunityDeal) (score : Z) : CommunityDeal :=
  {| id := id deal; title := title deal; price := price deal;
     originalPrice := originalPrice deal; discount := discount deal;
     dealUrl := dealUrl deal; amazonUrl := amazonUrl deal; asin := asin deal;
     imageUrl := imageUrl deal; upvotes := upvotes deal;
     category := category deal;
     normalizedCategory := normalizedCategory deal; source := source deal;
     dealScore := score; scrapedAt := scrapedAt deal |}.

(** The integer that [Math.round] returned. *)
Definition score_value (x : number) : Z :=
  match to_Z x with
  | Some z => z
  | None => 0
  end.

Section Extractor.
Variable cfg : Config.

(** The DOM library, as the extractor uses it on the document loaded
    from [html]: [select html sel] are the elements of [$(sel)] in
    document order; [find_text el sel] is
    [$el.find(sel).first().text()]; [find_attr el sel name] is
    [$el.find(sel).first().attr(name)]; [find_all_attr el sel name] is
    [attr(name)] of each element of [$el.find(sel).toArray()]. *)
Variable Elem : Type.
Variable select : jsstring -> jsstring -> list Elem.
Variable find_text : Elem -> jsstring -> jsstring.
Variable find_attr : Elem -> jsstring -> jsstring -> option jsstring.
Variable find_all_attr : Elem -> jsstring -> jsstring -> list (option jsstring).

(** The library functions that are parameters, and the clock. *)
Variable toLowerCase toUpperCase : jsstring -> jsstring.
Variable Number_toString : number -> jsstring.
Variable Date_now : Z.
Variable Math_log10 : number -> number.

Definition comma : jsstring := str ", ".

Definition cardTitle (source : Source) (el : Elem) : jsstring :=
  loop_until JSString.truthy []
    (List.map (fun sel => trim (find_text el sel))
       (split (sel_title (selectors source)) comma)).

Definition cardAmazonUrl (source : Source) (el : Elem) : jsstring :=
  let amazonUrl :=
    first_such (fun href => includes href (str "amazon")) []
      (List.map (fun sel => opt_or (find_attr el sel (str "href")) [])
         (split (sel_link (selectors source)) comma)) in
  if negb (JSString.truthy amazonUrl)
  then first_such
         (fun href => includes href (str "amazon") || includes href (str "amzn"))
         []
         (List.map (fun href => opt_or href [])
            (find_all_attr el (str "a") (str "href")))
  else amazonUrl.

Definition cardPrice (source : Source) (el : Elem) : number :=
  loop_until (fun price => (price >? 0%Q)%js) zero
    (List.map (fun sel => parsePrice (find_text el sel))
       (split (sel_price (selectors source)) comma)).

Definition cardOriginalPrice (source : Source) (el : Elem) : number :=
  loop_until (fun originalPrice => (originalPrice >? 0%Q)%js) zero
    (List.map (fun sel => parsePrice (find_text el sel))
       (split (sel_originalPrice (selectors source)) comma)).

(** The discount badge: the first selector whose text parses to a
    positive number. *)
Definition cardBadge (source : Source) (el : Elem) : number :=
  loop_until (fun discount => (discount >? 0%Q)%js) zero
    (List.map (fun sel => parseDiscount (find_text el sel))
       (split (sel_discount (selectors source)) comma)).

(** "Extract or calculate discount" *)
Definition cardDiscount (source : Source) (el : Elem) : number :=
  let price := cardPrice source el in
  let originalPrice := cardOriginalPrice source el in
  let discount := cardBadge source el in
  if (discount === 0%Q)%js && (originalPrice >? price)%js && (price >? 0%Q)%js
  then Math_round ((originalPrice - price) / originalPrice * 100%Q)
  else discount.

Definition cardUpvotes (source : Source) (el : Elem) : number :=
  loop_until (fun upvotes => negb (upvotes === 0%Q)%js) zero
    (List.map (fun sel => parseUpvotes (find_text el sel))
       (split (sel_upvotes (selectors source)) comma)).

Definition imageOf (el : Elem) (sel : jsstring) : jsstring :=
  opt_or (find_attr el sel (str "src"))
    (opt_or (find_attr el sel (str "data-src")) []).

Definition cardImage (source : Source) (el : Elem) : jsstring :=
  let imageUrl :=
    loop_until JSString.truthy [] 
      (List.map (imageOf el) (split (sel_image (selectors source)) comma)) in
  if negb (JSString.truthy imageUrl) then imageOf el (str "img") else imageUrl.

Definition cardCategory (source : Source) (el : Elem) : jsstring :=
  loop_until JSString.truthy []
    (List.map (fun sel => trim (find_text el sel))
       (split (sel_category (selectors source)) comma)).

(** The deal built from a card whose title and Amazon link were found. *)
Definition buildDeal (source : Source) (el : Elem)
    (title amazonUrl : jsstring) : CommunityDeal :=
  let asin := extractAsin toUpperCase amazonUrl in
  let price := cardPrice source el in
  let originalPrice := cardOriginalPrice source el in
  let discount := cardDiscount source el in
  let upvotes := cardUpvotes source el in
  let imageUrl := cardImage source el in
  let category := cardCategory source el in
  let dealUrl := opt_or (find_attr el (str "a") (str "href")) [] in
  let deal := {|
    id :=
      opt_or asin
        (generateDealId toLowerCase Number_toString (src_name source) title
           price);
    title := substring0 250 title;
    price := price;
    originalPrice :=
      if JSNumber.truthy originalPrice then Some originalPrice else None;
    discount := discount;
    dealUrl :=
      if startsWith dealUrl (str "http") then dealUrl
      else str "https://" ++ toLowerCase (src_name source)
           ++ str ".com.br" ++ dealUrl;
    amazonUrl := Some amazonUrl;
    asin := opt_truthy asin;
    imageUrl := imageUrl;
    upvotes := upvotes;
    category := JSString.or_else category (str "Geral");
    normalizedCategory :=
      normalizeCategory toLowerCase (title ++ str " " ++ category);
    source := src_name source;
    dealScore := 0;
    scrapedAt := Date_now
  |} in
  set_dealScore deal (score_value (calculateDealScore Math_log10 deal)).

(** The callback of [$(cardSelector).each]: the deals collected so far
    and the titles already processed, after the card [el]. *)
Definition scrapeCard (source : Source)
    (st : list CommunityDeal * gset jsstring) (el : Elem)
    : list CommunityDeal * gset jsstring :=
  let '(deals, processedTitles) := st in
  if (MAX_PRODUCTS_PER_SOURCE cfg <=? length deals)%nat then st
  else
    let title := cardTitle source el in
    if negb (JSString.truthy title) || (length title <? 10)%nat then st
    else
      let titleKey := substring0 50 (toLowerCase title) in
      if bool_decide (titleKey ∈ processedTitles) then st
      else
        let processedTitles := processedTitles ∪ {[ titleKey ]} in
        let amazonUrl := cardAmazonUrl source el in
        if negb (JSString.truthy amazonUrl) then (deals, processedTitles)
        else (deals ++ [buildDeal source el title amazonUrl], processedTitles).

(** The loop over the card selectors, from the state [st]. *)
Fixpoint scrapeSelectors (html : jsstring) (source : Source)
    (cardSelectors : list jsstring)
    (st : list CommunityDeal * gset jsstring)
    : list CommunityDeal * gset jsstring :=
  match cardSelectors with
  | [] => st
  | cardSelector :: rest =>
      let st' := fold_left (scrapeCard source) (select html cardSelector) st in
      if (0 <? length (fst st'))%nat then st'
      else scrapeSelectors html source rest st'
  end.

Definition scrapeDealsFromHTML (html : jsstring) (source : Source)
    : list CommunityDeal :=
  fst (scrapeSelectors html source
         (split (sel_dealCard (selectors source)) comma) ([], ∅)).

(** *** Main discovery function *)

Variable net : oracle.

(** The loop over the sources, from the deals and the session so far. *)
Fixpoint scrapeSources (sources : list Source)
    (allDeals : list CommunityDeal) (w : session)
    : list CommunityDeal * session :=
  match sources with
  | [] => (allDeals, w)
  | source :: rest =>
      if (MAX_REQUESTS cfg <=? requestCount (stats w))%nat
      then (allDeals, emit LimitReached w)
      else
        let '(html, w1) := fetchWithRetry cfg net (src_url source) w in
        let '(allDeals1, w2) :=
          match html with
          | Some html =>
              if JSString.truthy html then
                let deals := scrapeDealsFromHTML html source in
                (allDeals ++ deals, add_found (length deals) w1)
              else (allDeals, w1)
          | None => (allDeals, w1)
          end in
        let w3 :=
          if (requestCount (stats w2) <? MAX_REQUESTS cfg)%nat
          then emit (RandomDelay (DELAY_MIN_MS cfg) (DELAY_MAX_MS cfg)) w2
          else w2 in
        scrapeSources rest allDeals1 w3
  end.

Definition new_session (now : Z) : session :=
  {| stats := {| requestCount := 0; dealsFound := 0; errors := [];
                 startTime := now |};
     trace := [] |}.

(** [discoverCommunityDeals(limit = 20)] over the configured sources;
    [None] is the call without an argument. *)
Definition discoverCommunityDeals (sources : list Source)
    (limit : option Z) : list CommunityDeal * session :=
  let limit := match limit with Some l => l | None => 20 end in
  let '(allDeals, w) := scrapeSources sources [] (new_session Date_now) in
  (postProcess cfg allDeals limit, w).

End Extractor.

End Community.


(** ** The Amazon scraper *)

Module Amazon.

Record Config : Type := {
  MAX_REQUESTS_PER_SESSION : nat;
  DELAY_MIN_MS : Z;
  DELAY_MAX_MS : Z;
  MAX_RETRIES : nat;
  RETRY_DELAY_MS : Z;
  TIMEOUT_MS : Z;
  MAX_PRODUCTS_PER_SOURCE : nat;
  MIN_PRICE : number;
  MAX_PRICE : number;
  MIN_RATING : number;
  MIN_REVIEWS : number
}.

Definition CONFIG : Config := {|
  MAX_REQUESTS_PER_SESSION := 6;
  DELAY_MIN_MS := 8000;
  DELAY_MAX_MS := 15000;
  MAX_RETRIES := 2;
  RETRY_DELAY_MS := 5000;
  TIMEOUT_MS := 30000;
  MAX_PRODUCTS_PER_SOURCE := 25;
  MIN_PRICE := 25%Q;
  MAX_PRICE := 2500%Q;
  MIN_RATING := 3.0%Q;
  MIN_REVIEWS := 10%Q
|}.

Definition CATEGORY_MAPPING : list (jsstring * list jsstring) := [
  (str "electronics",
   [str "Eletrônicos"; str "TV, Áudio e Cinema em Casa";
    str "PC e Eletrônicos Portáteis"; str "Celulares";
    str "Câmera e Fotografia"; str "Videogames e Consoles";
    str "Acessórios para Eletrônicos"; str "Informática"; str "Games";
    str "Computadores"; str "Tablets"; str "Fones de Ouvido";
    str "Smart Home"; str "Wearables"]);
  (str "home",
   [str "Casa"; str "Eletrodomésticos de Linha Branca";
    str "Cozinha, Jardim e Piscina"; str "Móveis";
    str "Ferramentas e Construção"; str "Eletrodomésticos"; str "Cozinha";
    str "Decoração"; str "Organização"; str "Limpeza"; str "Iluminação"]);
  (str "sports",
   [str "Esportes, Aventura e Lazer"; str "Esportes"; str "Academia";
    str "Fitness"; str "Outdoor"; str "Camping"; str "Ciclismo";
    str "Natação"; str "Corrida"; str "Musculação"]);
  (str "toys",
   [str "Brinquedos e Jogos"; str "Brinquedos"; str "Games";
    str "Jogos de Tabuleiro"; str "LEGO"; str "Bonecas"; str "Carrinhos";
    str "Jogos Eletrônicos"])
].

Definition CATEGORY_ALIASES : list (jsstring * list jsstring) := [
  (str "sports",
   [str "esporte"; str "esportes"; str "academia"; str "fitness";
    str "aventura"; str "outdoor"; str "camping"; str "ciclismo";
    str "bike"; str "corrida"]);
  (str "electronics",
   [str "eletrônico"; str "eletronico"; str "tech"; str "tecnologia";
    str "celular"; str "smartphone"; str "computador"; str "pc";
    str "gamer"; str "notebook"; str "tablet"; str "fone"]);
  (str "home",
   [str "casa"; str "lar"; str "cozinha"; str "jardim"; str "móvel";
    str "movel"; str "decoração"; str "decoracao"; str "eletrodomestico";
    str "limpeza"]);
  (str "toys",
   [str "brinquedo"; str "brinquedos"; str "jogos"; str "infantil";
    str "criança"; str "lego"; str "boneca"])
].

Definition CATEGORY_WEIGHTS : gmap jsstring number :=
  <[ str "electronics" := Finite 100 ]>
  (<[ str "home" := Finite 80 ]>
  (<[ str "sports" := Finite 75 ]>
  (<[ str "toys" := Finite 70 ]>
  (<[ str "other" := Finite 40 ]> ∅)))).

Definition AMAZON_BASE : jsstring := str "https://www.amazon.com.br".

Inductive SourceType : Type := deals | bestsellers.

Record ScrapeSource : Type := {
  src_url : jsstring;
  src_category : jsstring;
  src_type : SourceType
}.

Definition SCRAPE_SOURCES : list ScrapeSource := [
  {| src_url := AMAZON_BASE ++ str "/deals";
     src_category := str "general"; src_type := deals |};
  {| src_url := AMAZON_BASE ++ str "/gp/bestsellers/electronics";
     src_category := str "electronics"; src_type := bestsellers |};
  {| src_url := AMAZON_BASE ++ str "/gp/bestsellers/kitchen";
     src_category := str "home"; src_type := bestsellers |};
  {| src_url := AMAZON_BASE ++ str "/gp/bestsellers/sports";
     src_category := str "sports"; src_type := bestsellers |};
  {| src_url := AMAZON_BASE ++ str "/gp/bestsellers/toys";
     src_category := str "toys"; src_type := bestsellers |};
  {| src_url := AMAZON_BASE ++ str "/gp/most-wished-for/electronics";
     src_category := str "electronics"; src_type := bestsellers |}
].

(** [dealScore] is only ever written from [calculateDealScore]; see
    [Community.CommunityDeal]. *)
Record ScrapedProduct : Type := {
  asin : jsstring;
  title : jsstring;
  price : number;
  originalPrice : option number;
  discount : number;
  imageUrl : jsstring;
  productUrl : jsstring;
  rating : number;
  reviewCount : number;
  category : jsstring;
  normalizedCategory : jsstring;
  dealScore : Z;
  source : SourceType;
  scrapedAt : Z
}.

Record ScrapeStats : Type := {
  requestCount : nat;
  productsFound : nat;
  errors : list jsstring;
  startTime : Z
}.

Record session : Type := { stats : ScrapeStats; trace : list event }.

Definition count_request (url : jsstring) (w : session) : session :=
  {| stats := {| requestCount := S (requestCount (stats w));
                 productsFound := productsFound (stats w);
                 errors := errors (stats w);
                 startTime := startTime (stats w) |};
     trace := trace w ++ [Request url] |}.

Definition push_error (msg : jsstring) (w : session) : session :=
  {| stats := {| requestCount := requestCount (stats w);
                 productsFound := productsFound (stats w);
                 errors := errors (stats w) ++ [msg];
                 startTime := startTime (stats w) |};
     trace := trace w |}.

Definition add_found (n : nat) (w : session) : session :=
  {| stats := {| requestCount := requestCount (stats w);
                 productsFound := productsFound (stats w) + n;
                 errors := errors (stats w);
                 startTime := startTime (stats w) |};
     trace := trace w |}.

Definition emit (e : event) (w : session) : session :=
  {| stats := stats w; trace := trace w ++ [e] |}.

(** *** HTTP fetching with retry *)

Definition looks_blocked (html : jsstring) : bool :=
  includes html (str "captcha") || includes html (str "robot")
  || includes html (str "automated").

Fixpoint attempts (cfg : Config) (net : oracle) (url : jsstring)
    (remaining attempt : nat) (w : session) : option jsstring * session :=
  match remaining with
  | O => (None, w)
  | S remaining' =>
      let w1 := count_request url w in
      match net (requestCount (stats w1)) url with
      | Body html =>
          if looks_blocked html
          then (None,
                emit (Slept (RETRY_DELAY_MS cfg * 2))
                  (push_error (str "Bot detection on " ++ url) w1))
          else (Some html, w1)
      | Failure errorMsg =>
          let w2 :=
            if (attempt <? MAX_RETRIES cfg)%nat
            then emit (Slept (RETRY_DELAY_MS cfg * Z.of_nat attempt)) w1
            else push_error
                   (str "Failed to fetch " ++ url ++ str ": " ++ errorMsg) w1 in
          attempts cfg net url remaining' (S attempt) w2
      end
  end.

Definition fetchWithRetry (cfg : Config) (net : oracle) (url : jsstring)
    (w : session) : option jsstring * session :=
  if (MAX_REQUESTS_PER_SESSION cfg <=? requestCount (stats w))%nat
  then (None, emit (Skipped url) w)
  else attempts cfg net url (MAX_RETRIES cfg) 1 w.

(** *** Parsing helpers *)

Definition parsePrice := Price.parsePrice.

Definition parseRating (ratingStr : jsstring) : number :=
  if negb (JSString.truthy ratingStr) then zero
  else match digit_sep_digit ratingStr with
       | Some (a, b) => parseFloat [a; chr "."; b]
       | None => zero
       end.

Definition parseReviewCount (reviewStr : jsstring) : number :=
  if negb (JSString.truthy reviewStr) then zero
  else
    let cleaned :=
      List.filter (fun c => negb ((c =? chr ".")%N || is_space c)) reviewStr in
    match first_digit_run cleaned with
    | Some ds => parseInt ds
    | None => zero
    end.

(** Each pattern of [extractAsin]: its literal text; the group is
    [([A-Z0-9]{10})] in all of them. *)
Definition patterns : list jsstring :=
  [str "/dp/"; str "/gp/product/"; str "/product/"; str "asin="].

(** The loop over the patterns.  The group holds ASCII letters and digits
    only, on which [toUpperCase] is [ascii_upper]. *)
Fixpoint firstAsin (patterns : list jsstring) (url : jsstring)
    : option jsstring :=
  match patterns with
  | [] => None
  | literal :: rest =>
      match match_after literal ten_alnum url with
      | Some captured => Some (List.map ascii_upper captured)
      | None => firstAsin rest url
      end
  end.

Definition extractAsin (url : jsstring) : option jsstring :=
  if negb (JSString.truthy url) then None else firstAsin patterns url.

Section Helpers.

(** [String.prototype.toLowerCase], the case mapping of Unicode, is a
    parameter. *)
Variable toLowerCase : jsstring -> jsstring.

Definition normalizeCategory (amazonCategory : jsstring) : jsstring :=
  if negb (JSString.truthy amazonCategory) then str "other"
  else
    let lower := toLowerCase amazonCategory in
    match List.find
            (fun entry =>
               existsb (fun cat => includes lower (toLowerCase cat))
                 (snd entry))
            CATEGORY_MAPPING with
    | Some entry => fst entry
    | None =>
        match List.find
                (fun entry =>
                   existsb (fun alias => includes lower alias) (snd entry))
                CATEGORY_ALIASES with
        | Some entry => fst entry
        | None => str "other"
        end
    end.

End Helpers.

(** *** Deal score *)

Section Scorer.
Variable Math_log10 : number -> number.

Definition calculateDealScore (product : ScrapedProduct) : number :=
  let discount := or_else (discount product) zero in
  let rating := or_else (rating product) zero in
  let reviews := or_else (reviewCount product) zero in
  let category :=
    JSString.or_else (normalizedCategory product) (str "other") in
  let discountScore := Math_min (discount / 40%Q * 100%Q) 100%Q in
  let ratingScore := Math_max ((rating - 3%Q) / 2%Q * 100%Q) 0%Q in
  let reviewScore :=
    Math_min
      (Math_log10 (Math_max reviews 1%Q) / Math_log10 5000%Q * 100%Q)
      100%Q in
  let categoryScore :=
    JSObject.or_else (JSObject.get CATEGORY_WEIGHTS category)
      (JSObject.get CATEGORY_WEIGHTS (str "other")) in
  let sourceBonus : number :=
    match source product with deals => 10%Q | bestsellers => 0%Q end in
  let score :=
    (discountScore * 0.30%Q + ratingScore * 0.25%Q
     + reviewScore * 0.20%Q + JSObject.to_number categoryScore * 0.15%Q
     + sourceBonus)%js in
  Math_round (Math_min score 100%Q).
End Scorer.

(** *** Quality filtering and deduplication *)

Definition filterQualityProducts (cfg : Config)
    (products : list ScrapedProduct) : list ScrapedProduct :=
  List.filter
    (fun p =>
       if negb (JSString.truthy (asin p)) || negb (length (asin p) =? 10)%nat
       then false
       else if negb (JSString.truthy (title p)) || (length (title p) <? 10)%nat
       then false
       else if (price p <? MIN_PRICE cfg)%js || (price p >? MAX_PRICE cfg)%js
       then false
       else if (rating p >? 0%Q)%js && (rating p <? MIN_RATING cfg)%js
       then false
       else if (reviewCount p >? 0%Q)%js && (reviewCount p <? MIN_REVIEWS cfg)%js
       then false
       else true)
    products.

Definition dedup_step (seen : JSMap.t) (product : ScrapedProduct) : JSMap.t :=
  match JSMap.get seen (asin product) with
  | None => JSMap.set seen (asin product) product
  | Some existing =>
      if dealScore product >? dealScore existing
      then JSMap.set seen (asin product) product
      else seen
  end.

Definition deduplicateProducts (products : list ScrapedProduct)
    : list ScrapedProduct :=
  JSMap.values (fold_left dedup_step products JSMap.empty).

(** The post-processing of [discoverProducts]. *)
Definition postProcess (cfg : Config) (allProducts : list ScrapedProduct)
    (limit : Z) : list ScrapedProduct :=
  let allProducts := deduplicateProducts allProducts in
  let allProducts := filterQualityProducts cfg allProducts in
  let allProducts :=
    JSArray.sort (fun a b => dealScore b - dealScore a) allProducts in
  JSArray.slice0 allProducts limit.

(** *** Page scrapers *)

Definition set_dealScore (product : ScrapedProduct) (score : Z)
    : ScrapedProduct :=
  {| asin := asin product; title := title product; price := price product;
     originalPrice := originalPrice product; discount := discount product;
     imageUrl := imageUrl product; productUrl := productUrl product;
     rating := rating product; reviewCount := reviewCount product;
     category := category product;
     normalizedCategory := normalizedCategory product;
     dealScore := score; source := source product;
     scrapedAt := scrapedAt product |}.

Definition selectors : list jsstring := [
  str "[data-asin]:not([data-asin=" ++ dq ++ dq ++ str "])";
  str ".zg-item-immersion";
  str ".p13n-sc-uncoverable-faceout";
  str "[data-deal-id]";
  str ".DealCard-module__card";
  str ".s-result-item[data-asin]";
  str ".octopus-pc-item"
].

Definition titleSelectors : list jsstring := [
  str ".p13n-sc-truncate";
  str "._cDEzb_p13n-sc-css-line-clamp-3_g3dy1";
  str ".a-link-normal span";
  str "[data-a-dynamic-image]";
  str "h2 a span";
  str ".a-size-base-plus";
  str "img[alt]"
].

Definition priceSelectors : list jsstring := [
  str ".a-price .a-offscreen";
  str ".p13n-sc-price";
  str ".a-color-price";
  str "[data-a-color='price'] .a-offscreen"
].

Section Extractor.
Variable cfg : Config.

(** The DOM library, as in [Community]; in addition [el_attr el name] is
    [$el.attr(name)] and [find_last_text el sel] is
    [$el.find(sel).last().text()]. *)
Variable Elem : Type.
Variable select : jsstring -> jsstring -> list Elem.
Variable el_attr : Elem -> jsstring -> option jsstring.
Variable find_text : Elem -> jsstring -> jsstring.
Variable find_last_text : Elem -> jsstring -> jsstring.
Variable find_attr : Elem -> jsstring -> jsstring -> option jsstring.

(** Parameters: [toLowerCase], the clock, the logarithm, and
    [first_dynamic_image s], the first key of the object that
    [JSON.parse(s)] returns ([None] when parsing throws or the object has
    no key). *)
Variable toLowerCase : jsstring -> jsstring.
Variable first_dynamic_image : jsstring -> option jsstring.
Variable Date_now : Z.
Variable Math_log10 : number -> number.

Definition cardAsin (el : Elem) : jsstring :=
  let asin := opt_or (el_attr el (str "data-asin")) [] in
  if negb (JSString.truthy asin) then
    let link :=
      opt_or (find_attr el (str "a[href*='/dp/'], a[href*='/product/']")
                (str "href")) [] in
    opt_or (extractAsin link) []
  else asin.

Definition cardTitle (el : Elem) : jsstring :=
  let title :=
    first_such (fun text => JSString.truthy text && (5 <? length text)%nat) []
      (List.map (fun titleSel => trim (find_text el titleSel)) titleSelectors) in
  if negb (JSString.truthy title)
  then opt_or (find_attr el (str "img") (str "alt")) []
  else title.

Definition cardPrice (el : Elem) : number :=
  loop_until (fun price => (price >? 0%Q)%js) zero
    (List.map (fun priceSel => parsePrice (find_text el priceSel))
       priceSelectors).

Definition cardOriginalPrice (el : Elem) : number :=
  parsePrice
    (find_text el
       (str ".a-text-price .a-offscreen, .a-price[data-a-strike] .a-offscreen")).

(** The discount computed from the two prices, zero when it does not
    apply. *)
Definition computedDiscount (price originalPrice : number) : number :=
  if (originalPrice >? price)%js && (price >? 0%Q)%js
  then Math_round ((originalPrice - price) / originalPrice * 100%Q)
  else zero.

Definition cardBadge (el : Elem) : option number :=
  match percent_run false
          (find_text el (str ".a-badge-text, .savingsPercentage")) with
  | Some ds => Some (parseInt ds)
  | None => None
  end.

(** "Calculate discount", then "Also try to find discount badge". *)
Definition cardDiscount (el : Elem) : number :=
  let discount := computedDiscount (cardPrice el) (cardOriginalPrice el) in
  if (discount === 0%Q)%js then
    match cardBadge el with
    | Some badge => badge
    | None => discount
    end
  else discount.

Definition cardImage (el : Elem) : jsstring :=
  let imageUrl :=
    opt_or (find_attr el (str "img") (str "src"))
      (opt_or (find_attr el (str "img") (str "data-src")) []) in
  match opt_truthy (find_attr el (str "img") (str "data-a-dynamic-image")) with
  | Some dynamicImage =>
      match first_dynamic_image dynamicImage with
      | Some url => url
      | None => imageUrl
      end
  | None => imageUrl
  end.

Definition cardRating (el : Elem) : number :=
  let ratingText :=
    JSString.or_else
      (find_text el (str ".a-icon-alt, [aria-label*='estrela']"))
      (opt_or (find_attr el (str ".a-icon-alt, [aria-label*='star']")
                 (str "aria-label")) []) in
  parseRating ratingText.

Definition cardReviewCount (el : Elem) : number :=
  parseReviewCount
    (find_last_text el
       (str ".a-size-small span[aria-label], .a-link-normal .a-size-small")).

(** The product built from a card whose ASIN and title were found. *)
Definition buildProduct (category : jsstring) (source : SourceType)
    (el : Elem) (asin title : jsstring) : ScrapedProduct :=
  let price := cardPrice el in
  let originalPrice := cardOriginalPrice el in
  let productCategory :=
    if JSString.eqb category (str "general")
    then normalizeCategory toLowerCase title else category in
  let product := {|
    asin := asin;
    title := substring0 250 title;
    price := price;
    originalPrice :=
      if JSNumber.truthy originalPrice then Some originalPrice else None;
    discount := cardDiscount el;
    imageUrl := cardImage el;
    productUrl := AMAZON_BASE ++ str "/dp/" ++ asin;
    rating := cardRating el;
    reviewCount := cardReviewCount el;
    category := productCategory;
    normalizedCategory := normalizeCategory toLowerCase productCategory;
    dealScore := 0;
    source := source;
    scrapedAt := Date_now
  |} in
  set_dealScore product
    (Community.score_value (calculateDealScore Math_log10 product)).

(** The callback of [$(selector).each]. *)
Definition scrapeCard (category : jsstring) (source : SourceType)
    (st : list ScrapedProduct * gset jsstring) (el : Elem)
    : list ScrapedProduct * gset jsstring :=
  let '(products, processedAsins) := st in
  if (MAX_PRODUCTS_PER_SOURCE cfg <=? length products)%nat then st
  else
    let asin := cardAsin el in
    if negb (JSString.truthy asin) || negb (length asin =? 10)%nat
       || bool_decide (asin ∈ processedAsins)
    then st
    else
      let processedAsins := processedAsins ∪ {[ asin ]} in
      let title := cardTitle el in
      if negb (JSString.truthy title) || (length title <? 5)%nat
      then (products, processedAsins)
      else (products ++ [buildProduct category source el asin title],
            processedAsins).

(** The loop over the card selectors, from the state [st]. *)
Fixpoint scrapeSelectors (html category : jsstring) (source : SourceType)
    (sels : list jsstring) (st : list ScrapedProduct * gset jsstring)
    : list ScrapedProduct * gset jsstring :=
  match sels with
  | [] => st
  | selector :: rest =>
      let st' :=
        fold_left (scrapeCard category source) (select html selector) st in
      if (MAX_PRODUCTS_PER_SOURCE cfg <=? length (fst st'))%nat then st'
      else scrapeSelectors html category source rest st'
  end.

Definition scrapeProductsFromHTML (html category : jsstring)
    (source : SourceType) : list ScrapedProduct :=
  fst (scrapeSelectors html category source selectors ([], ∅)).

(** *** Main discovery function *)

Variable net : oracle.

Fixpoint scrapeSources (sources : list ScrapeSource)
    (allProducts : list ScrapedProduct) (w : session)
    : list ScrapedProduct * session :=
  match sources with
  | [] => (allProducts, w)
  | source :: rest =>
      if (MAX_REQUESTS_PER_SESSION cfg <=? requestCount (stats w))%nat
      then (allProducts, emit LimitReached w)
      else
        let '(html, w1) := fetchWithRetry cfg net (src_url source) w in
        let '(allProducts1, w2) :=
          match html with
          | Some html =>
              if JSString.truthy html then
                let products :=
                  scrapeProductsFromHTML html (src_category source)
                    (src_type source) in
                (allProducts ++ products, add_found (length products) w1)
              else (allProducts, w1)
          | None => (allProducts, w1)
          end in
        let w3 :=
          if (requestCount (stats w2) <? MAX_REQUESTS_PER_SESSION cfg)%nat
             && negb (match rest with [] => true | _ => false end)
          then emit (RandomDelay (DELAY_MIN_MS cfg) (DELAY_MAX_MS cfg)) w2
          else w2 in
        scrapeSources rest allProducts1 w3
  end.

Definition new_session (now : Z) : session :=
  {| stats := {| requestCount := 0; productsFound := 0; errors := [];
                 startTime := now |};
     trace := [] |}.

(** [discoverProducts(limit = 20)]; [None] is the call without an
    argument. *)
Definition discoverProducts (sources : list ScrapeSource)
    (limit : option Z) : list ScrapedProduct * session :=
  let limit := match limit with Some l => l | None => 20 end in
  let '(allProducts, w) := scrapeSources sources [] (new_session Date_now) in
  (postProcess cfg allProducts limit, w).

End Extractor.

End Amazon.


(** ** The creative generator: the lines of the title bar *)

Module Creative.

(** The body of the loop of [wrapText]: the lines pushed so far and the
    current line, after [word]. *)
Definition wrapStep (maxCharsPerLine : Z) (st : list jsstring * jsstring)
    (word : jsstring) : list jsstring * jsstring :=
  let '(lines, currentLine) := st in
  let testLine :=
    if JSString.truthy currentLine then currentLine ++ str " " ++ word
    else word in
  if Z.of_nat (length testLine) <=? maxCharsPerLine
  then (lines, testLine)
  else (if JSString.truthy currentLine then lines ++ [currentLine] else lines,
        word).

Definition wrapText (text : jsstring) (maxCharsPerLine : Z) : list jsstring :=
  let words := split text (str " ") in
  let '(lines, currentLine) :=
    fold_left (wrapStep maxCharsPerLine) words ([], []) in
  if JSString.truthy currentLine then lines ++ [currentLine] else lines.

(** The lines that [createTitleBarCanvas] draws. *)
Definition titleLines (text : jsstring) : list jsstring :=
  let maxCharsPerLine := 45%nat in
  let lines := JSArray.slice0 (wrapText text (Z.of_nat maxCharsPerLine)) 2 in
  match lines with
  | [line0; line1] =>
      if (maxCharsPerLine <? length line1)%nat
      then [line0; substring0 (maxCharsPerLine - 3) line1 ++ str "..."]
      else lines
  | [line0] =>
      if (maxCharsPerLine <? length line0)%nat
      then [substring0 (maxCharsPerLine - 3) line0 ++ str "..."]
      else lines
  | _ => lines
  end.

End Creative.

(** ** The functions that store the deals *)

Module FetchProducts.

(** [process.env.AMAZON_PARTNER_TAG || "ihuofertas-20"] *)
Definition PARTNER_TAG (env : option jsstring) : jsstring :=
  opt_or env (str "ihuofertas-20").

(** [admin.firestore.FieldValue.serverTimestamp()] *)
Inductive FieldValue : Type := serverTimestamp.

(** The document of a deal; [None] is [null]. *)
Record FirestoreProduct : Type := {
  id : jsstring;
  asin : option jsstring;
  title : jsstring;
  price : number;
  originalPrice : option number;
  discount : number;
  imageUrl : jsstring;
  affiliateLink : jsstring;
  dealUrl : jsstring;
  amazonUrl : option jsstring;
  category : jsstring;
  originalCategory : jsstring;
  upvotes : number;
  dealScore : Z;
  source : jsstring;
  fetchedAt : FieldValue;
  posted : bool;
  clicks : Z
}.

(** [x || null] on a number that may be [undefined]. *)
Definition number_or_null (x : option number) : option number :=
  match x with
  | Some n => if JSNumber.truthy n then Some n else None
  | None => None
  end.

Definition toFirestoreProduct (PARTNER_TAG : jsstring)
    (deal : Community.CommunityDeal) : FirestoreProduct :=
  let affiliateLink :=
    match opt_truthy (Community.asin deal) with
    | Some asin =>
        str "https://www.amazon.com.br/dp/" ++ asin ++ str "?tag="
        ++ PARTNER_TAG
    | None => opt_or (Community.amazonUrl deal) (Community.dealUrl deal)
    end in
  {| id := Community.id deal;
     asin := opt_truthy (Community.asin deal);
     title := Community.title deal;
     price := Community.price deal;
     originalPrice := number_or_null (Community.originalPrice deal);
     discount := Community.discount deal;
     imageUrl := Community.imageUrl deal;
     affiliateLink := affiliateLink;
     dealUrl := Community.dealUrl deal;
     amazonUrl := opt_truthy (Community.amazonUrl deal);
     category := Community.normalizedCategory deal;
     originalCategory := Community.category deal;
     upvotes := Community.upvotes deal;
     dealScore := Community.dealScore deal;
     source := Community.source deal;
     fetchedAt := serverTimestamp;
     posted := false;
     clicks := 0 |}.

(** The fields that an update of a stored deal carries. *)
Record PriceFields : Type := {
  upd_price : number;
  upd_originalPrice : option number;
  upd_discount : number;
  upd_upvotes : number;
  upd_dealScore : Z;
  upd_fetchedAt : FieldValue
}.

(** The writes queued in a batch on the collection [products]. *)
Inductive write : Type :=
| batch_set (docId : jsstring) (data : FirestoreProduct)
| batch_update (docId : jsstring) (data : PriceFields).

Definition write_id (w : write) : jsstring :=
  match w with
  | batch_set docId _ => docId
  | batch_update docId _ => docId
  end.

(** [(await docRef.get()).exists] at the [n]-th read of a run, for the
    document [docId]. *)
Definition reads : Type := nat -> jsstring -> bool.

(** [deal.asin || deal.id] *)
Definition docId (deal : Community.CommunityDeal) : jsstring :=
  match Community.asin deal with
  | Some asin => JSString.or_else asin (Community.id deal)
  | None => Community.id deal
  end.

(** The batch and the counters of a saving loop. *)
Record saving : Type := {
  batch : list write;
  readCount : nat;
  newCount : nat;
  updateCount : nat
}.

Definition no_saving : saving :=
  {| batch := []; readCount := 0; newCount := 0; updateCount := 0 |}.

(** The body of the loop of [fetchProductsScheduled]. *)
Definition scheduledStep (PARTNER_TAG : jsstring) (existing : reads)
    (st : saving) (deal : Community.CommunityDeal) : saving :=
  let n := S (readCount st) in
  if existing n (docId deal)
  then {| batch :=
            batch st
            ++ [batch_update (docId deal)
                  {| upd_price := Community.price deal;
                     upd_originalPrice :=
                       number_or_null (Community.originalPrice deal);
                     upd_discount := Community.discount deal;
                     upd_upvotes := Community.upvotes deal;
                     upd_dealScore := Community.dealScore deal;
                     upd_fetchedAt := serverTimestamp |}];
          readCount := n;
          newCount := newCount st;
          updateCount := S (updateCount st) |}
  else {| batch :=
            batch st
            ++ [batch_set (docId deal) (toFirestoreProduct PARTNER_TAG deal)];
          readCount := n;
          newCount := S (newCount st);
          updateCount := updateCount st |}.

(** The body of the loop of [fetchProductsManual]. *)
Definition manualStep (PARTNER_TAG : jsstring) (existing : reads)
    (st : saving) (deal : Community.CommunityDeal) : saving :=
  let n := S (readCount st) in
  if negb (existing n (docId deal))
  then {| batch :=
            batch st
            ++ [batch_set (docId deal) (toFirestoreProduct PARTNER_TAG deal)];
          readCount := n;
          newCount := S (newCount st);
          updateCount := updateCount st |}
  else {| batch := batch st; readCount := n; newCount := newCount st;
          updateCount := updateCount st |}.

(** The document added to the collection [metrics]. *)
Record Metric : Type := {
  name : jsstring;
  metric_source : jsstring;
  dealsDiscovered : nat;
  newProducts : nat;
  updatedProducts : nat;
  timestamp : FieldValue
}.

(** What a run of [fetchProductsScheduled] in which no call of Firestore
    throws does: nothing when no deal was discovered, else it commits the
    batch and adds the metric. *)
Inductive scheduled : Type :=
| no_deals
| saved (committed : list write) (metric : Metric).

Definition saveScheduled (PARTNER_TAG : jsstring) (existing : reads)
    (deals : list Community.CommunityDeal) : scheduled :=
  if (length deals =? 0)%nat then no_deals
  else
    let st := fold_left (scheduledStep PARTNER_TAG existing) deals no_saving in
    saved (batch st)
      {| name := str "product_fetch";
         metric_source := str "community";
         dealsDiscovered := length deals;
         newProducts := newCount st;
         updatedProducts := updateCount st;
         timestamp := serverTimestamp |}.

(** The request of [fetchProductsManual]: its method,
    [req.query.limit?.toString()], and [req.query.save] when it is a
    string. *)
Record Request : Type := {
  method : jsstring;
  query_limit : option jsstring;
  query_save : option jsstring
}.

(** One deal of the response. *)
Record Preview : Type := {
  pre_id : jsstring;
  pre_asin : option jsstring;
  pre_title : jsstring;
  pre_price : number;
  pre_discount : number;
  pre_upvotes : number;
  pre_dealScore : Z;
  pre_source : jsstring
}.

Record Body : Type := {
  success : bool;
  body_source : jsstring;
  body_dealsDiscovered : nat;
  body_newProducts : nat;
  savedToFirestore : bool;
  body_deals : list Preview
}.

Inductive Response : Type :=
| status_405 (error : jsstring)
| status_200 (body : Body).

(** [limitParam ? parseInt(limitParam, 10) : 20] *)
Definition manualLimit (limitParam : option jsstring) : number :=
  match limitParam with
  | Some s => if JSString.truthy s then parseInt s else of_Z 20
  | None => of_Z 20
  end.

(** The end index that [slice] makes of [Math.min(limit, 50)]: the fraction
    is dropped, and [NaN] counts as 0.  [-Infinity] counts as an end before
    the array, as 0 does for a slice from 0; the minimum is never
    [+Infinity]. *)
Definition sliceEnd (x : number) : Z :=
  match x with
  | Finite q => if Qle_bool 0 q then Qfloor q else Qceiling q
  | _ => 0
  end.

Definition preview (d : Community.CommunityDeal) : Preview :=
  {| pre_id := Community.id d;
     pre_asin := Community.asin d;
     pre_title :=
       substring0 60 (Community.title d)
       ++ (if (60 <? length (Community.title d))%nat then str "..." else []);
     pre_price := Community.price d;
     pre_discount := Community.discount d;
     pre_upvotes := Community.upvotes d;
     pre_dealScore := Community.dealScore d;
     pre_source := Community.source d |}.

Section Functions.
Variable cfg : Community.Config.
Variable Elem : Type.
Variable select : jsstring -> jsstring -> list Elem.
Variable find_text : Elem -> jsstring -> jsstring.
Variable find_attr : Elem -> jsstring -> jsstring -> option jsstring.
Variable find_all_attr : Elem -> jsstring -> jsstring -> list (option jsstring).
Variable toLowerCase toUpperCase : jsstring -> jsstring.
Variable Number_toString : number -> jsstring.
Variable Date_now : Z.
Variable Math_log10 : number -> number.
Variable net : oracle.

(** [COMMUNITY_SOURCES] of the scraper, the environment variable, and the
    state of the collection as the run reads it. *)
Variable sources : list Community.Source.
Variable AMAZON_PARTNER_TAG : option jsstring.
Variable existing : reads.

Definition discoverCommunityDeals (limit : Z)
    : list Community.CommunityDeal * Community.session :=
  Community.discoverCommunityDeals cfg Elem select find_text find_attr
    find_all_attr toLowerCase toUpperCase Number_toString Date_now
    Math_log10 net sources (Some limit).

Definition fetchProductsScheduled : scheduled :=
  let deals := fst (discoverCommunityDeals 20) in
  saveScheduled (PARTNER_TAG AMAZON_PARTNER_TAG) existing deals.

(** The response of [fetchProductsManual] and the batch that it committed,
    in a run in which no call of Firestore throws. *)
Definition fetchProductsManual (req : Request) : Response * list write :=
  if negb (JSString.eqb (method req) (str "POST"))
     && negb (JSString.eqb (method req) (str "GET"))
  then (status_405 (str "Method not allowed. Use POST or GET."), [])
  else
    let limit := manualLimit (query_limit req) in
    let saveToFirestore :=
      negb match query_save req with
           | Some s => JSString.eqb s (str "false")
           | None => false
           end in
    let deals :=
      fst (discoverCommunityDeals (sliceEnd (Math_min limit (of_Z 50)))) in
    let st :=
      if saveToFirestore && (0 <? length deals)%nat
      then fold_left (manualStep (PARTNER_TAG AMAZON_PARTNER_TAG) existing)
             deals no_saving
      else no_saving in
    (status_200
       {| success := true;
          body_source := str "community";
          body_dealsDiscovered := length deals;
          body_newProducts := newCount st;
          savedToFirestore := saveToFirestore;
          body_deals := List.map preview (JSArray.slice0 deals 10) |},
     batch st).

End Functions.

End FetchProducts.

(** ** Notions used to state the properties *)

Module Spec.

Section Ranking.
Context {A : Type}.
Variable key : A -> jsstring.
Variable score : A -> Z.

(** The listings of [l] whose identifier is [k], in the order of [l]. *)
Definition group (k : jsstring) (l : list A) : list A :=
  List.filter (fun d => JSString.eqb (key d) k) l.

(** [kept] is the listing of [grp] with the highest score, the
    first-seen one among those with that score. *)
Definition is_best (kept : A) (grp : list A) : Prop :=
  exists pre post,
    grp = pre ++ kept :: post /\
    Forall (fun d => score d < score kept) pre /\
    Forall (fun d => score d <= score kept) post.

(** The update of the [Map] that both deduplications perform. *)
Definition dedup_step (seen : JSMap.t) (d : A) : JSMap.t :=
  match JSMap.get seen (key d) with
  | None => JSMap.set seen (key d) d
  | Some existing =>
      if score d >? score existing then JSMap.set seen (key d) d else seen
  end.

(** The identifiers of [l] in the order of their first occurrence. *)
Fixpoint first_occurrences (seen : list jsstring) (l : list A)
    : list jsstring :=
  match l with
  | [] => []
  | d :: r =>
      if bool_decide (key d ∈ seen) then first_occurrences seen r
      else key d :: first_occurrences (seen ++ [key d]) r
  end.

(** Every entry of the map is filed under the identifier of its listing,
    and no identifier occurs twice. *)
Definition well_keyed (m : JSMap.t) : Prop :=
  List.NoDup (List.map fst m) /\ Forall (fun kv => key (snd kv) = fst kv) m.

(** After the listings [l], the map holds under each identifier the best
    listing of its group. *)
Definition holds_best (m : JSMap.t) (l : list A) : Prop :=
  forall k,
    match JSMap.get m k with
    | Some v => is_best v (group k l)
    | None => group k l = []
    end.

(** Scores never increase along the list. *)
Definition descending (l : list A) : Prop :=
  StronglySorted (fun a b => score b <= score a) l.

(** The listings of [l] whose score is [s], in the order of [l]. *)
Definition with_score (s : Z) (l : list A) : list A :=
  List.filter (fun d => score d =? s) l.

(** [x] occurs before [y] in [l]. *)
Definition precedes (x y : A) (l : list A) : Prop :=
  exists l1 l2 l3, l = l1 ++ x :: l2 ++ y :: l3.

(** The ranking as C1 words it: sorted by score, listings of equal
    score in the order in which they were discovered, at most [limit]
    of them. *)
Definition ranked_as_claimed (discovered result : list A) (limit : Z)
    : Prop :=
  descending result /\
  (forall x y, score x = score y ->
               precedes x y result -> precedes x y discovered) /\
  Z.of_nat (length result) <= limit.

End Ranking.

(** *** Scores *)

(** What the scorers rely on about [Math.log10], which ECMAScript leaves
    implementation-approximated: of a finite [x >= 1] it is a finite number
    that is not negative, of 5000 it is positive, and of [+Infinity] it is
    [+Infinity]. *)
Definition log10_ok (log10 : number -> number) : Prop :=
  (forall q, (1 <= q)%Q -> exists r, log10 (Finite q) = Finite r /\ (0 <= r)%Q) /\
  (exists r, log10 (Finite 5000) = Finite r /\ (0 < r)%Q) /\
  log10 (Infinity false) = Infinity false.

(** A logarithm to compute with: it is exact at 0, at 1 and at the
    infinities, and elsewhere the first term of the series of the logarithm
    in [(x - 1) / (x + 1)]. *)
Definition log10_series (x : number) : number :=
  match x with
  | NaN => NaN
  | Infinity negative => if negative then NaN else Infinity false
  | Finite q =>
      if Qle_bool q 0
      then (if Qeq_bool q 0 then Infinity true else NaN)
      else Finite ((q - 1) / (q + 1) * (868588 # 1000000))
  end.

(** Not [NaN] and not negative. *)
Definition nonneg (x : number) : Prop :=
  x = Infinity false \/ exists q, x = Finite q /\ (0 <= q)%Q.

(** A finite number between [lo] and [hi]. *)
Definition within (lo hi : Q) (x : number) : Prop :=
  exists q, x = Finite q /\ (lo <= q <= hi)%Q.

(** An integer between 0 and 100. *)
Definition is_score (x : number) : Prop :=
  exists z : Z, x = of_Z z /\ 0 <= z <= 100.

(** The canonical categories. *)
Definition canonical : list jsstring :=
  [str "electronics"; str "home"; str "sports"; str "toys"; str "other"].

(** *** The session budget *)

(** The URLs among [urls] that were requested at least once. *)
Definition attempted (urls : list jsstring) (log : list event) : list jsstring :=
  List.filter (fun u => existsb (JSString.eqb u) (requests log)) urls.

(** *** The quality filter *)

(** C4 as worded, for a community deal: the price is in the band, the votes
    and the discount are at or above their floors, the title is long
    enough. *)
Definition deal_passes_as_claimed (cfg : Community.Config)
    (d : Community.CommunityDeal) : Prop :=
  (Finite 20 <=? Community.price d)%js = true /\
  (Community.price d <=? Finite 3000)%js = true /\
  (Community.MIN_UPVOTES cfg <=? Community.upvotes d)%js = true /\
  (Community.MIN_DISCOUNT cfg <=? Community.discount d)%js = true /\
  (10 <= length (Community.title d))%nat.

(** C4 as worded, for an Amazon product; the popularity signals are the
    rating and the review count, and the configuration has no discount
    floor to test. *)
Definition product_passes_as_claimed (cfg : Amazon.Config)
    (p : Amazon.ScrapedProduct) : Prop :=
  (Amazon.MIN_PRICE cfg <=? Amazon.price p)%js = true /\
  (Amazon.price p <=? Amazon.MAX_PRICE cfg)%js = true /\
  (Amazon.MIN_RATING cfg <=? Amazon.rating p)%js = true /\
  (Amazon.MIN_REVIEWS cfg <=? Amazon.reviewCount p)%js = true /\
  (10 <= length (Amazon.title p))%nat.

(** *** Card discovery *)

(** C7 as worded, for the Amazon extractor: the products are those of the
    cards that one card selector matches. *)
Definition amazon_from_one_selector (cfg : Amazon.Config) (Elem : Type)
    (select : jsstring -> jsstring -> list Elem)
    (el_attr : Elem -> jsstring -> option jsstring)
    (find_text find_last_text : Elem -> jsstring -> jsstring)
    (find_attr : Elem -> jsstring -> jsstring -> option jsstring)
    (toLowerCase : jsstring -> jsstring)
    (first_dynamic_image : jsstring -> option jsstring)
    (Date_now : Z) (Math_log10 : number -> number)
    (html category : jsstring) (source : Amazon.SourceType)
    (result : list Amazon.ScrapedProduct) : Prop :=
  exists (selector : jsstring) (seen : gset jsstring),
    result
    = fst (fold_left
             (Amazon.scrapeCard cfg Elem el_attr find_text find_last_text
                find_attr toLowerCase first_dynamic_image
                Date_now Math_log10 category source)
             (select html selector) ([], seen)).

(** *** The discount of a card *)


(** C9 as worded: the four fields on which the score is said to depend. *)
Definition claimed_inputs_agree (d1 d2 : Community.CommunityDeal) : Prop :=
  Community.discount d1 = Community.discount d2 /\
  Community.upvotes d1 = Community.upvotes d2 /\
  Community.normalizedCategory d1 = Community.normalizedCategory d2 /\
  Community.source d1 = Community.source d2.

End Spec.

(** ** Sample listings for the concrete instances *)

Module Samples.

Definition deal (id : jsstring) (asin : option jsstring) (price : number)
    (discount upvotes : number) (source : jsstring) (score : Z)
    : Community.CommunityDeal :=
  {| Community.id := id;
     Community.title := str "Echo Dot 5ª geração com Alexa";
     Community.price := price;
     Community.originalPrice := None;
     Community.discount := discount;
     Community.dealUrl := str "https://www.pelando.com.br/d/echo-dot";
     Community.amazonUrl := Some (str "https://www.amazon.com.br/dp/B09B8VGCR8");
     Community.asin := asin;
     Community.imageUrl := str "https://m.media-amazon.com/images/I/echo.jpg";
     Community.upvotes := upvotes;
     Community.category := str "Eletrônicos";
     Community.normalizedCategory := str "electronics";
     Community.source := source;
     Community.dealScore := score;
     Community.scrapedAt := 1700000000000 |}.

(** One product seen on two sites, first with a low score, and another
    product seen in between. *)
Definition echo_low : Community.CommunityDeal :=
  deal (str "B09B8VGCR8") (Some (str "B09B8VGCR8")) 279.90%Q 10%Q 8%Q
    (str "Pelando") 40.

Definition kindle : Community.CommunityDeal :=
  deal (str "B0CP31L73X") (Some (str "B0CP31L73X")) 499%Q 30%Q 150%Q
    (str "Pelando") 70.

Definition echo_high : Community.CommunityDeal :=
  deal (str "B09B8VGCR8") (Some (str "B09B8VGCR8")) 229.90%Q 25%Q 90%Q
    (str "Promobit") 70.

(** A deal on whose card no price was found. *)
Definition echo_no_price : Community.CommunityDeal :=
  deal (str "B09B8VGCR8") (Some (str "B09B8VGCR8")) 0%Q 25%Q 90%Q
    (str "Promobit") 86.

(** [echo_low] has a discount of 10; this one has 5. *)
Definition echo_five : Community.CommunityDeal :=
  deal (str "B09B8VGCR8") (Some (str "B09B8VGCR8")) 279.90%Q 5%Q 8%Q
    (str "Pelando") 36.

Definition product (asin : jsstring) (price discount rating reviews : number)
    (source : Amazon.SourceType) (score : Z) : Amazon.ScrapedProduct :=
  {| Amazon.asin := asin;
     Amazon.title := str "Fone de Ouvido Bluetooth JBL Tune 510BT";
     Amazon.price := price;
     Amazon.originalPrice := None;
     Amazon.discount := discount;
     Amazon.imageUrl := str "https://m.media-amazon.com/images/I/jbl.jpg";
     Amazon.productUrl := Amazon.AMAZON_BASE ++ str "/dp/" ++ asin;
     Amazon.rating := rating;
     Amazon.reviewCount := reviews;
     Amazon.category := str "electronics";
     Amazon.normalizedCategory := str "electronics";
     Amazon.dealScore := score;
     Amazon.source := source;
     Amazon.scrapedAt := 1700000000000 |}.

Definition jbl_low : Amazon.ScrapedProduct :=
  product (str "B08WM3LMJF") 199.90%Q 0%Q 4.5%Q 1200%Q Amazon.bestsellers 40.

Definition jbl_high : Amazon.ScrapedProduct :=
  product (str "B08WM3LMJF") 179.90%Q 20%Q 4.5%Q 1200%Q Amazon.deals 70.

Definition mouse : Amazon.ScrapedProduct :=
  product (str "B07W6JN8V8") 89.90%Q 15%Q 4.7%Q 5400%Q Amazon.bestsellers 70.



(** The same offer as [echo_high] from the same site, with a link from
    which no ASIN could be read. *)
Definition echo_untracked : Community.CommunityDeal :=
  {| Community.id := str "promobit-echodot5geraocomalex-230";
     Community.title := str "Echo Dot 5 geração com Alexa - Preta";
     Community.price := 229.90%Q;
     Community.originalPrice := Some (Finite 399%Q);
     Community.discount := 25%Q;
     Community.dealUrl := str "https://www.promobit.com.br/oferta/echo-dot";
     Community.amazonUrl := Some (str "https://amzn.to/3xYzAbC");
     Community.asin := None;
     Community.imageUrl := str "https://i.promobit.com.br/echo.png";
     Community.upvotes := 90%Q;
     Community.category := str "Casa Inteligente";
     Community.normalizedCategory := str "electronics";
     Community.source := str "Promobit";
     Community.dealScore := 0;
     Community.scrapedAt := 1700000360000 |}.

(** Another site's listing of another product, with the discount, the
    votes and the category of [echo_high]. *)
Definition tablet : Community.CommunityDeal :=
  {| Community.id := str "B0BL5M5C4K";
     Community.title := str "Tablet Samsung Galaxy Tab A9 64GB";
     Community.price := 899%Q;
     Community.originalPrice := Some (Finite 1199%Q);
     Community.discount := 25%Q;
     Community.dealUrl := str "https://www.pelando.com.br/d/galaxy-tab";
     Community.amazonUrl := Some (str "https://www.amazon.com.br/dp/B0BL5M5C4K");
     Community.asin := Some (str "B0BL5M5C4K");
     Community.imageUrl := str "https://m.media-amazon.com/images/I/tab.jpg";
     Community.upvotes := 90%Q;
     Community.category := str "Tablets";
     Community.normalizedCategory := str "electronics";
     Community.source := str "Pelando";
     Community.dealScore := 0;
     Community.scrapedAt := 1700000720000 |}.

(** An Amazon product with the scoring inputs of [mouse] and nothing else
    in common with it. *)
Definition keyboard : Amazon.ScrapedProduct :=
  {| Amazon.asin := str "B09NQH8Z4P";
     Amazon.title := str "Teclado Mecânico Gamer Redragon Kumara";
     Amazon.price := 189.90%Q;
     Amazon.originalPrice := Some (Finite 223.40%Q);
     Amazon.discount := 15%Q;
     Amazon.imageUrl := str "https://m.media-amazon.com/images/I/kumara.jpg";
     Amazon.productUrl := Amazon.AMAZON_BASE ++ str "/dp/B09NQH8Z4P";
     Amazon.rating := 4.7%Q;
     Amazon.reviewCount := 5400%Q;
     Amazon.category := str "Informática";
     Amazon.normalizedCategory := str "electronics";
     Amazon.dealScore := 0;
     Amazon.source := Amazon.bestsellers;
     Amazon.scrapedAt := 1700000999000 |}.

(** A best seller whose card shows no rating, no review count and no
    discount. *)
Definition unrated : Amazon.ScrapedProduct :=
  product (str "B0C1H26C46") 149.90%Q 0%Q 0%Q 0%Q Amazon.bestsellers 15.

(** A small document model to run the extractors on: a card is given by
    what the queries of the extractor find in it. *)
Record card : Type := {
  own_attrs : list (jsstring * jsstring);
  texts : list (jsstring * jsstring);
  last_texts : list (jsstring * jsstring);
  attrs : list (jsstring * (jsstring * jsstring));
  anchors : list jsstring
}.

Fixpoint assoc {V : Type} (k : jsstring) (l : list (jsstring * V)) : option V :=
  match l with
  | [] => None
  | (k', v) :: r => if JSString.eqb k k' then Some v else assoc k r
  end.

Definition card_own (c : card) (name : jsstring) : option jsstring :=
  assoc name (own_attrs c).

Definition card_text (c : card) (sel : jsstring) : jsstring :=
  match assoc sel (texts c) with Some t => t | None => [] end.

Definition card_last_text (c : card) (sel : jsstring) : jsstring :=
  match assoc sel (last_texts c) with Some t => t | None => [] end.

Definition card_attr (c : card) (sel name : jsstring) : option jsstring :=
  match List.find (fun e => JSString.eqb sel (fst e) && JSString.eqb name (fst (snd e)))
          (attrs c) with
  | Some e => Some (snd (snd e))
  | None =>
      if JSString.eqb sel (str "a") && JSString.eqb name (str "href")
      then List.hd_error (anchors c) else None
  end.

Definition card_all_attr (c : card) (sel name : jsstring)
    : list (option jsstring) :=
  if JSString.eqb sel (str "a") && JSString.eqb name (str "href")
  then List.map Some (anchors c) else [].

(** A page: the cards that each card selector matches. *)
Definition page_select (page : list (jsstring * list card))
    (html sel : jsstring) : list card :=
  match assoc sel page with Some cs => cs | None => [] end.

(** Library functions to run the sessions with: the case mappings on the
    letters of ASCII and of Latin-1, and the decimal text of an integer. *)
Definition lower_case (s : jsstring) : jsstring :=
  List.map
    (fun c =>
       if ((65 <=? c) && (c <=? 90)
           || (192 <=? c) && (c <=? 222) && negb (c =? 215))%N
       then (c + 32)%N else c)
    s.

Definition upper_case (s : jsstring) : jsstring :=
  List.map
    (fun c =>
       if ((97 <=? c) && (c <=? 122)
           || (224 <=? c) && (c <=? 254) && negb (c =? 247))%N
       then (c - 32)%N else c)
    s.

Definition decimal (x : number) : jsstring :=
  match x with
  | NaN => str "NaN"
  | Infinity negative => if negative then str "-Infinity" else str "Infinity"
  | Finite q => str (NilZero.string_of_int (Z.to_int (Qfloor q)))
  end.

(** The extractors on a page of the document model. *)
Definition scrape_community (page : list (jsstring * list card))
    (toLowerCase toUpperCase : jsstring -> jsstring)
    (Number_toString : number -> jsstring) (Date_now : Z)
    (Math_log10 : number -> number) (source : Community.Source)
    : list Community.CommunityDeal :=
  Community.scrapeDealsFromHTML Community.CONFIG card (page_select page)
    card_text card_attr card_all_attr toLowerCase toUpperCase Number_toString
    Date_now Math_log10 (str "<html>") source.

Definition scrape_amazon (page : list (jsstring * list card))
    (toLowerCase : jsstring -> jsstring)
    (first_dynamic_image : jsstring -> option jsstring) (Date_now : Z)
    (Math_log10 : number -> number) (category : jsstring)
    (source : Amazon.SourceType) : list Amazon.ScrapedProduct :=
  Amazon.scrapeProductsFromHTML Amazon.CONFIG card (page_select page)
    card_own card_text card_last_text card_attr toLowerCase
    first_dynamic_image Date_now Math_log10 (str "<html>") category source.

(** The second community source. *)
Definition promobit : Community.Source :=
  List.nth 1 Community.COMMUNITY_SOURCES
    {| Community.src_name := []; Community.src_url := [];
       Community.selectors :=
         {| Community.sel_dealCard := []; Community.sel_title := [];
            Community.sel_price := []; Community.sel_originalPrice := [];
            Community.sel_discount := []; Community.sel_link := [];
            Community.sel_image := []; Community.sel_upvotes := [];
            Community.sel_category := [] |} |}.

(** A card of the second community source, with a badge of 25% and prices
    of 70 and 100. *)
Definition badge_card : card :=
  {| own_attrs := [];
     texts := [(str ".offer-title", str "Smartphone Samsung Galaxy A15 128GB");
               (str ".offer-price", str "R$ 70,00");
               (str ".offer-price-old", str "R$ 100,00");
               (str ".offer-discount", str "-25%");
               (str ".offer-votes", str "120")];
     last_texts := [];
     attrs := [(str "a[href*=" ++ dq ++ str "amazon" ++ dq ++ str "]",
                (str "href",
                 str "https://www.amazon.com.br/dp/B09B8VGCR8?tag=x"))];
     anchors := [str "https://www.amazon.com.br/dp/B09B8VGCR8?tag=x"] |}.

Definition badge_page : list (jsstring * list card) :=
  [(str ".offer-card", [badge_card])].

(** Two Amazon cards that different card selectors match: a best-seller
    tile with a [data-asin] attribute, and a deal tile without one. *)
Definition tile_card : card :=
  {| own_attrs := [(str "data-asin", str "B08WM3LMJF")];
     texts := [(str ".a-link-normal span", str "Fone de Ouvido JBL Tune 510BT");
               (str ".a-price .a-offscreen", str "R$ 199,90")];
     last_texts := [];
     attrs := [];
     anchors := [] |}.

Definition deal_card : card :=
  {| own_attrs := [(str "data-deal-id", str "a1b2c3")];
     texts := [(str ".a-link-normal span", str "Mouse Gamer Logitech G203");
               (str ".a-price .a-offscreen", str "R$ 89,90")];
     last_texts := [];
     attrs := [(str "a[href*='/dp/'], a[href*='/product/']",
                (str "href", str "/dp/B07W6JN8V8?ref=deal"))];
     anchors := [] |}.

Definition mixed_page : list (jsstring * list card) :=
  [(str "[data-asin]:not([data-asin=" ++ dq ++ dq ++ str "])", [tile_card]);
   (str "[data-deal-id]", [deal_card])].

(** Sessions on pages without cards: the document has no element. *)
Definition run_community (cfg : Community.Config) (net : oracle)
    (sources : list Community.Source) : list Community.CommunityDeal * Community.session :=
  Community.scrapeSources cfg Empty_set (fun _ _ => []) (fun _ _ => [])
    (fun _ _ _ => None) (fun _ _ _ => []) lower_case upper_case decimal 0
    Spec.log10_series net
    sources [] (Community.new_session 0).

Definition run_amazon (cfg : Amazon.Config) (net : oracle)
    (sources : list Amazon.ScrapeSource) : list Amazon.ScrapedProduct * Amazon.session :=
  Amazon.scrapeSources cfg Empty_set (fun _ _ => []) (fun _ _ => None)
    (fun _ _ => []) (fun _ _ => []) (fun _ _ _ => None) lower_case
    (fun _ => None) 0 Spec.log10_series net
    sources [] (Amazon.new_session 0).

(** The community configuration with a budget of 2 requests. *)
Definition budget_two : Community.Config :=
  {| Community.MAX_REQUESTS := 2;
     Community.DELAY_MIN_MS := Community.DELAY_MIN_MS Community.CONFIG;
     Community.DELAY_MAX_MS := Community.DELAY_MAX_MS Community.CONFIG;
     Community.MAX_RETRIES := Community.MAX_RETRIES Community.CONFIG;
     Community.RETRY_DELAY_MS := Community.RETRY_DELAY_MS Community.CONFIG;
     Community.TIMEOUT_MS := Community.TIMEOUT_MS Community.CONFIG;
     Community.MAX_PRODUCTS_PER_SOURCE :=
       Community.MAX_PRODUCTS_PER_SOURCE Community.CONFIG;
     Community.MIN_UPVOTES := Community.MIN_UPVOTES Community.CONFIG;
     Community.MIN_DISCOUNT := Community.MIN_DISCOUNT Community.CONFIG |}.

Definition site (name url : jsstring) : Community.Source :=
  {| Community.src_name := name;
     Community.src_url := url;
     Community.selectors :=
       {| Community.sel_dealCard := str ".offer-card";
          Community.sel_title := str ".offer-title";
          Community.sel_price := str ".offer-price";
          Community.sel_originalPrice := str ".offer-price-old";
          Community.sel_discount := str ".offer-discount";
          Community.sel_link := str "a";
          Community.sel_image := str "img";
          Community.sel_upvotes := str ".offer-votes";
          Community.sel_category := str ".offer-category" |} |}.

Definition five_urls : list jsstring :=
  [str "https://one.example/amazon"; str "https://two.example/amazon";
   str "https://three.example/amazon"; str "https://four.example/amazon";
   str "https://five.example/amazon"].

Definition five_sources : list Community.Source :=
  List.map (fun url => site (str "Site") url) five_urls.

Definition always_ok : oracle :=
  fun _ _ => Body (str "<html><body></body></html>").

Definition always_down : oracle :=
  fun _ _ => Failure (str "HTTP 503: Service Unavailable").

(** The first request of the session times out, every later one is
    answered. *)
Definition first_times_out : oracle :=
  fun n _ =>
    match n with
    | 1%nat => Failure (str "The operation was aborted.")
    | _ => Body (str "<html><body></body></html>")
    end.

(** The first [n] requests are answered, the later ones are not. *)
Definition down_after (n : nat) : oracle :=
  fun k _ =>
    if (k <=? n)%nat then Body (str "<html><body></body></html>")
    else Failure (str "HTTP 503: Service Unavailable").

(** A manual fetch of the page with the badge card, with no partner tag in
    the environment. *)
Definition manual_fetch (existing : FetchProducts.reads)
    (req : FetchProducts.Request)
    : FetchProducts.Response * list FetchProducts.write :=
  FetchProducts.fetchProductsManual Community.CONFIG card
    (page_select badge_page) card_text card_attr card_all_attr lower_case
    upper_case decimal 0 Spec.log10_series always_ok [promobit] None
    existing req.

Definition get_request (limit save : option jsstring)
    : FetchProducts.Request :=
  {| FetchProducts.method := str "GET";
     FetchProducts.query_limit := limit;
     FetchProducts.query_save := save |}.

End Samples.

(** ** Notions in which the behaviour of the code is stated *)

Module Behaviour.

(** *** Lines of text *)

Definition space : N := 32%N.

Definition spaceless (s : jsstring) : Prop := Forall (fun c => c <> space) s.

(** [s] without its spaces. *)
Definition unspaced (s : jsstring) : jsstring :=
  List.filter (fun c => negb (c =? space)%N) s.

(** A line fits in [m] characters, or is a single word. *)
Definition fits (m : Z) (l : jsstring) : Prop :=
  Z.of_nat (length l) <= m \/ spaceless l.

(** What the loop of [wrapText] keeps, after the words whose
    concatenation is [seen]. *)
Definition wrapped (m : Z) (st : list jsstring * jsstring) (seen : jsstring)
    : Prop :=
  Forall (fun l => JSString.truthy l = true /\ fits m l) (fst st) /\
  fits m (snd st) /\
  unspaced (concat (fst st) ++ snd st) = unspaced seen.

(** *** Extracted listings *)

Definition amazon_link (url : jsstring) : Prop :=
  includes url (str "amazon") = true \/ includes url (str "amzn") = true.

(** What every deal built from a card of [source] has. *)
Definition community_deal_ok (source : Community.Source)
    (d : Community.CommunityDeal) : Prop :=
  (10 <= length (Community.title d) <= 250)%nat /\
  (exists url,
     Community.amazonUrl d = Some url /\ url <> [] /\ amazon_link url) /\
  startsWith (Community.dealUrl d) (str "http") = true /\
  Community.source d = Community.src_name source /\
  Community.category d <> [].

(** What every product built from a card has. *)
Definition amazon_product_ok (source : Amazon.SourceType)
    (p : Amazon.ScrapedProduct) : Prop :=
  length (Amazon.asin p) = 10%nat /\
  (5 <= length (Amazon.title p) <= 250)%nat /\
  Amazon.source p = source /\
  Amazon.productUrl p = Amazon.AMAZON_BASE ++ str "/dp/" ++ Amazon.asin p.

(** What the Amazon extractor keeps of the products collected and of the
    ASINs seen. *)
Definition amazon_collected (cfg : Amazon.Config) (source : Amazon.SourceType)
    (st : list Amazon.ScrapedProduct * gset jsstring) : Prop :=
  List.NoDup (List.map Amazon.asin (fst st)) /\
  Forall (fun p => Amazon.asin p ∈ snd st /\ amazon_product_ok source p)
    (fst st) /\
  (length (fst st) <= Amazon.MAX_PRODUCTS_PER_SOURCE cfg)%nat.

(** [toLowerCase] on the characters of Latin-1, where the case mapping of
    Unicode moves the capital letters [A] to [Z] and [U+00C0] to [U+00DE],
    the multiplication sign apart, 32 places up. *)
Definition lowers_latin1 (toLowerCase : jsstring -> jsstring) : Prop :=
  forall s,
    Forall (fun c => (c < 256)%N) s -> toLowerCase s = Samples.lower_case s.

(** *** Fetching *)

(** The waits of a session, in milliseconds. *)
Definition sleeps (log : list event) : list Z :=
  flat_map (fun e => match e with Slept ms => [ms] | _ => [] end) log.

(** The outcome [r] of a run of the retry loop of the community fetcher
    that starts at attempt number [first] in the session [w], makes [k]
    requests and leaves the session [w']. *)
Definition community_outcome (cfg : Community.Config) (net : oracle)
    (url : jsstring) (first : nat) (w : Community.session)
    (r : option jsstring) (w' : Community.session) (k : nat) : Prop :=
  let rc := Community.requestCount (Community.stats w) in
  Community.requestCount (Community.stats w') = (rc + k)%nat /\
  (forall j, (1 <= j < k)%nat -> exists msg, net (rc + j)%nat url = Failure msg) /\
  sleeps (Community.trace w')
  = sleeps (Community.trace w)
    ++ List.map (fun a => Community.RETRY_DELAY_MS cfg * Z.of_nat a)
         (seq first (k - 1)) /\
  requests (Community.trace w') = requests (Community.trace w) ++ repeat url k /\
  Community.dealsFound (Community.stats w')
  = Community.dealsFound (Community.stats w) /\
  match r with
  | Some html =>
      (1 <= k)%nat /\ net (rc + k)%nat url = Body html /\
      Community.errors (Community.stats w') = Community.errors (Community.stats w)
  | None =>
      (first + k = Community.MAX_RETRIES cfg + 1)%nat /\
      match k with
      | O => Community.errors (Community.stats w')
             = Community.errors (Community.stats w)
      | S _ =>
          exists msg,
            net (rc + k)%nat url = Failure msg /\
            Community.errors (Community.stats w')
            = Community.errors (Community.stats w)
              ++ [str "Failed to fetch " ++ url ++ str ": " ++ msg]
      end
  end.

(** The same for the Amazon fetcher, which in addition gives up on a page
    that looks like a block. *)
Definition amazon_outcome (cfg : Amazon.Config) (net : oracle)
    (url : jsstring) (first : nat) (w : Amazon.session)
    (r : option jsstring) (w' : Amazon.session) (k : nat) : Prop :=
  let rc := Amazon.requestCount (Amazon.stats w) in
  let backoff :=
    List.map (fun a => Amazon.RETRY_DELAY_MS cfg * Z.of_nat a)
      (seq first (k - 1)) in
  Amazon.requestCount (Amazon.stats w') = (rc + k)%nat /\
  (forall j, (1 <= j < k)%nat -> exists msg, net (rc + j)%nat url = Failure msg) /\
  requests (Amazon.trace w') = requests (Amazon.trace w) ++ repeat url k /\
  Amazon.productsFound (Amazon.stats w')
  = Amazon.productsFound (Amazon.stats w) /\
  match r with
  | Some html =>
      (1 <= k)%nat /\ net (rc + k)%nat url = Body html /\
      Amazon.looks_blocked html = false /\
      Amazon.errors (Amazon.stats w') = Amazon.errors (Amazon.stats w) /\
      sleeps (Amazon.trace w') = sleeps (Amazon.trace w) ++ backoff
  | None =>
      (exists html,
         (1 <= k)%nat /\ net (rc + k)%nat url = Body html /\
         Amazon.looks_blocked html = true /\
         Amazon.errors (Amazon.stats w')
         = Amazon.errors (Amazon.stats w) ++ [str "Bot detection on " ++ url] /\
         sleeps (Amazon.trace w')
         = sleeps (Amazon.trace w) ++ backoff ++ [Amazon.RETRY_DELAY_MS cfg * 2]) \/
      ((first + k = Amazon.MAX_RETRIES cfg + 1)%nat /\
       sleeps (Amazon.trace w') = sleeps (Amazon.trace w) ++ backoff /\
       match k with
       | O => Amazon.errors (Amazon.stats w') = Amazon.errors (Amazon.stats w)
       | S _ =>
           exists msg,
             net (rc + k)%nat url = Failure msg /\
             Amazon.errors (Amazon.stats w')
             = Amazon.errors (Amazon.stats w)
               ++ [str "Failed to fetch " ++ url ++ str ": " ++ msg]
       end)
  end.

(** *** The waits between the sources *)

(** The log ends with a random delay. *)
Definition ends_with_delay (log : list event) : bool :=
  match List.last log LimitReached with
  | RandomDelay _ _ => true
  | _ => false
  end.

(** *** ASINs *)



(** *** Stored deals *)

(** The write creates a document. *)
Definition is_set (w : FetchProducts.write) : bool :=
  match w with
  | FetchProducts.batch_set _ _ => true
  | FetchProducts.batch_update _ _ => false
  end.

(** The number of deals that a response reports. *)
Definition deals_discovered (r : FetchProducts.Response) : option nat :=
  match r with
  | FetchProducts.status_200 body =>
      Some (FetchProducts.body_dealsDiscovered body)
  | FetchProducts.status_405 _ => None
  end.

(** *** Scores *)

(** [x'] is [x] or more: two finite numbers in that order, or twice
    [+Infinity]. *)
Definition grows (x x' : number) : Prop :=
  (exists s s', x = Finite s /\ x' = Finite s' /\ (s <= s')%Q) \/
  (x = Infinity false /\ x' = Infinity false).

End Behaviour.

(** * Properties *)

(** ** Price parsing *)

Lemma parsePrice_not_nan (s : jsstring) : Price.parsePrice s <> NaN.
Proof.
  unfold Price.parsePrice.
  destruct (negb (JSString.truthy s)); [discriminate |].
  destruct (parseFloat (Price.cleaned s)); simpl; discriminate.
Qed.

Lemma parsePrice_unparseable (s : jsstring) :
  parseFloat (Price.cleaned s) = NaN -> Price.parsePrice s = Finite 0.
Proof.
  intros H. unfold Price.parsePrice. rewrite H.
  now destruct (negb (JSString.truthy s)).
Qed.

(** C5. [parsePrice] reads Brazilian price strings: "R$ 1.234,56" is
    1234.56 and "R$99,90" is 99.90; the empty string and "grátis" give 0;
    whenever the cleaned text is not a number the result is 0, and the
    function, which is total, never returns [NaN].  The community scraper
    and the Amazon scraper share the function. *)
Theorem C5_parsePrice_locale_total :
  Community.parsePrice (str "R$ 1.234,56") = Finite 1234.56 /\
  Community.parsePrice (str "R$99,90") = Finite 99.90 /\
  Community.parsePrice (str "") = Finite 0 /\
  Community.parsePrice (str "grátis") = Finite 0 /\
  Amazon.parsePrice (str "R$ 1.234,56") = Finite 1234.56 /\
  Amazon.parsePrice (str "R$99,90") = Finite 99.90 /\
  Amazon.parsePrice (str "") = Finite 0 /\
  Amazon.parsePrice (str "grátis") = Finite 0 /\
  (forall s, parseFloat (Price.cleaned s) = NaN ->
             Community.parsePrice s = Finite 0 /\ Amazon.parsePrice s = Finite 0) /\
  (forall s, Community.parsePrice s <> NaN /\ Amazon.parsePrice s <> NaN).
Proof.
  repeat split; try (vm_compute; reflexivity);
    auto using parsePrice_unparseable, parsePrice_not_nan.
Qed.

(** ** The stable sort and the truncation *)

Section SortFacts.
Context {A : Type}.
Variable score : A -> Z.

Local Abbreviation cmp := (fun a b : A => score b - score a).

Lemma insert_perm (x : A) (l : list A) :
  Permutation (JSArray.insert cmp x l) (x :: l).
Proof.
  induction l as [| y l IH]; simpl; [reflexivity |].
  destruct (0 <? cmp x y); [| reflexivity].
  rewrite IH. apply perm_swap.
Qed.

Lemma sort_perm (l : list A) : Permutation (JSArray.sort cmp l) l.
Proof.
  induction l as [| x l IH]; simpl; [reflexivity |].
  unfold JSArray.sort in IH. rewrite insert_perm. now rewrite IH.
Qed.

Lemma insert_descending (x : A) (l : list A) :
  Spec.descending score l -> Spec.descending score (JSArray.insert cmp x l).
Proof.
  unfold Spec.descending.
  induction 1 as [| y l Hl IH Hy]; simpl.
  - repeat constructor.
  - destruct (0 <? cmp x y) eqn:E.
    + constructor; [exact IH |].
      eapply Permutation_Forall; [symmetry; apply insert_perm |].
      constructor; [| exact Hy].
      apply Z.ltb_lt in E. lia.
    + apply Z.ltb_ge in E.
      constructor; [constructor; assumption |].
      constructor; [lia |].
      eapply List.Forall_impl; [| exact Hy]. simpl. intros; lia.
Qed.

Lemma sort_descending (l : list A) : Spec.descending score (JSArray.sort cmp l).
Proof.
  induction l as [| x l IH]; simpl; [constructor |].
  now apply insert_descending.
Qed.

(** Inserting [x] puts it in front of the listings that have its score. *)
Lemma insert_with_score (s : Z) (x : A) (l : list A) :
  Spec.with_score score s (JSArray.insert cmp x l)
  = Spec.with_score score s (x :: l).
Proof.
  unfold Spec.with_score.
  induction l as [| y l IH]; simpl; [reflexivity |].
  destruct (0 <? cmp x y) eqn:E; simpl; [| reflexivity].
  apply Z.ltb_lt in E.
  rewrite IH. simpl.
  destruct (score x =? s) eqn:Ex, (score y =? s) eqn:Ey; try reflexivity.
  apply Z.eqb_eq in Ex, Ey. lia.
Qed.

(** The sort is stable: listings of one score keep their order. *)
Lemma sort_stable (s : Z) (l : list A) :
  Spec.with_score score s (JSArray.sort cmp l) = Spec.with_score score s l.
Proof.
  induction l as [| x l IH]; simpl; [reflexivity |].
  rewrite insert_with_score. unfold Spec.with_score in *.
  cbn [List.filter]. fold (JSArray.sort cmp l). now rewrite IH.
Qed.

Lemma descending_firstn (n : nat) (l : list A) :
  Spec.descending score l -> Spec.descending score (firstn n l).
Proof.
  unfold Spec.descending. intros H. revert n.
  induction H as [| y l Hl IH Hy]; intros [| n]; simpl; try constructor.
  - apply IH.
  - apply List.Forall_forall. intros z Hz.
    rewrite List.Forall_forall in Hy. apply Hy.
    rewrite <- (firstn_skipn n l). apply in_or_app. now left.
Qed.

Lemma slice0_firstn (l : list A) (limit : Z) :
  0 <= limit -> JSArray.slice0 l limit = firstn (Z.to_nat limit) l.
Proof.
  intros H. unfold JSArray.slice0.
  destruct (limit <? 0) eqn:E; [apply Z.ltb_lt in E; lia |].
  destruct (Z.le_gt_cases limit (Z.of_nat (length l))) as [Hle | Hgt].
  - now rewrite Z.min_l.
  - rewrite Z.min_r by lia. rewrite Nat2Z.id.
    rewrite !firstn_all2; [reflexivity | lia | lia].
Qed.

Lemma slice0_length (l : list A) (limit : Z) :
  0 <= limit -> Z.of_nat (length (JSArray.slice0 l limit)) <= limit.
Proof.
  intros H. rewrite slice0_firstn by assumption.
  rewrite length_firstn. lia.
Qed.

End SortFacts.

(** ** The insertion-ordered Map and the deduplication *)

Lemma jsstring_eqb_true (a b : jsstring) : JSString.eqb a b = true <-> a = b.
Proof. unfold JSString.eqb. apply bool_decide_eq_true. Qed.

Lemma jsstring_eqb_false (a b : jsstring) : JSString.eqb a b = false <-> a <> b.
Proof. unfold JSString.eqb. apply bool_decide_eq_false. Qed.

Lemma jsstring_eqb_refl (a : jsstring) : JSString.eqb a a = true.
Proof. now apply jsstring_eqb_true. Qed.

Section MapFacts.
Context {V : Type}.
Implicit Types (m : @JSMap.t V) (k : jsstring) (v : V).

Lemma get_set_same m k v : JSMap.get (JSMap.set m k v) k = Some v.
Proof.
  induction m as [| [k' v'] m IH]; simpl.
  - now rewrite jsstring_eqb_refl.
  - destruct (JSString.eqb k k') eqn:E; simpl.
    + now rewrite jsstring_eqb_refl.
    + now rewrite E.
Qed.

Lemma get_set_other m k k' v :
  k <> k' -> JSMap.get (JSMap.set m k v) k' = JSMap.get m k'.
Proof.
  intros Hne. induction m as [| [k0 v0] m IH]; simpl.
  - destruct (JSString.eqb k' k) eqn:E; [| reflexivity].
    apply jsstring_eqb_true in E. congruence.
  - destruct (JSString.eqb k k0) eqn:E; simpl.
    + apply jsstring_eqb_true in E. subst k0.
      destruct (JSString.eqb k' k) eqn:E'; [| reflexivity].
      apply jsstring_eqb_true in E'. congruence.
    + now rewrite IH.
Qed.

Lemma get_None_keys m k : JSMap.get m k = None <-> ~ In k (List.map fst m).
Proof.
  induction m as [| [k' v'] m IH]; simpl; [tauto |].
  destruct (JSString.eqb k k') eqn:E.
  - apply jsstring_eqb_true in E. subst. split; [discriminate | tauto].
  - apply jsstring_eqb_false in E. rewrite IH. split; [| tauto].
    intros H [H' | H']; [congruence | tauto].
Qed.

(** A new key goes to the end; a key that is present keeps its place. *)
Lemma keys_set m k v :
  List.map fst (JSMap.set m k v)
  = match JSMap.get m k with
    | Some _ => List.map fst m
    | None => List.map fst m ++ [k]
    end.
Proof.
  induction m as [| [k' v'] m IH]; simpl; [reflexivity |].
  destruct (JSString.eqb k k') eqn:E; simpl.
  - apply jsstring_eqb_true in E. now subst.
  - rewrite IH. now destruct (JSMap.get m k).
Qed.

Lemma set_present m k v v0 :
  JSMap.get m k = Some v0 ->
  exists m1 m2, m = m1 ++ (k, v0) :: m2 /\ JSMap.set m k v = m1 ++ (k, v) :: m2
                /\ ~ In k (List.map fst m1).
Proof.
  induction m as [| [k' v'] m IH]; simpl; [discriminate |].
  destruct (JSString.eqb k k') eqn:E.
  - apply jsstring_eqb_true in E. subst k'. intros [= ->].
    exists [], m. simpl. tauto.
  - intros H. destruct (IH H) as (m1 & m2 & -> & Hs & Hn).
    exists ((k', v') :: m1), m2. simpl. rewrite Hs.
    repeat split. apply jsstring_eqb_false in E.
    intros [H' | H']; [congruence | tauto].
Qed.

Lemma set_absent m k v : JSMap.get m k = None -> JSMap.set m k v = m ++ [(k, v)].
Proof.
  induction m as [| [k' v'] m IH]; simpl; [reflexivity |].
  destruct (JSString.eqb k k'); [discriminate |].
  intros H. now rewrite IH.
Qed.

End MapFacts.

Section DedupFacts.
Context {A : Type}.
Variable key : A -> jsstring.
Variable score : A -> Z.

Local Abbreviation step := (Spec.dedup_step key score).
Local Abbreviation group := (Spec.group key).

Lemma group_snoc (k : jsstring) (l : list A) (d : A) :
  group k (l ++ [d]) = group k l ++ (if JSString.eqb (key d) k then [d] else []).
Proof.
  unfold Spec.group. rewrite List.filter_app. simpl.
  now destruct (JSString.eqb (key d) k).
Qed.

Lemma Forall_set (P : jsstring * A -> Prop) (m : JSMap.t) k v :
  Forall P m -> P (k, v) -> Forall P (JSMap.set m k v).
Proof.
  intros Hm Hkv. induction Hm as [| [k' v'] m Hx Hm IH]; simpl.
  - now constructor.
  - destruct (JSString.eqb k k'); now constructor.
Qed.

Lemma well_keyed_set (m : JSMap.t) (d : A) :
  Spec.well_keyed key m -> Spec.well_keyed key (JSMap.set m (key d) d).
Proof.
  intros [Hnd Hk]. split; [| now apply Forall_set].
  rewrite keys_set. destruct (JSMap.get m (key d)) eqn:E; [assumption |].
  apply get_None_keys in E.
  apply List.NoDup_app; auto.
  - repeat constructor. simpl. tauto.
  - intros x Hx [<- | []]. tauto.
Qed.

Lemma well_keyed_step (m : JSMap.t) (d : A) :
  Spec.well_keyed key m -> Spec.well_keyed key (step m d).
Proof.
  intros H. unfold Spec.dedup_step.
  destruct (JSMap.get m (key d)) as [existing |].
  - destruct (score d >? score existing); auto using well_keyed_set.
  - now apply well_keyed_set.
Qed.

Lemma is_best_snoc_keep (kept d : A) (grp : list A) :
  Spec.is_best score kept grp -> score d <= score kept ->
  Spec.is_best score kept (grp ++ [d]).
Proof.
  intros (pre & post & -> & Hpre & Hpost) Hle.
  exists pre, (post ++ [d]). repeat split; auto.
  - now rewrite <- app_assoc.
  - apply Forall_app. split; auto.
Qed.

Lemma is_best_snoc_replace (kept d : A) (grp : list A) :
  Spec.is_best score kept grp -> score kept < score d ->
  Spec.is_best score d (grp ++ [d]).
Proof.
  intros (pre & post & -> & Hpre & Hpost) Hlt.
  exists (pre ++ kept :: post), []. repeat split; auto.
  apply Forall_app. split.
  - eapply List.Forall_impl; [| exact Hpre]. simpl. intros; lia.
  - constructor; [lia |].
    eapply List.Forall_impl; [| exact Hpost]. simpl. intros; lia.
Qed.

Lemma holds_best_step (m : JSMap.t) (l : list A) (d : A) :
  Spec.holds_best key score m l ->
  Spec.holds_best key score (step m d) (l ++ [d]).
Proof.
  intros H k. rewrite group_snoc. unfold Spec.dedup_step.
  pose proof (H (key d)) as Hd. pose proof (H k) as Hk.
  destruct (JSString.eqb (key d) k) eqn:E.
  - apply jsstring_eqb_true in E. subst k.
    destruct (JSMap.get m (key d)) as [existing |] eqn:G.
    + destruct (score d >? score existing) eqn:S.
      * rewrite get_set_same. apply Z.gtb_lt in S.
        now apply is_best_snoc_replace with existing.
      * rewrite G. apply is_best_snoc_keep; [assumption |].
        rewrite Z.gtb_ltb in S. apply Z.ltb_ge in S. lia.
    + rewrite get_set_same, Hd. exists [], []. repeat split; constructor.
  - apply jsstring_eqb_false in E. rewrite app_nil_r.
    destruct (JSMap.get m (key d)) as [existing |] eqn:G.
    + destruct (score d >? score existing); [| exact Hk].
      now rewrite get_set_other.
    + now rewrite get_set_other.
Qed.

Lemma fold_step_invariant (deals l : list A) (m : JSMap.t) :
  Spec.well_keyed key m -> Spec.holds_best key score m l ->
  Spec.well_keyed key (fold_left step deals m) /\
  Spec.holds_best key score (fold_left step deals m) (l ++ deals).
Proof.
  revert l m. induction deals as [| d deals IH]; intros l m Hw Hb; simpl.
  - now rewrite app_nil_r.
  - replace (l ++ d :: deals) with ((l ++ [d]) ++ deals)
      by now rewrite <- app_assoc.
    apply IH; [now apply well_keyed_step | now apply holds_best_step].
Qed.

Lemma group_values (m : JSMap.t) (k : jsstring) :
  Spec.well_keyed key m ->
  group k (JSMap.values m)
  = match JSMap.get m k with Some v => [v] | None => [] end.
Proof.
  intros [Hnd Hk]. induction m as [| [k' v'] m IH]; simpl; [reflexivity |].
  inversion Hnd as [| ? ? Hnotin Hnd']; subst.
  inversion Hk as [| ? ? Hkey Hk']; subst. simpl in Hkey.
  rewrite Hkey. specialize (IH Hnd' Hk').
  destruct (JSString.eqb k k') eqn:E.
  - apply jsstring_eqb_true in E. rewrite <- E in *.
    rewrite jsstring_eqb_refl. f_equal.
    rewrite IH. apply get_None_keys in Hnotin. now rewrite Hnotin.
  - apply jsstring_eqb_false in E.
    destruct (JSString.eqb k' k) eqn:E'.
    + apply jsstring_eqb_true in E'. congruence.
    + exact IH.
Qed.

(** The heart of both deduplications: of each group exactly the best
    listing survives. *)
Lemma dedup_keeps_best (deals : list A) (k : jsstring) :
  match group k deals with
  | [] => group k (JSMap.values (fold_left step deals JSMap.empty)) = []
  | _ :: _ =>
      exists kept,
        group k (JSMap.values (fold_left step deals JSMap.empty)) = [kept] /\
        Spec.is_best score kept (group k deals)
  end.
Proof.
  destruct (fold_step_invariant deals [] JSMap.empty) as [Hw Hb].
  - split; constructor.
  - intros k'. reflexivity.
  - simpl in Hb. specialize (Hb k). rewrite group_values by assumption.
    destruct (JSMap.get (fold_left step deals JSMap.empty) k) as [v |].
    + pose proof Hb as (pre & post & Hg & _).
      destruct (group k deals) as [| x g].
      * destruct pre; discriminate.
      * exists v. split; [reflexivity | exact Hb].
    + now rewrite Hb.
Qed.

(** The survivors stand in the order in which their identifiers were first
    seen: a listing that replaces a duplicate takes the duplicate's place. *)
Lemma keys_fold (deals : list A) (m : JSMap.t) :
  List.map fst (fold_left step deals m)
  = List.map fst m ++ Spec.first_occurrences key (List.map fst m) deals.
Proof.
  revert m. induction deals as [| d deals IH]; intros m; simpl.
  - now rewrite app_nil_r.
  - rewrite IH. unfold Spec.dedup_step.
    destruct (JSMap.get m (key d)) as [existing |] eqn:G.
    + assert (Hin : key d ∈ List.map fst m).
      { destruct (decide (key d ∈ List.map fst m)) as [H | H]; [exact H |].
        rewrite list_elem_of_In in H. apply get_None_keys in H. congruence. }
      rewrite bool_decide_eq_true_2 by exact Hin.
      destruct (score d >? score existing); [| reflexivity].
      now rewrite keys_set, G.
    + rewrite keys_set, G.
      apply get_None_keys in G.
      rewrite bool_decide_eq_false_2 by now rewrite list_elem_of_In.
      now rewrite <- app_assoc.
Qed.

Lemma well_keyed_keys (m : JSMap.t) :
  Spec.well_keyed key m -> List.map key (JSMap.values m) = List.map fst m.
Proof.
  intros [_ Hk]. unfold JSMap.values.
  induction Hk as [| [k v] m Hkv Hk IH]; simpl; [reflexivity |].
  simpl in Hkv. now rewrite Hkv, IH.
Qed.

Lemma dedup_keys_order (deals : list A) :
  List.map key (JSMap.values (fold_left step deals JSMap.empty))
  = Spec.first_occurrences key [] deals.
Proof.
  destruct (fold_step_invariant deals [] JSMap.empty) as [Hw _].
  - split; constructor.
  - intros k. reflexivity.
  - rewrite well_keyed_keys by exact Hw. apply (keys_fold deals JSMap.empty).
Qed.

End DedupFacts.


Lemma community_dedup_step :
  Community.dedup_step = Spec.dedup_step Community.dedup_key Community.dealScore.
Proof. reflexivity. Qed.

Lemma amazon_dedup_step :
  Amazon.dedup_step = Spec.dedup_step Amazon.asin Amazon.dealScore.
Proof. reflexivity. Qed.



(** ** Ranking *)

Lemma community_postProcess_ranked (cfg : Community.Config)
    (allDeals : list Community.CommunityDeal) (limit : Z) :
  0 <= limit ->
  exists ranked,
    Permutation ranked
      (Community.filterQualityDeals cfg (Community.deduplicateDeals allDeals)) /\
    Spec.descending Community.dealScore ranked /\
    (forall s,
       Spec.with_score Community.dealScore s ranked
       = Spec.with_score Community.dealScore s
           (Community.filterQualityDeals cfg
              (Community.deduplicateDeals allDeals))) /\
    Community.postProcess cfg allDeals limit = firstn (Z.to_nat limit) ranked.
Proof.
  intros Hl. unfold Community.postProcess.
  eexists. split; [apply sort_perm |]. split; [apply sort_descending |].
  split; [intros s; apply sort_stable |]. now apply slice0_firstn.
Qed.

Lemma amazon_postProcess_ranked (cfg : Amazon.Config)
    (allProducts : list Amazon.ScrapedProduct) (limit : Z) :
  0 <= limit ->
  exists ranked,
    Permutation ranked
      (Amazon.filterQualityProducts cfg
         (Amazon.deduplicateProducts allProducts)) /\
    Spec.descending Amazon.dealScore ranked /\
    (forall s,
       Spec.with_score Amazon.dealScore s ranked
       = Spec.with_score Amazon.dealScore s
           (Amazon.filterQualityProducts cfg
              (Amazon.deduplicateProducts allProducts))) /\
    Amazon.postProcess cfg allProducts limit = firstn (Z.to_nat limit) ranked.
Proof.
  intros Hl. unfold Amazon.postProcess.
  eexists. split; [apply sort_perm |]. split; [apply sort_descending |].
  split; [intros s; apply sort_stable |]. now apply slice0_firstn.
Qed.

Lemma community_postProcess_top (cfg : Community.Config)
    (allDeals : list Community.CommunityDeal) (limit : Z) :
  0 <= limit ->
  Spec.descending Community.dealScore (Community.postProcess cfg allDeals limit) /\
  Z.of_nat (length (Community.postProcess cfg allDeals limit)) <= limit.
Proof.
  intros Hl. unfold Community.postProcess. split.
  - rewrite slice0_firstn by assumption.
    apply descending_firstn, sort_descending.
  - now apply slice0_length.
Qed.

Lemma amazon_postProcess_top (cfg : Amazon.Config)
    (allProducts : list Amazon.ScrapedProduct) (limit : Z) :
  0 <= limit ->
  Spec.descending Amazon.dealScore (Amazon.postProcess cfg allProducts limit) /\
  Z.of_nat (length (Amazon.postProcess cfg allProducts limit)) <= limit.
Proof.
  intros Hl. unfold Amazon.postProcess. split.
  - rewrite slice0_firstn by assumption.
    apply descending_firstn, sort_descending.
  - now apply slice0_length.
Qed.

Lemma community_discover_postProcess (cfg : Community.Config) (Elem : Type)
    (select : jsstring -> jsstring -> list Elem)
    (find_text : Elem -> jsstring -> jsstring)
    (find_attr : Elem -> jsstring -> jsstring -> option jsstring)
    (find_all_attr : Elem -> jsstring -> jsstring -> list (option jsstring))
    (toLowerCase : jsstring -> jsstring)
    (toUpperCase : jsstring -> jsstring)
    (Number_toString : number -> jsstring)
    (Date_now : Z) (Math_log10 : number -> number) (net : oracle)
    (sources : list Community.Source) (limit : option Z) :
  exists allDeals w,
    Community.discoverCommunityDeals cfg Elem select find_text find_attr
      find_all_attr toLowerCase toUpperCase Number_toString
      Date_now Math_log10 net sources limit
    = (Community.postProcess cfg allDeals
         (match limit with Some l => l | None => 20 end), w).
Proof.
  unfold Community.discoverCommunityDeals.
  destruct (Community.scrapeSources _ _ _ _ _ _ _ _ _ _ _ _ _ _ _)
    as [allDeals w].
  now exists allDeals, w.
Qed.

Lemma amazon_discover_postProcess (cfg : Amazon.Config) (Elem : Type)
    (select : jsstring -> jsstring -> list Elem)
    (el_attr : Elem -> jsstring -> option jsstring)
    (find_text find_last_text : Elem -> jsstring -> jsstring)
    (find_attr : Elem -> jsstring -> jsstring -> option jsstring)
    (toLowerCase : jsstring -> jsstring)
    (first_dynamic_image : jsstring -> option jsstring)
    (Date_now : Z) (Math_log10 : number -> number) (net : oracle)
    (sources : list Amazon.ScrapeSource) (limit : option Z) :
  exists allProducts w,
    Amazon.discoverProducts cfg Elem select el_attr find_text find_last_text
      find_attr toLowerCase first_dynamic_image Date_now
      Math_log10 net sources limit
    = (Amazon.postProcess cfg allProducts
         (match limit with Some l => l | None => 20 end), w).
Proof.
  unfold Amazon.discoverProducts.
  destruct (Amazon.scrapeSources _ _ _ _ _ _ _ _ _ _ _ _ _ _ _)
    as [allProducts w].
  now exists allProducts, w.
Qed.

(** C1, as amended.  Let [limit >= 0] (the default is 20).  What
    [discoverCommunityDeals] and [discoverProducts] return is the
    post-processing of the listings gathered from the sources, and for every
    such list: the result is sorted by non-increasing [dealScore]; it has at
    most [limit] elements; it is the first [limit] elements of a stable sort
    of the deduplicated and filtered list, so listings of equal score keep
    the order they have after deduplication; and after deduplication the
    listings stand in the order in which their identifiers were first seen
    (a listing that replaced a lower-scored duplicate stands where the
    duplicate stood). *)
Theorem C1_ranked_top_limit (limit : Z) :
  0 <= limit ->
  (forall cfg allDeals,
     Spec.descending Community.dealScore
       (Community.postProcess cfg allDeals limit) /\
     Z.of_nat (length (Community.postProcess cfg allDeals limit)) <= limit /\
     (exists ranked,
        Permutation ranked
          (Community.filterQualityDeals cfg
             (Community.deduplicateDeals allDeals)) /\
        Spec.descending Community.dealScore ranked /\
        (forall s,
           Spec.with_score Community.dealScore s ranked
           = Spec.with_score Community.dealScore s
               (Community.filterQualityDeals cfg
                  (Community.deduplicateDeals allDeals))) /\
        Community.postProcess cfg allDeals limit
        = firstn (Z.to_nat limit) ranked) /\
     List.map Community.dedup_key (Community.deduplicateDeals allDeals)
     = Spec.first_occurrences Community.dedup_key [] allDeals) /\
  (forall cfg allProducts,
     Spec.descending Amazon.dealScore
       (Amazon.postProcess cfg allProducts limit) /\
     Z.of_nat (length (Amazon.postProcess cfg allProducts limit)) <= limit /\
     (exists ranked,
        Permutation ranked
          (Amazon.filterQualityProducts cfg
             (Amazon.deduplicateProducts allProducts)) /\
        Spec.descending Amazon.dealScore ranked /\
        (forall s,
           Spec.with_score Amazon.dealScore s ranked
           = Spec.with_score Amazon.dealScore s
               (Amazon.filterQualityProducts cfg
                  (Amazon.deduplicateProducts allProducts))) /\
        Amazon.postProcess cfg allProducts limit
        = firstn (Z.to_nat limit) ranked) /\
     List.map Amazon.asin (Amazon.deduplicateProducts allProducts)
     = Spec.first_occurrences Amazon.asin [] allProducts) /\
  (forall cfg Elem select find_text find_attr find_all_attr toLowerCase
          toUpperCase Number_toString Date_now Math_log10
          net sources (l : option Z),
     match l with Some x => x | None => 20 end = limit ->
     exists allDeals w,
       Community.discoverCommunityDeals cfg Elem select find_text find_attr
         find_all_attr toLowerCase toUpperCase Number_toString Date_now Math_log10 net sources l
       = (Community.postProcess cfg allDeals limit, w)) /\
  (forall cfg Elem select el_attr find_text find_last_text find_attr
          toLowerCase first_dynamic_image Date_now
          Math_log10 net sources (l : option Z),
     match l with Some x => x | None => 20 end = limit ->
     exists allProducts w,
       Amazon.discoverProducts cfg Elem select el_attr find_text
         find_last_text find_attr toLowerCase
         first_dynamic_image Date_now Math_log10 net sources l
       = (Amazon.postProcess cfg allProducts limit, w)).
Proof.
  intros Hl. split; [| split; [| split]].
  - intros cfg allDeals.
    destruct (community_postProcess_top cfg allDeals limit Hl) as [H1 H2].
    repeat split; auto using community_postProcess_ranked.
    unfold Community.deduplicateDeals. rewrite community_dedup_step.
    apply dedup_keys_order.
  - intros cfg allProducts.
    destruct (amazon_postProcess_top cfg allProducts limit Hl) as [H1 H2].
    repeat split; auto using amazon_postProcess_ranked.
    unfold Amazon.deduplicateProducts. rewrite amazon_dedup_step.
    apply dedup_keys_order.
  - intros. subst limit. apply community_discover_postProcess.
  - intros. subst limit. apply amazon_discover_postProcess.
Qed.

(** The ranking of three sample listings under the default limit. *)
Lemma C1_witness :
  0 <= 20 /\
  Spec.descending Community.dealScore
    (Community.postProcess Community.CONFIG
       [Samples.echo_low; Samples.kindle; Samples.echo_high] 20) /\
  Z.of_nat (length (Community.postProcess Community.CONFIG
                      [Samples.echo_low; Samples.kindle; Samples.echo_high] 20))
  <= 20.
Proof.
  assert (H : 0 <= 20) by lia.
  split; [exact H |].
  destruct (proj1 (C1_ranked_top_limit 20 H) Community.CONFIG
              [Samples.echo_low; Samples.kindle; Samples.echo_high])
    as (H1 & H2 & _).
  split; [exact H1 | exact H2].
Defined.

(** C1 as stated fails.  (1) [echo_high] was discovered after [kindle], has
    the same score, and replaces the lower-scored [echo_low] found first: it
    is returned before [kindle].  (2) With [limit = -1], [slice(0, -1)]
    drops the last listing only: two listings go in and one comes out. *)
Lemma C1_counterexample :
  Community.postProcess Community.CONFIG
    [Samples.echo_low; Samples.kindle; Samples.echo_high] 20
  = [Samples.echo_high; Samples.kindle] /\
  ~ Spec.ranked_as_claimed Community.dealScore
      [Samples.echo_low; Samples.kindle; Samples.echo_high]
      (Community.postProcess Community.CONFIG
         [Samples.echo_low; Samples.kindle; Samples.echo_high] 20) 20 /\
  Community.postProcess Community.CONFIG [Samples.kindle; Samples.echo_low] (-1)
  = [Samples.kindle] /\
  ~ Spec.ranked_as_claimed Community.dealScore
      [Samples.kindle; Samples.echo_low]
      (Community.postProcess Community.CONFIG
         [Samples.kindle; Samples.echo_low] (-1)) (-1).
Proof.
  assert (E1 : Community.postProcess Community.CONFIG
                 [Samples.echo_low; Samples.kindle; Samples.echo_high] 20
               = [Samples.echo_high; Samples.kindle])
    by (vm_compute; reflexivity).
  assert (E2 : Community.postProcess Community.CONFIG
                 [Samples.kindle; Samples.echo_low] (-1)
               = [Samples.kindle])
    by (vm_compute; reflexivity).
  split; [exact E1 |]. split; [| split; [exact E2 |]].
  - rewrite E1. intros (_ & Hst & _).
    destruct (Hst Samples.echo_high Samples.kindle eq_refl)
      as (l1 & l2 & l3 & H).
    { exists [], [], []. reflexivity. }
    cbv in H.
    destruct l1 as [| x1 l1]; [discriminate H |].
    destruct l1 as [| x2 l1]; [discriminate H |].
    destruct l1 as [| x3 l1].
    + destruct l2; discriminate H.
    + destruct l1; discriminate H.
  - rewrite E2. intros (_ & _ & Hlen). simpl in Hlen. lia.
Qed.

(** ** Arithmetic of the scorers *)

Lemma Qltb_lt (a b : Q) : Qltb a b = true <-> (a < b)%Q.
Proof.
  unfold Qltb. rewrite negb_true_iff. split.
  - intros H. apply Qnot_le_lt. intros Hle.
    apply Qle_bool_iff in Hle. congruence.
  - intros H. destruct (Qle_bool b a) eqn:E; [| reflexivity].
    apply Qle_bool_iff in E. lra.
Qed.

Lemma Qltb_ge (a b : Q) : Qltb a b = false <-> (b <= a)%Q.
Proof.
  unfold Qltb. rewrite negb_false_iff. apply Qle_bool_iff.
Qed.

Lemma Qeq_bool_pos (c : Q) : (0 < c)%Q -> Qeq_bool c 0 = false.
Proof.
  intros H. destruct (Qeq_bool c 0) eqn:E; [| reflexivity].
  apply Qeq_bool_eq in E. lra.
Qed.

Lemma Qsign_neg_pos (c : Q) : (0 < c)%Q -> Qsign_neg c = false.
Proof. intros H. apply Qltb_ge. lra. Qed.

Lemma Qdiv_nonneg (q c : Q) : (0 <= q)%Q -> (0 < c)%Q -> (0 <= q / c)%Q.
Proof.
  intros Hq Hc. apply Qle_shift_div_l; [exact Hc | lra].
Qed.

Section NumberFacts.
Implicit Types (x y : number) (q c : Q).

Lemma within_nonneg lo hi x : (0 <= lo)%Q -> Spec.within lo hi x -> Spec.nonneg x.
Proof. intros Hlo (q & -> & H). right. exists q. split; [reflexivity | lra]. Qed.

Lemma or_else_zero_not_nan x : or_else x zero <> NaN.
Proof. unfold or_else. destruct x as [| s | q]; simpl; try discriminate.
  destruct (negb (Qeq_bool q 0)); discriminate. Qed.

Lemma or_else_zero_nonneg x : (x <? zero)%js = false -> Spec.nonneg (or_else x zero).
Proof.
  unfold or_else. destruct x as [| s | q]; simpl.
  - intros _. right. exists 0%Q. split; [reflexivity | lra].
  - intros ->. now left.
  - intros H. apply Qltb_ge in H. right.
    destruct (negb (Qeq_bool q 0)); [exists q | exists 0%Q];
      (split; [reflexivity | lra]).
Qed.

Lemma div_pos_nonneg x c : Spec.nonneg x -> (0 < c)%Q -> Spec.nonneg (x / Finite c).
Proof.
  intros [-> | (q & -> & Hq)] Hc; simpl.
  - rewrite Qsign_neg_pos by assumption. now left.
  - rewrite Qeq_bool_pos by assumption. right.
    exists (q / c)%Q. split; [reflexivity | now apply Qdiv_nonneg].
Qed.

Lemma mul_pos_nonneg x c : Spec.nonneg x -> (0 < c)%Q -> Spec.nonneg (x * Finite c).
Proof.
  intros [-> | (q & -> & Hq)] Hc; simpl.
  - rewrite Qeq_bool_pos, Qsign_neg_pos by assumption. now left.
  - right. exists (q * c)%Q. split; [reflexivity |].
    apply Qmult_le_0_compat; lra.
Qed.

Lemma add_nonneg x y : Spec.nonneg x -> Spec.nonneg y -> Spec.nonneg (x + y).
Proof.
  intros [-> | (q & -> & Hq)] [-> | (r & -> & Hr)]; simpl; try now left.
  right. exists (q + r)%Q. split; [reflexivity | lra].
Qed.

Lemma min_cap_within x c :
  Spec.nonneg x -> (0 <= c)%Q -> Spec.within 0 c (Math_min x (Finite c)).
Proof.
  intros [-> | (q & -> & Hq)] Hc; simpl.
  - exists c. split; [reflexivity | lra].
  - destruct (Qltb c q) eqn:E.
    + exists c. split; [reflexivity | lra].
    + apply Qltb_ge in E. exists q. split; [reflexivity | lra].
Qed.

Lemma max_floor_nonneg x : x <> NaN -> Spec.nonneg (Math_max x (Finite 0)).
Proof.
  destruct x as [| s | q]; simpl; [congruence | |]; intros _.
  - destruct s; [right; exists 0%Q; split; [reflexivity | lra] | now left].
  - destruct (Qltb q 0) eqn:E; right.
    + exists 0%Q. split; [reflexivity | lra].
    + apply Qltb_ge in E. exists q. now split.
Qed.

Lemma max_one x :
  x <> NaN ->
  Math_max x (Finite 1) = Infinity false \/
  exists q, Math_max x (Finite 1) = Finite q /\ (1 <= q)%Q.
Proof.
  destruct x as [| s | q]; simpl; [congruence | |]; intros _.
  - destruct s; [right; exists 1%Q; split; [reflexivity | lra] | now left].
  - right. destruct (Qltb q 1) eqn:E.
    + exists 1%Q. split; [reflexivity | lra].
    + apply Qltb_ge in E. exists q. now split.
Qed.

Lemma mul_pos_within lo hi x c :
  Spec.within lo hi x -> (0 < c)%Q ->
  Spec.within (lo * c) (hi * c) (x * Finite c).
Proof.
  intros (q & -> & Hq) Hc. exists (q * c)%Q. split; [reflexivity |].
  split; apply Qmult_le_compat_r; lra.
Qed.

Lemma add_within a b a' b' x y :
  Spec.within a b x -> Spec.within a' b' y ->
  Spec.within (a + a') (b + b') (x + y).
Proof.
  intros (q & -> & Hq) (r & -> & Hr). exists (q + r)%Q.
  split; [reflexivity | lra].
Qed.

Lemma of_Z_inj (a b : Z) : of_Z a = of_Z b -> a = b.
Proof. unfold of_Z, inject_Z. now intros [= ->]. Qed.

(** Fifteen more before rounding is fifteen more after it. *)
Lemma Qfloor_bonus (X : Q) :
  Qfloor (X + 15 + (1 # 2))%Q = Qfloor (X + 0 + (1 # 2))%Q + 15.
Proof.
  pose proof (Qfloor_le (X + 0 + (1 # 2))%Q) as Hlo.
  pose proof (Qlt_floor (X + 0 + (1 # 2))%Q) as Hhi.
  pose proof (Qfloor_le (X + 15 + (1 # 2))%Q) as Hlo'.
  pose proof (Qlt_floor (X + 15 + (1 # 2))%Q) as Hhi'.
  set (a := Qfloor (X + 0 + (1 # 2))%Q) in *.
  set (b := Qfloor (X + 15 + (1 # 2))%Q) in *.
  rewrite inject_Z_plus in Hhi, Hhi'.
  change (inject_Z 1) with 1%Q in Hhi, Hhi'.
  assert (H1 : (inject_Z b < inject_Z (a + 16))%Q).
  { rewrite inject_Z_plus. change (inject_Z 16) with 16%Q. lra. }
  assert (H2 : (inject_Z (a + 14) < inject_Z b)%Q).
  { rewrite inject_Z_plus. change (inject_Z 14) with 14%Q. lra. }
  rewrite <- Zlt_Qlt in H1, H2. lia.
Qed.

Lemma round_score x : Spec.within 0 100 x -> Spec.is_score (Math_round x).
Proof.
  intros (q & -> & Hq). simpl. exists (Qfloor (q + (1 # 2))).
  split; [reflexivity |]. split.
  - change 0 with (Qfloor 0). apply Qfloor_resp_le. lra.
  - assert (H : (Qfloor (q + (1 # 2)) <= Qfloor (100 + (1 # 2)))%Z)
      by (apply Qfloor_resp_le; lra).
    exact H.
Qed.

Lemma sub_finite_not_nan x c : x <> NaN -> (x - Finite c)%js <> NaN.
Proof. destruct x as [| s | q]; simpl; [congruence | |]; intros _.
  - destruct s; discriminate.
  - discriminate. Qed.

Lemma div_pos_not_nan x c : x <> NaN -> (0 < c)%Q -> (x / Finite c)%js <> NaN.
Proof.
  destruct x as [| s | q]; simpl; [congruence | |]; intros _ Hc.
  - discriminate.
  - rewrite Qeq_bool_pos by assumption. discriminate.
Qed.

Lemma mul_pos_not_nan x c : x <> NaN -> (0 < c)%Q -> (x * Finite c)%js <> NaN.
Proof.
  destruct x as [| s | q]; simpl; [congruence | |]; intros _ Hc.
  - rewrite Qeq_bool_pos by assumption. discriminate.
  - discriminate.
Qed.

End NumberFacts.

(** ** The deal score *)

Lemma or_else_not_inherited (category : jsstring) :
  JSObject.inherited category = false ->
  JSObject.inherited (JSString.or_else category (str "other")) = false.
Proof.
  intros H. unfold JSString.or_else.
  destruct (JSString.truthy category); [exact H | reflexivity].
Qed.

Lemma community_weight_within (category : jsstring) :
  JSObject.inherited category = false ->
  Spec.within 50 100
    (JSObject.to_number
       (JSObject.or_else (JSObject.get Community.CATEGORY_WEIGHTS category)
          (JSObject.get Community.CATEGORY_WEIGHTS (str "other")))).
Proof.
  intros H. unfold JSObject.get at 1.
  destruct (Community.CATEGORY_WEIGHTS !! category) as [w |] eqn:E.
  - unfold Community.CATEGORY_WEIGHTS in E.
    repeat (apply lookup_insert_Some in E; destruct E as [[_ <-] | [_ E]];
            [eexists; split; [vm_compute; reflexivity | lra] |]).
    rewrite lookup_empty in E. discriminate.
  - rewrite H. exists 50%Q. split; [vm_compute; reflexivity | lra].
Qed.

Lemma amazon_weight_within (category : jsstring) :
  JSObject.inherited category = false ->
  Spec.within 40 100
    (JSObject.to_number
       (JSObject.or_else (JSObject.get Amazon.CATEGORY_WEIGHTS category)
          (JSObject.get Amazon.CATEGORY_WEIGHTS (str "other")))).
Proof.
  intros H. unfold JSObject.get at 1.
  destruct (Amazon.CATEGORY_WEIGHTS !! category) as [w |] eqn:E.
  - unfold Amazon.CATEGORY_WEIGHTS in E.
    repeat (apply lookup_insert_Some in E; destruct E as [[_ <-] | [_ E]];
            [eexists; split; [vm_compute; reflexivity | lra] |]).
    rewrite lookup_empty in E. discriminate.
  - rewrite H. exists 40%Q. split; [vm_compute; reflexivity | lra].
Qed.


Section ScoreFacts.
Variable Math_log10 : number -> number.
Hypothesis log10_ok : Spec.log10_ok Math_log10.

Lemma log10_of_max_one (x : number) :
  x <> NaN -> Spec.nonneg (Math_log10 (Math_max x (Finite 1))).
Proof.
  intros Hx. destruct log10_ok as (Hfin & _ & Hinf).
  destruct (max_one x Hx) as [-> | (q & -> & Hq)].
  - rewrite Hinf. now left.
  - destruct (Hfin q Hq) as (r & -> & Hr). right. now exists r.
Qed.

Lemma log10_of_max_one_plus_one (x : number) :
  x <> NaN -> Spec.nonneg (Math_log10 (Math_max x (Finite 1) + Finite 1)).
Proof.
  intros Hx. destruct log10_ok as (Hfin & _ & Hinf).
  destruct (max_one x Hx) as [-> | (q & -> & Hq)]; simpl.
  - rewrite Hinf. now left.
  - destruct (Hfin (q + 1)%Q) as (r & -> & Hr); [lra |]. right. now exists r.
Qed.

Lemma community_score_range (deal : Community.CommunityDeal) :
  (Community.discount deal <? zero)%js = false ->
  JSObject.inherited (Community.normalizedCategory deal) = false ->
  Spec.is_score (Community.calculateDealScore Math_log10 deal).
Proof.
  intros Hd Hc. unfold Community.calculateDealScore.
  apply round_score, min_cap_within; [| lra].
  repeat apply add_nonneg.
  - apply mul_pos_nonneg; [| lra].
    apply within_nonneg with 0%Q 100%Q; [lra |].
    apply min_cap_within; [| lra].
    apply mul_pos_nonneg; [| lra]. apply div_pos_nonneg; [| lra].
    now apply or_else_zero_nonneg.
  - apply mul_pos_nonneg; [| lra].
    apply within_nonneg with 0%Q 100%Q; [lra |].
    apply min_cap_within; [| lra].
    apply mul_pos_nonneg; [| lra]. apply div_pos_nonneg; [| lra].
    apply log10_of_max_one_plus_one, or_else_zero_not_nan.
  - apply mul_pos_nonneg; [| lra].
    apply within_nonneg with 50%Q 100%Q; [lra |].
    now apply community_weight_within, or_else_not_inherited.
  - right. destruct (Community.has_asin deal);
      [exists 15%Q | exists 0%Q]; (split; [reflexivity | lra]).
Qed.

Lemma amazon_score_range (product : Amazon.ScrapedProduct) :
  (Amazon.discount product <? zero)%js = false ->
  JSObject.inherited (Amazon.normalizedCategory product) = false ->
  Spec.is_score (Amazon.calculateDealScore Math_log10 product).
Proof.
  intros Hd Hc. unfold Amazon.calculateDealScore.
  apply round_score, min_cap_within; [| lra].
  repeat apply add_nonneg.
  - apply mul_pos_nonneg; [| lra].
    apply within_nonneg with 0%Q 100%Q; [lra |].
    apply min_cap_within; [| lra].
    apply mul_pos_nonneg; [| lra]. apply div_pos_nonneg; [| lra].
    now apply or_else_zero_nonneg.
  - apply mul_pos_nonneg; [| lra].
    apply max_floor_nonneg.
    apply mul_pos_not_nan; [| lra]. apply div_pos_not_nan; [| lra].
    apply sub_finite_not_nan, or_else_zero_not_nan.
  - apply mul_pos_nonneg; [| lra].
    apply within_nonneg with 0%Q 100%Q; [lra |].
    apply min_cap_within; [| lra].
    apply mul_pos_nonneg; [| lra].
    destruct log10_ok as (_ & (r & Hr & Hpos) & _).
    change (Math_log10 (Finite 5000)) with (Math_log10 (Finite 5000)).
    rewrite Hr. apply div_pos_nonneg; [| exact Hpos].
    apply log10_of_max_one, or_else_zero_not_nan.
  - apply mul_pos_nonneg; [| lra].
    apply within_nonneg with 40%Q 100%Q; [lra |].
    now apply amazon_weight_within, or_else_not_inherited.
  - right. destruct (Amazon.source product);
      [exists 10%Q | exists 0%Q]; (split; [reflexivity | lra]).
Qed.

(** The community score is the rounded sum of a part that depends on the
    discount, the votes and the category, and of the ASIN bonus, which the
    cap at 100 never cuts. *)
Lemma community_score_shape (deal : Community.CommunityDeal) :
  (Community.discount deal <? zero)%js = false ->
  JSObject.inherited (Community.normalizedCategory deal) = false ->
  exists X : Q,
    forall deal' : Community.CommunityDeal,
      Community.discount deal' = Community.discount deal ->
      Community.upvotes deal' = Community.upvotes deal ->
      Community.normalizedCategory deal' = Community.normalizedCategory deal ->
      Community.calculateDealScore Math_log10 deal'
      = of_Z (Qfloor (X + (if Community.has_asin deal' then 15 else 0)
                      + (1 # 2))).
Proof.
  intros Hd Hc.
  assert (Hsum : Spec.within (0 * 0.35 + 0 * 0.30 + 50 * 0.20)
                   (100 * 0.35 + 100 * 0.30 + 100 * 0.20)
                   (Math_min (or_else (Community.discount deal) zero
                              / Finite 40 * Finite 100) (Finite 100)
                    * Finite 0.35
                    + Math_min (Math_log10
                                  (Math_max (or_else (Community.upvotes deal) zero)
                                     (Finite 1) + Finite 1)
                                / Finite 2 * Finite 100) (Finite 100)
                      * Finite 0.30
                    + JSObject.to_number
                        (JSObject.or_else
                           (JSObject.get Community.CATEGORY_WEIGHTS
                              (JSString.or_else
                                 (Community.normalizedCategory deal)
                                 (str "other")))
                           (JSObject.get Community.CATEGORY_WEIGHTS
                              (str "other")))
                      * Finite 0.20)%js).
  { repeat apply add_within.
    - apply mul_pos_within; [| lra]. apply min_cap_within; [| lra].
      apply mul_pos_nonneg; [| lra]. apply div_pos_nonneg; [| lra].
      now apply or_else_zero_nonneg.
    - apply mul_pos_within; [| lra]. apply min_cap_within; [| lra].
      apply mul_pos_nonneg; [| lra]. apply div_pos_nonneg; [| lra].
      apply log10_of_max_one_plus_one, or_else_zero_not_nan.
    - apply mul_pos_within; [| lra].
      now apply community_weight_within, or_else_not_inherited. }
  destruct Hsum as (X & HX & Hbounds). exists X.
  intros deal' E1 E2 E3. unfold Community.calculateDealScore.
  rewrite E1, E2, E3, HX.
  destruct (Community.has_asin deal'); simpl.
  - rewrite (proj2 (Qltb_ge _ _)) by lra. reflexivity.
  - rewrite (proj2 (Qltb_ge _ _)) by lra. reflexivity.
Qed.

End ScoreFacts.

(** The names of the weight tables are own properties, none of them
    inherited. *)
Lemma canonical_not_inherited (category : jsstring) :
  In category Spec.canonical -> JSObject.inherited category = false.
Proof.
  unfold Spec.canonical. cbn [In].
  intros [<- | [<- | [<- | [<- | [<- | []]]]]]; vm_compute; reflexivity.
Qed.







(** What a search in a keyword table returns is the name of one of its
    entries. *)
Lemma find_entry_name (hit : jsstring * list jsstring -> bool)
    (table : list (jsstring * list jsstring)) (entry : jsstring * list jsstring) :
  List.find hit table = Some entry -> In (fst entry) (List.map fst table).
Proof.
  intros H. apply List.find_some in H. apply in_map, H.
Qed.

Lemma community_normalizeCategory_canonical
    (toLowerCase : jsstring -> jsstring) (text : jsstring) :
  In (Community.normalizeCategory toLowerCase text) Spec.canonical.
Proof.
  unfold Community.normalizeCategory.
  destruct (List.find _ Community.CATEGORY_KEYWORDS) as [entry |] eqn:E.
  - apply find_entry_name in E.
    unfold Spec.canonical. cbn [List.map fst Community.CATEGORY_KEYWORDS In] in *.
    tauto.
  - unfold Spec.canonical. cbn [In]. tauto.
Qed.

Lemma amazon_normalizeCategory_canonical
    (toLowerCase : jsstring -> jsstring) (text : jsstring) :
  In (Amazon.normalizeCategory toLowerCase text) Spec.canonical.
Proof.
  assert (Hother : In (str "other") Spec.canonical)
    by (unfold Spec.canonical; cbn [In]; tauto).
  unfold Amazon.normalizeCategory.
  destruct (negb (JSString.truthy text)); [exact Hother |].
  destruct (List.find _ Amazon.CATEGORY_MAPPING) as [entry |] eqn:E.
  - apply find_entry_name in E.
    unfold Spec.canonical. cbn [List.map fst Amazon.CATEGORY_MAPPING In] in *.
    tauto.
  - destruct (List.find _ Amazon.CATEGORY_ALIASES) as [entry |] eqn:E2;
      [| exact Hother].
    apply find_entry_name in E2.
    unfold Spec.canonical. cbn [List.map fst Amazon.CATEGORY_ALIASES In] in *.
    tauto.
Qed.

Lemma log10_series_ok : Spec.log10_ok Spec.log10_series.
Proof.
  split; [| split; [| reflexivity]].
  - intros q Hq. unfold Spec.log10_series.
    destruct (Qle_bool q 0) eqn:E; [apply Qle_bool_iff in E; lra |].
    eexists. split; [reflexivity |].
    apply Qmult_le_0_compat; [| lra].
    apply Qdiv_nonneg; lra.
  - eexists. split; [vm_compute; reflexivity | reflexivity].
Qed.




(** C9, as amended.  The community score is a function of the discount,
    the votes, the canonical category and whether the deal has an ASIN (the
    source is not read); the Amazon score is a function of the discount, the
    rating, the review count, the canonical category and the source.  Two
    listings that agree on those fields get the same score, whatever their
    other fields are. *)
Theorem C9_score_depends_on_its_inputs_only (Math_log10 : number -> number) :
  (forall d1 d2 : Community.CommunityDeal,
     Community.discount d1 = Community.discount d2 ->
     Community.upvotes d1 = Community.upvotes d2 ->
     Community.normalizedCategory d1 = Community.normalizedCategory d2 ->
     Community.has_asin d1 = Community.has_asin d2 ->
     Community.calculateDealScore Math_log10 d1
     = Community.calculateDealScore Math_log10 d2) /\
  (forall p1 p2 : Amazon.ScrapedProduct,
     Amazon.discount p1 = Amazon.discount p2 ->
     Amazon.rating p1 = Amazon.rating p2 ->
     Amazon.reviewCount p1 = Amazon.reviewCount p2 ->
     Amazon.normalizedCategory p1 = Amazon.normalizedCategory p2 ->
     Amazon.source p1 = Amazon.source p2 ->
     Amazon.calculateDealScore Math_log10 p1
     = Amazon.calculateDealScore Math_log10 p2).
Proof.
  split.
  - intros d1 d2 E1 E2 E3 E4. unfold Community.calculateDealScore.
    now rewrite E1, E2, E3, E4.
  - intros p1 p2 E1 E2 E3 E4 E5. unfold Amazon.calculateDealScore.
    now rewrite E1, E2, E3, E4, E5.
Qed.

(** Sample listings that differ in fields that the score does not read. *)
Lemma C9_witness :
  Community.source Samples.echo_high <> Community.source Samples.tablet /\
  Community.calculateDealScore Spec.log10_series Samples.echo_high
  = Community.calculateDealScore Spec.log10_series Samples.tablet /\
  Amazon.asin Samples.mouse <> Amazon.asin Samples.keyboard /\
  Amazon.calculateDealScore Spec.log10_series Samples.mouse
  = Amazon.calculateDealScore Spec.log10_series Samples.keyboard.
Proof.
  split; [vm_compute; discriminate |].
  split; [apply (proj1 (C9_score_depends_on_its_inputs_only _)); reflexivity |].
  split; [vm_compute; discriminate |].
  apply (proj2 (C9_score_depends_on_its_inputs_only _)); reflexivity.
Defined.

(** C9 as stated fails for the community score.  [echo_high] and
    [echo_untracked] have the same discount, votes, canonical category and
    source; only the first has an ASIN, and whatever [Math.log10] is, its
    score is 15 higher (in JavaScript: 86 against 71). *)
Lemma C9_counterexample :
  Spec.claimed_inputs_agree Samples.echo_high Samples.echo_untracked /\
  (forall Math_log10 : number -> number,
     Spec.log10_ok Math_log10 ->
     exists z : Z,
       Community.calculateDealScore Math_log10 Samples.echo_untracked = of_Z z /\
       Community.calculateDealScore Math_log10 Samples.echo_high = of_Z (z + 15) /\
       Community.calculateDealScore Math_log10 Samples.echo_high
       <> Community.calculateDealScore Math_log10 Samples.echo_untracked).
Proof.
  split; [repeat split |].
  intros Math_log10 Hlog.
  destruct (community_score_shape Math_log10 Hlog Samples.echo_high eq_refl
              eq_refl)
    as (X & HX).
  rewrite (HX Samples.echo_high), (HX Samples.echo_untracked) by reflexivity.
  eexists. split; [reflexivity |].
  change (Community.has_asin Samples.echo_high) with true.
  change (Community.has_asin Samples.echo_untracked) with false.
  cbv iota. rewrite Qfloor_bonus. split; [reflexivity |].
  intros H. apply of_Z_inj in H. lia.
Qed.

(** ** The quality filter *)

Lemma truthy_length (t : jsstring) (n : nat) :
  negb (JSString.truthy t) || (length t <? S n)%nat = false
  <-> (S n <= length t)%nat.
Proof.
  destruct t as [| c t]; simpl.
  - split; [discriminate | lia].
  - rewrite Nat.ltb_ge. reflexivity.
Qed.

(** C4, as amended.  [filterQualityDeals] keeps a deal if and only if its
    title has at least 10 characters, its price is not positive (none was
    found) or lies in [20, 3000], its votes are not below [MIN_UPVOTES] and
    its discount is not below [MIN_DISCOUNT]; with the floor of 10 a
    discount of 5 is excluded and a discount of 10 is included.
    [filterQualityProducts] keeps a product if and only if its ASIN has 10
    characters, its title at least 10, its price lies in
    [MIN_PRICE, MAX_PRICE], its rating is not positive or not below
    [MIN_RATING], and its review count is not positive or not below
    [MIN_REVIEWS]; it tests no discount. *)
Theorem C4_quality_filter_exact :
  (forall cfg deals d,
     In d (Community.filterQualityDeals cfg deals) <->
     In d deals /\
     (10 <= length (Community.title d))%nat /\
     ((Community.price d >? Finite 0)%js = false \/
      (Community.price d <? Finite 20)%js = false /\
      (Community.price d >? Finite 3000)%js = false) /\
     (Community.upvotes d <? Community.MIN_UPVOTES cfg)%js = false /\
     (Community.discount d <? Community.MIN_DISCOUNT cfg)%js = false) /\
  Community.filterQualityDeals Community.CONFIG [Samples.echo_five] = [] /\
  Community.filterQualityDeals Community.CONFIG [Samples.echo_low]
  = [Samples.echo_low] /\
  (forall cfg products p,
     In p (Amazon.filterQualityProducts cfg products) <->
     In p products /\
     length (Amazon.asin p) = 10%nat /\
     (10 <= length (Amazon.title p))%nat /\
     (Amazon.price p <? Amazon.MIN_PRICE cfg)%js = false /\
     (Amazon.price p >? Amazon.MAX_PRICE cfg)%js = false /\
     ((Amazon.rating p >? Finite 0)%js = false \/
      (Amazon.rating p <? Amazon.MIN_RATING cfg)%js = false) /\
     ((Amazon.reviewCount p >? Finite 0)%js = false \/
      (Amazon.reviewCount p <? Amazon.MIN_REVIEWS cfg)%js = false)).
Proof.
  split; [| split; [vm_compute; reflexivity |
                    split; [vm_compute; reflexivity |]]].
  - intros cfg deals d. unfold Community.filterQualityDeals.
    rewrite List.filter_In.
    apply and_iff_compat_l.
    destruct (negb (JSString.truthy (Community.title d))
              || (length (Community.title d) <? 10)%nat) eqn:Et.
    { split; [discriminate |]. intros (Hlen & _).
      apply truthy_length in Hlen. congruence. }
    apply truthy_length in Et.
    destruct (Community.price d >? Finite 0)%js,
             (Community.price d <? Finite 20)%js,
             (Community.price d >? Finite 3000)%js,
             (Community.upvotes d <? Community.MIN_UPVOTES cfg)%js,
             (Community.discount d <? Community.MIN_DISCOUNT cfg)%js;
      simpl; intuition congruence.
  - intros cfg products p. unfold Amazon.filterQualityProducts.
    rewrite List.filter_In.
    apply and_iff_compat_l.
    destruct (negb (JSString.truthy (Amazon.asin p))
              || negb (length (Amazon.asin p) =? 10)%nat) eqn:Ea.
    { split; [discriminate |]. intros (Hlen & _).
      rewrite Hlen in Ea. simpl in Ea. rewrite orb_false_r in Ea.
      destruct (Amazon.asin p); [discriminate Hlen | discriminate Ea]. }
    apply orb_false_iff in Ea. destruct Ea as [_ Ea].
    apply negb_false_iff, Nat.eqb_eq in Ea.
    destruct (negb (JSString.truthy (Amazon.title p))
              || (length (Amazon.title p) <? 10)%nat) eqn:Et.
    { split; [discriminate |]. intros (_ & Hlen & _).
      apply truthy_length in Hlen. congruence. }
    apply truthy_length in Et.
    destruct (Amazon.price p <? Amazon.MIN_PRICE cfg)%js,
             (Amazon.price p >? Amazon.MAX_PRICE cfg)%js,
             (Amazon.rating p >? Finite 0)%js,
             (Amazon.rating p <? Amazon.MIN_RATING cfg)%js,
             (Amazon.reviewCount p >? Finite 0)%js,
             (Amazon.reviewCount p <? Amazon.MIN_REVIEWS cfg)%js;
      simpl; intuition congruence.
Qed.

(** C4 as stated fails.  A deal without a price is kept although 0 is not
    in the price band, and an Amazon product without rating and reviews is
    kept although both are below their floors (its discount of 0 is not
    tested at all). *)
Lemma C4_counterexample :
  Community.filterQualityDeals Community.CONFIG [Samples.echo_no_price]
  = [Samples.echo_no_price] /\
  ~ Spec.deal_passes_as_claimed Community.CONFIG Samples.echo_no_price /\
  Amazon.filterQualityProducts Amazon.CONFIG [Samples.unrated]
  = [Samples.unrated] /\
  ~ Spec.product_passes_as_claimed Amazon.CONFIG Samples.unrated /\
  Amazon.discount Samples.unrated = Finite 0.
Proof.
  split; [vm_compute; reflexivity |].
  split; [intros (H & _); vm_compute in H; discriminate |].
  split; [vm_compute; reflexivity |].
  split; [intros (_ & _ & H & _); vm_compute in H; discriminate |].
  reflexivity.
Qed.


(** ** The fetcher and the session budget *)

Lemma requests_app (l1 l2 : list event) :
  requests (l1 ++ l2) = requests l1 ++ requests l2.
Proof. unfold requests. apply flat_map_app. Qed.

Section CommunityFetch.
Variable cfg : Community.Config.
Variable net : oracle.

(** What a run of the retry loop does to the session: [k] requests, all
    for [url], at least one when the loop has an iteration to run, and at
    most one error entry. *)
Lemma community_attempts_effect (url : jsstring) (remaining attempt : nat)
    (w : Community.session) :
  exists (k : nat) (errs : list jsstring),
    (k <= remaining)%nat /\ (1 <= remaining -> 1 <= k)%nat /\
    Community.requestCount
      (Community.stats (snd (Community.attempts cfg net url remaining attempt w)))
    = (Community.requestCount (Community.stats w) + k)%nat /\
    requests (Community.trace (snd (Community.attempts cfg net url remaining attempt w)))
    = requests (Community.trace w) ++ repeat url k /\
    Community.errors
      (Community.stats (snd (Community.attempts cfg net url remaining attempt w)))
    = Community.errors (Community.stats w) ++ errs.
Proof.
  revert attempt w.
  induction remaining as [| remaining IH]; intros attempt w; simpl.
  - exists 0%nat, []. simpl. rewrite !app_nil_r. repeat split; lia.
  - destruct (net _ url) as [html | errorMsg]; simpl.
    + exists 1%nat, []. simpl. rewrite requests_app, app_nil_r.
      repeat split; lia.
    + match goal with
      | |- context [Community.attempts cfg net url remaining (S attempt) ?w2] =>
          destruct (IH (S attempt) w2) as (k & errs & Hk & _ & Hc & Hr & He)
      end.
      rewrite Hc, Hr, He.
      destruct (attempt <? Community.MAX_RETRIES cfg)%nat; simpl.
      * exists (S k), errs. rewrite !requests_app. simpl.
        rewrite app_nil_r, <- app_assoc. simpl.
        repeat split; lia.
      * eexists (S k), (_ :: errs). rewrite requests_app. simpl.
        rewrite <- !app_assoc. simpl.
        repeat split; lia.
Qed.

(** Every attempt fails: the loop runs to its end. *)
Lemma community_attempts_all_fail (msg url : jsstring)
    (remaining attempt : nat) (w : Community.session) :
  (forall n u, net n u = Failure msg) ->
  Community.requestCount
    (Community.stats (snd (Community.attempts cfg net url remaining attempt w)))
  = (Community.requestCount (Community.stats w) + remaining)%nat.
Proof.
  intros Hnet. revert attempt w.
  induction remaining as [| remaining IH]; intros attempt w; simpl; [lia |].
  rewrite Hnet, IH.
  destruct (attempt <? Community.MAX_RETRIES cfg)%nat; simpl; lia.
Qed.

(** Budget reached on entry: nothing but the skip. *)
Lemma community_fetch_skips (url : jsstring) (w : Community.session) :
  (Community.MAX_REQUESTS cfg <= Community.requestCount (Community.stats w))%nat ->
  Community.fetchWithRetry cfg net url w
  = (None, Community.emit (Skipped url) w).
Proof.
  intros H. unfold Community.fetchWithRetry.
  now rewrite (proj2 (Nat.leb_le _ _) H).
Qed.

Lemma community_fetch_effect (url : jsstring) (w : Community.session) :
  exists (k : nat) (errs : list jsstring),
    (k <= Community.MAX_RETRIES cfg)%nat /\
    ((Community.requestCount (Community.stats w) < Community.MAX_REQUESTS cfg)%nat ->
     (1 <= Community.MAX_RETRIES cfg)%nat -> (1 <= k)%nat) /\
    ((Community.MAX_REQUESTS cfg <= Community.requestCount (Community.stats w))%nat ->
     k = 0%nat /\ errs = []) /\
    Community.requestCount
      (Community.stats (snd (Community.fetchWithRetry cfg net url w)))
    = (Community.requestCount (Community.stats w) + k)%nat /\
    requests (Community.trace (snd (Community.fetchWithRetry cfg net url w)))
    = requests (Community.trace w) ++ repeat url k /\
    Community.errors
      (Community.stats (snd (Community.fetchWithRetry cfg net url w)))
    = Community.errors (Community.stats w) ++ errs.
Proof.
  unfold Community.fetchWithRetry.
  destruct (Community.MAX_REQUESTS cfg <=? Community.requestCount (Community.stats w))%nat
    eqn:E.
  - apply Nat.leb_le in E. exists 0%nat, []. simpl.
    rewrite requests_app. simpl. rewrite !app_nil_r.
    repeat split; auto; lia.
  - apply Nat.leb_gt in E.
    destruct (community_attempts_effect url (Community.MAX_RETRIES cfg) 1 w)
      as (k & errs & Hk & Hk1 & Hc & Hr & He).
    exists k, errs. repeat split; auto; lia.
Qed.

End CommunityFetch.

Section CommunityLoop.
Variable cfg : Community.Config.
Variable Elem : Type.
Variable select : jsstring -> jsstring -> list Elem.
Variable find_text : Elem -> jsstring -> jsstring.
Variable find_attr : Elem -> jsstring -> jsstring -> option jsstring.
Variable find_all_attr : Elem -> jsstring -> jsstring -> list (option jsstring).
Variable toLowerCase : jsstring -> jsstring.
Variable toUpperCase : jsstring -> jsstring.
Variable Number_toString : number -> jsstring.
Variable Date_now : Z.
Variable Math_log10 : number -> number.
Variable net : oracle.

Local Abbreviation loop :=
  (Community.scrapeSources cfg Elem select find_text find_attr find_all_attr
     toLowerCase toUpperCase Number_toString Date_now
     Math_log10 net).

Local Abbreviation count w := (Community.requestCount (Community.stats w)).
Local Abbreviation errors_of w := (Community.errors (Community.stats w)).
Local Abbreviation MAX := (Community.MAX_REQUESTS cfg).
Local Abbreviation RETRIES := (Community.MAX_RETRIES cfg).

(** The loop stops at once when the budget is used up. *)
Lemma community_loop_stops (sources : list Community.Source)
    (allDeals : list Community.CommunityDeal) (w : Community.session) :
  (MAX <= count w)%nat ->
  fst (loop sources allDeals w) = allDeals /\
  Community.stats (snd (loop sources allDeals w)) = Community.stats w /\
  requests (Community.trace (snd (loop sources allDeals w)))
  = requests (Community.trace w).
Proof.
  intros H. destruct sources as [| source rest]; simpl; [auto |].
  rewrite (proj2 (Nat.leb_le _ _) H). simpl.
  rewrite requests_app. simpl. now rewrite app_nil_r.
Qed.

(** What the loop does to the session. *)
Lemma community_loop_effect (sources : list Community.Source)
    (allDeals : list Community.CommunityDeal) (w : Community.session) :
  exists (extra errs : list jsstring),
    requests (Community.trace (snd (loop sources allDeals w)))
    = requests (Community.trace w) ++ extra /\
    count (snd (loop sources allDeals w)) = (count w + length extra)%nat /\
    errors_of (snd (loop sources allDeals w)) = errors_of w ++ errs /\
    ((count w < MAX + RETRIES)%nat ->
     (count (snd (loop sources allDeals w)) < MAX + RETRIES)%nat) /\
    ((1 <= RETRIES)%nat ->
     Forall (fun u => In u (List.map Community.src_url
                              (firstn (MAX - count w) sources))) extra) /\
    (RETRIES = 0%nat -> extra = []).
Proof.
  revert allDeals w.
  induction sources as [| source rest IH]; intros allDeals w.
  - exists [], []. simpl. rewrite !app_nil_r.
    repeat split; auto; lia.
  - simpl.
    destruct (MAX <=? count w)%nat eqn:E.
    + apply Nat.leb_le in E. exists [], []. simpl.
      rewrite requests_app. simpl. rewrite !app_nil_r.
      repeat split; auto; lia.
    + apply Nat.leb_gt in E.
      destruct (community_fetch_effect cfg net (Community.src_url source) w)
        as (k & errs & Hk & Hk1 & _ & Hc & Hr & He).
      destruct (Community.fetchWithRetry cfg net (Community.src_url source) w)
        as [html w1]. simpl in Hc, Hr, He.
      assert (Hfinish : forall a w3,
                count w3 = count w1 -> errors_of w3 = errors_of w1 ->
                requests (Community.trace w3) = requests (Community.trace w1) ->
                exists extra errs0 : list jsstring,
                  requests (Community.trace (snd (loop rest a w3)))
                  = requests (Community.trace w) ++ extra /\
                  count (snd (loop rest a w3)) = (count w + length extra)%nat /\
                  errors_of (snd (loop rest a w3)) = errors_of w ++ errs0 /\
                  ((count w < MAX + RETRIES)%nat ->
                   (count (snd (loop rest a w3)) < MAX + RETRIES)%nat) /\
                  ((1 <= RETRIES)%nat ->
                   Forall (fun u => In u (List.map Community.src_url
                                            (firstn (MAX - count w)
                                               (source :: rest)))) extra) /\
                  (RETRIES = 0%nat -> extra = [])).
      { intros a w3 Hc3 He3 Hr3.
        destruct (IH a w3) as (extra & errs' & Hr' & Hc' & He' & Hb' & Hf' & Hz').
        exists (repeat (Community.src_url source) k ++ extra), (errs ++ errs').
        rewrite Hr', Hc', He', Hr3, Hc3, He3, Hr, Hc, He.
        rewrite length_app, repeat_length, <- !app_assoc.
        repeat split; try lia.
        - intros HR. specialize (Hk1 E HR). specialize (Hf' HR).
          rewrite Hc3, Hc in Hf'.
          destruct (MAX - count w)%nat as [| b] eqn:Eb; [lia |].
          simpl. apply Forall_app. split.
          + apply List.Forall_forall. intros u Hu.
            apply repeat_spec in Hu. subst u. now left.
          + eapply List.Forall_impl; [| exact Hf']. simpl.
            intros u Hu. right.
            revert Hu. apply incl_map.
            replace (MAX - (count w + k))%nat with (b - (k - 1))%nat by lia.
            intros x Hx.
            rewrite <- (firstn_skipn (b - (k - 1)) (firstn b rest)).
            apply in_or_app. left.
            rewrite firstn_firstn.
            now replace (Init.Nat.min (b - (k - 1)) b) with (b - (k - 1))%nat
              by lia.
        - intros HR. assert (k = 0%nat) by lia. subst k.
          now rewrite (Hz' HR). }
      destruct html as [html |]; [destruct (JSString.truthy html) |];
        match goal with
        | |- context [(?a <? ?b)%nat] => destruct (a <? b)%nat
        end;
        apply Hfinish; simpl; rewrite ?requests_app; simpl;
        rewrite ?app_nil_r; reflexivity.
Qed.

End CommunityLoop.

Section AmazonFetch.
Variable cfg : Amazon.Config.
Variable net : oracle.

(** What a run of the retry loop does to the session: [k] requests, all
    for [url], at least one when the loop has an iteration to run, and at
    most one error entry. *)
Lemma amazon_attempts_effect (url : jsstring) (remaining attempt : nat)
    (w : Amazon.session) :
  exists (k : nat) (errs : list jsstring),
    (k <= remaining)%nat /\ (1 <= remaining -> 1 <= k)%nat /\
    Amazon.requestCount
      (Amazon.stats (snd (Amazon.attempts cfg net url remaining attempt w)))
    = (Amazon.requestCount (Amazon.stats w) + k)%nat /\
    requests (Amazon.trace (snd (Amazon.attempts cfg net url remaining attempt w)))
    = requests (Amazon.trace w) ++ repeat url k /\
    Amazon.errors
      (Amazon.stats (snd (Amazon.attempts cfg net url remaining attempt w)))
    = Amazon.errors (Amazon.stats w) ++ errs.
Proof.
  revert attempt w.
  induction remaining as [| remaining IH]; intros attempt w; simpl.
  - exists 0%nat, []. simpl. rewrite !app_nil_r. repeat split; lia.
  - destruct (net _ url) as [html | errorMsg]; simpl.
    + destruct (Amazon.looks_blocked html); simpl.
      * eexists 1%nat, [_]. simpl. rewrite !requests_app. simpl.
        rewrite app_nil_r. repeat split; lia.
      * exists 1%nat, []. simpl. rewrite requests_app, app_nil_r.
        repeat split; lia.
    + match goal with
      | |- context [Amazon.attempts cfg net url remaining (S attempt) ?w2] =>
          destruct (IH (S attempt) w2) as (k & errs & Hk & _ & Hc & Hr & He)
      end.
      rewrite Hc, Hr, He.
      destruct (attempt <? Amazon.MAX_RETRIES cfg)%nat; simpl.
      * exists (S k), errs. rewrite !requests_app. simpl.
        rewrite app_nil_r, <- app_assoc. simpl.
        repeat split; lia.
      * eexists (S k), (_ :: errs). rewrite requests_app. simpl.
        rewrite <- !app_assoc. simpl.
        repeat split; lia.
Qed.

(** Every attempt fails: the loop runs to its end. *)
Lemma amazon_attempts_all_fail (msg url : jsstring)
    (remaining attempt : nat) (w : Amazon.session) :
  (forall n u, net n u = Failure msg) ->
  Amazon.requestCount
    (Amazon.stats (snd (Amazon.attempts cfg net url remaining attempt w)))
  = (Amazon.requestCount (Amazon.stats w) + remaining)%nat.
Proof.
  intros Hnet. revert attempt w.
  induction remaining as [| remaining IH]; intros attempt w; simpl; [lia |].
  rewrite Hnet, IH.
  destruct (attempt <? Amazon.MAX_RETRIES cfg)%nat; simpl; lia.
Qed.

(** Budget reached on entry: nothing but the skip. *)
Lemma amazon_fetch_skips (url : jsstring) (w : Amazon.session) :
  (Amazon.MAX_REQUESTS_PER_SESSION cfg <= Amazon.requestCount (Amazon.stats w))%nat ->
  Amazon.fetchWithRetry cfg net url w
  = (None, Amazon.emit (Skipped url) w).
Proof.
  intros H. unfold Amazon.fetchWithRetry.
  now rewrite (proj2 (Nat.leb_le _ _) H).
Qed.

Lemma amazon_fetch_effect (url : jsstring) (w : Amazon.session) :
  exists (k : nat) (errs : list jsstring),
    (k <= Amazon.MAX_RETRIES cfg)%nat /\
    ((Amazon.requestCount (Amazon.stats w) < Amazon.MAX_REQUESTS_PER_SESSION cfg)%nat ->
     (1 <= Amazon.MAX_RETRIES cfg)%nat -> (1 <= k)%nat) /\
    ((Amazon.MAX_REQUESTS_PER_SESSION cfg <= Amazon.requestCount (Amazon.stats w))%nat ->
     k = 0%nat /\ errs = []) /\
    Amazon.requestCount
      (Amazon.stats (snd (Amazon.fetchWithRetry cfg net url w)))
    = (Amazon.requestCount (Amazon.stats w) + k)%nat /\
    requests (Amazon.trace (snd (Amazon.fetchWithRetry cfg net url w)))
    = requests (Amazon.trace w) ++ repeat url k /\
    Amazon.errors
      (Amazon.stats (snd (Amazon.fetchWithRetry cfg net url w)))
    = Amazon.errors (Amazon.stats w) ++ errs.
Proof.
  unfold Amazon.fetchWithRetry.
  destruct (Amazon.MAX_REQUESTS_PER_SESSION cfg <=? Amazon.requestCount (Amazon.stats w))%nat
    eqn:E.
  - apply Nat.leb_le in E. exists 0%nat, []. simpl.
    rewrite requests_app. simpl. rewrite !app_nil_r.
    repeat split; auto; lia.
  - apply Nat.leb_gt in E.
    destruct (amazon_attempts_effect url (Amazon.MAX_RETRIES cfg) 1 w)
      as (k & errs & Hk & Hk1 & Hc & Hr & He).
    exists k, errs. repeat split; auto; lia.
Qed.

End AmazonFetch.

Section AmazonLoop.
Variable cfg : Amazon.Config.
Variable Elem : Type.
Variable select : jsstring -> jsstring -> list Elem.
Variable el_attr : Elem -> jsstring -> option jsstring.
Variable find_text find_last_text : Elem -> jsstring -> jsstring.
Variable find_attr : Elem -> jsstring -> jsstring -> option jsstring.
Variable toLowerCase : jsstring -> jsstring.
Variable first_dynamic_image : jsstring -> option jsstring.
Variable Date_now : Z.
Variable Math_log10 : number -> number.
Variable net : oracle.

Local Abbreviation loop :=
  (Amazon.scrapeSources cfg Elem select el_attr find_text find_last_text
     find_attr toLowerCase first_dynamic_image Date_now
     Math_log10 net).

Local Abbreviation count w := (Amazon.requestCount (Amazon.stats w)).
Local Abbreviation errors_of w := (Amazon.errors (Amazon.stats w)).
Local Abbreviation MAX := (Amazon.MAX_REQUESTS_PER_SESSION cfg).
Local Abbreviation RETRIES := (Amazon.MAX_RETRIES cfg).

(** The loop stops at once when the budget is used up. *)
Lemma amazon_loop_stops (sources : list Amazon.ScrapeSource)
    (allProducts : list Amazon.ScrapedProduct) (w : Amazon.session) :
  (MAX <= count w)%nat ->
  fst (loop sources allProducts w) = allProducts /\
  Amazon.stats (snd (loop sources allProducts w)) = Amazon.stats w /\
  requests (Amazon.trace (snd (loop sources allProducts w)))
  = requests (Amazon.trace w).
Proof.
  intros H. destruct sources as [| source rest]; simpl; [auto |].
  rewrite (proj2 (Nat.leb_le _ _) H). simpl.
  rewrite requests_app. simpl. now rewrite app_nil_r.
Qed.

(** What the loop does to the session. *)
Lemma amazon_loop_effect (sources : list Amazon.ScrapeSource)
    (allProducts : list Amazon.ScrapedProduct) (w : Amazon.session) :
  exists (extra errs : list jsstring),
    requests (Amazon.trace (snd (loop sources allProducts w)))
    = requests (Amazon.trace w) ++ extra /\
    count (snd (loop sources allProducts w)) = (count w + length extra)%nat /\
    errors_of (snd (loop sources allProducts w)) = errors_of w ++ errs /\
    ((count w < MAX + RETRIES)%nat ->
     (count (snd (loop sources allProducts w)) < MAX + RETRIES)%nat) /\
    ((1 <= RETRIES)%nat ->
     Forall (fun u => In u (List.map Amazon.src_url
                              (firstn (MAX - count w) sources))) extra) /\
    (RETRIES = 0%nat -> extra = []).
Proof.
  revert allProducts w.
  induction sources as [| source rest IH]; intros allProducts w.
  - exists [], []. simpl. rewrite !app_nil_r.
    repeat split; auto; lia.
  - simpl.
    destruct (MAX <=? count w)%nat eqn:E.
    + apply Nat.leb_le in E. exists [], []. simpl.
      rewrite requests_app. simpl. rewrite !app_nil_r.
      repeat split; auto; lia.
    + apply Nat.leb_gt in E.
      destruct (amazon_fetch_effect cfg net (Amazon.src_url source) w)
        as (k & errs & Hk & Hk1 & _ & Hc & Hr & He).
      destruct (Amazon.fetchWithRetry cfg net (Amazon.src_url source) w)
        as [html w1]. simpl in Hc, Hr, He.
      assert (Hfinish : forall a w3,
                count w3 = count w1 -> errors_of w3 = errors_of w1 ->
                requests (Amazon.trace w3) = requests (Amazon.trace w1) ->
                exists extra errs0 : list jsstring,
                  requests (Amazon.trace (snd (loop rest a w3)))
                  = requests (Amazon.trace w) ++ extra /\
                  count (snd (loop rest a w3)) = (count w + length extra)%nat /\
                  errors_of (snd (loop rest a w3)) = errors_of w ++ errs0 /\
                  ((count w < MAX + RETRIES)%nat ->
                   (count (snd (loop rest a w3)) < MAX + RETRIES)%nat) /\
                  ((1 <= RETRIES)%nat ->
                   Forall (fun u => In u (List.map Amazon.src_url
                                            (firstn (MAX - count w)
                                               (source :: rest)))) extra) /\
                  (RETRIES = 0%nat -> extra = [])).
      { intros a w3 Hc3 He3 Hr3.
        destruct (IH a w3) as (extra & errs' & Hr' & Hc' & He' & Hb' & Hf' & Hz').
        exists (repeat (Amazon.src_url source) k ++ extra), (errs ++ errs').
        rewrite Hr', Hc', He', Hr3, Hc3, He3, Hr, Hc, He.
        rewrite length_app, repeat_length, <- !app_assoc.
        repeat split; try lia.
        - intros HR. specialize (Hk1 E HR). specialize (Hf' HR).
          rewrite Hc3, Hc in Hf'.
          destruct (MAX - count w)%nat as [| b] eqn:Eb; [lia |].
          simpl. apply Forall_app. split.
          + apply List.Forall_forall. intros u Hu.
            apply repeat_spec in Hu. subst u. now left.
          + eapply List.Forall_impl; [| exact Hf']. simpl.
            intros u Hu. right.
            revert Hu. apply incl_map.
            replace (MAX - (count w + k))%nat with (b - (k - 1))%nat by lia.
            intros x Hx.
            rewrite <- (firstn_skipn (b - (k - 1)) (firstn b rest)).
            apply in_or_app. left.
            rewrite firstn_firstn.
            now replace (Init.Nat.min (b - (k - 1)) b) with (b - (k - 1))%nat
              by lia.
        - intros HR. assert (k = 0%nat) by lia. subst k.
          now rewrite (Hz' HR). }
      destruct html as [html |]; [destruct (JSString.truthy html) |];
        match goal with
        | |- context [(?a <? ?b)%nat && ?c] => destruct ((a <? b)%nat && c)
        end;
        apply Hfinish; simpl; rewrite ?requests_app; simpl;
        rewrite ?app_nil_r; reflexivity.
Qed.

End AmazonLoop.

Lemma community_discover_session (cfg : Community.Config) (Elem : Type)
    (select : jsstring -> jsstring -> list Elem)
    (find_text : Elem -> jsstring -> jsstring)
    (find_attr : Elem -> jsstring -> jsstring -> option jsstring)
    (find_all_attr : Elem -> jsstring -> jsstring -> list (option jsstring))
    (toLowerCase : jsstring -> jsstring)
    (toUpperCase : jsstring -> jsstring)
    (Number_toString : number -> jsstring)
    (Date_now : Z) (Math_log10 : number -> number) (net : oracle)
    (sources : list Community.Source) (limit : option Z) :
  snd (Community.discoverCommunityDeals cfg Elem select find_text find_attr
         find_all_attr toLowerCase toUpperCase Number_toString Date_now Math_log10 net sources limit)
  = snd (Community.scrapeSources cfg Elem select find_text find_attr
           find_all_attr toLowerCase toUpperCase Number_toString Date_now Math_log10 net sources []
           (Community.new_session Date_now)).
Proof.
  unfold Community.discoverCommunityDeals.
  now destruct (Community.scrapeSources _ _ _ _ _ _ _ _ _ _ _ _ _ _ _).
Qed.

Lemma amazon_discover_session (cfg : Amazon.Config) (Elem : Type)
    (select : jsstring -> jsstring -> list Elem)
    (el_attr : Elem -> jsstring -> option jsstring)
    (find_text find_last_text : Elem -> jsstring -> jsstring)
    (find_attr : Elem -> jsstring -> jsstring -> option jsstring)
    (toLowerCase : jsstring -> jsstring)
    (first_dynamic_image : jsstring -> option jsstring)
    (Date_now : Z) (Math_log10 : number -> number) (net : oracle)
    (sources : list Amazon.ScrapeSource) (limit : option Z) :
  snd (Amazon.discoverProducts cfg Elem select el_attr find_text
         find_last_text find_attr toLowerCase
         first_dynamic_image Date_now Math_log10 net sources limit)
  = snd (Amazon.scrapeSources cfg Elem select el_attr find_text
           find_last_text find_attr toLowerCase
           first_dynamic_image Date_now Math_log10 net sources []
           (Amazon.new_session Date_now)).
Proof.
  unfold Amazon.discoverProducts.
  now destruct (Amazon.scrapeSources _ _ _ _ _ _ _ _ _ _ _ _ _ _ _).
Qed.

(** C10. The budget is tested on entry to [fetchWithRetry] only and every
    attempt counts.  (1) Over a whole session of [discoverCommunityDeals]
    or [discoverProducts] the request count stays below
    [MAX_REQUESTS + MAX_RETRIES], that is, it is at most
    [MAX_REQUESTS + MAX_RETRIES - 1].  (2) A call that starts one request
    below the budget and whose attempts all fail ends at
    [MAX_REQUESTS + MAX_RETRIES - 1]: with the community configuration
    (budget 4, 2 retries) the count goes from 3 to 5.  (3) With the Amazon
    configuration (budget 6, 2 retries) and its six sources, a session in
    which the sixth source is down makes 7 requests. *)
Theorem C10_request_count_bound :
  (forall cfg Elem select find_text find_attr find_all_attr toLowerCase
          toUpperCase Number_toString Date_now Math_log10
          net sources limit,
     (0 < Community.MAX_REQUESTS cfg + Community.MAX_RETRIES cfg)%nat ->
     (Community.requestCount
        (Community.stats
           (snd (Community.discoverCommunityDeals cfg Elem select find_text
                   find_attr find_all_attr toLowerCase toUpperCase
                   Number_toString Date_now Math_log10 net
                   sources limit)))
      < Community.MAX_REQUESTS cfg + Community.MAX_RETRIES cfg)%nat) /\
  (forall cfg Elem select el_attr find_text find_last_text find_attr
          toLowerCase first_dynamic_image Date_now
          Math_log10 net sources limit,
     (0 < Amazon.MAX_REQUESTS_PER_SESSION cfg + Amazon.MAX_RETRIES cfg)%nat ->
     (Amazon.requestCount
        (Amazon.stats
           (snd (Amazon.discoverProducts cfg Elem select el_attr find_text
                   find_last_text find_attr toLowerCase
                   first_dynamic_image Date_now Math_log10 net sources limit)))
      < Amazon.MAX_REQUESTS_PER_SESSION cfg + Amazon.MAX_RETRIES cfg)%nat) /\
  (forall cfg net msg url w,
     (forall n u, net n u = Failure msg) ->
     S (Community.requestCount (Community.stats w)) = Community.MAX_REQUESTS cfg ->
     Community.requestCount
       (Community.stats (snd (Community.fetchWithRetry cfg net url w)))
     = (Community.MAX_REQUESTS cfg + Community.MAX_RETRIES cfg - 1)%nat) /\
  (forall cfg net msg url w,
     (forall n u, net n u = Failure msg) ->
     S (Amazon.requestCount (Amazon.stats w)) = Amazon.MAX_REQUESTS_PER_SESSION cfg ->
     Amazon.requestCount
       (Amazon.stats (snd (Amazon.fetchWithRetry cfg net url w)))
     = (Amazon.MAX_REQUESTS_PER_SESSION cfg + Amazon.MAX_RETRIES cfg - 1)%nat) /\
  (forall url w,
     Community.requestCount (Community.stats w) = 3%nat ->
     Community.requestCount
       (Community.stats
          (snd (Community.fetchWithRetry Community.CONFIG Samples.always_down
                  url w)))
     = 5%nat) /\
  Amazon.requestCount
    (Amazon.stats
       (snd (Samples.run_amazon Amazon.CONFIG (Samples.down_after 5)
               Amazon.SCRAPE_SOURCES)))
  = 7%nat.
Proof.
  split; [| split; [| split; [| split; [| split]]]].
  - intros. rewrite community_discover_session.
    match goal with
    | |- context [Community.scrapeSources ?c ?E ?s ?ft ?fa ?faa ?tl ?tu ?nts
                    ?now ?lg ?n ?srcs [] ?w] =>
        destruct (community_loop_effect c E s ft fa faa tl tu nts now lg n
                    srcs [] w) as (extra & errs & _ & _ & _ & Hb & _)
    end.
    apply Hb. simpl. assumption.
  - intros. rewrite amazon_discover_session.
    match goal with
    | |- context [Amazon.scrapeSources ?c ?E ?s ?ea ?ft ?flt ?fa ?tl ?fd
                    ?now ?lg ?n ?srcs [] ?w] =>
        destruct (amazon_loop_effect c E s ea ft flt fa tl fd now lg n
                    srcs [] w) as (extra & errs & _ & _ & _ & Hb & _)
    end.
    apply Hb. simpl. assumption.
  - intros cfg net msg url w Hnet Hc. unfold Community.fetchWithRetry.
    destruct (Community.MAX_REQUESTS cfg <=? _)%nat eqn:E;
      [apply Nat.leb_le in E; lia |].
    rewrite (community_attempts_all_fail cfg net msg) by assumption. lia.
  - intros cfg net msg url w Hnet Hc. unfold Amazon.fetchWithRetry.
    destruct (Amazon.MAX_REQUESTS_PER_SESSION cfg <=? _)%nat eqn:E;
      [apply Nat.leb_le in E; lia |].
    rewrite (amazon_attempts_all_fail cfg net msg) by assumption. lia.
  - intros url w Hc. unfold Community.fetchWithRetry. rewrite Hc. simpl.
    rewrite Hc. reflexivity.
  - vm_compute. reflexivity.
Qed.

(** A session of the community scraper in which every request fails. *)
Lemma C10_witness :
  (0 < Community.MAX_REQUESTS Community.CONFIG
       + Community.MAX_RETRIES Community.CONFIG)%nat /\
  (Community.requestCount
     (Community.stats
        (snd (Community.discoverCommunityDeals Community.CONFIG Empty_set
                (fun _ _ => []) (fun _ _ => []) (fun _ _ _ => None)
                (fun _ _ _ => []) Samples.lower_case Samples.upper_case
                Samples.decimal 0 Spec.log10_series Samples.always_down
                Community.COMMUNITY_SOURCES None)))
   < 4 + 2)%nat.
Proof.
  split; [vm_compute; lia |].
  apply (proj1 C10_request_count_bound Community.CONFIG). vm_compute. lia.
Defined.

(** The requests of a session go to the first [MAX_REQUESTS] sources. *)
Lemma community_session_requests (cfg : Community.Config) (Elem : Type)
    (select : jsstring -> jsstring -> list Elem)
    (find_text : Elem -> jsstring -> jsstring)
    (find_attr : Elem -> jsstring -> jsstring -> option jsstring)
    (find_all_attr : Elem -> jsstring -> jsstring -> list (option jsstring))
    (toLowerCase : jsstring -> jsstring)
    (toUpperCase : jsstring -> jsstring)
    (Number_toString : number -> jsstring)
    (Date_now : Z) (Math_log10 : number -> number) (net : oracle)
    (sources : list Community.Source) (limit : option Z) (u : jsstring) :
  In u (requests
          (Community.trace
             (snd (Community.discoverCommunityDeals cfg Elem select find_text
                     find_attr find_all_attr toLowerCase toUpperCase
                     Number_toString Date_now Math_log10 net
                     sources limit)))) ->
  In u (List.map Community.src_url
          (firstn (Community.MAX_REQUESTS cfg) sources)).
Proof.
  rewrite community_discover_session.
  destruct (community_loop_effect cfg Elem select find_text find_attr
              find_all_attr toLowerCase toUpperCase Number_toString Date_now Math_log10 net sources []
              (Community.new_session Date_now))
    as (extra & errs & Hr & _ & _ & _ & Hf & Hz).
  rewrite Hr. simpl. intros Hu.
  destruct (Community.MAX_RETRIES cfg) as [| r] eqn:ER.
  - rewrite Hz in Hu by reflexivity. destruct Hu.
  - assert (H1 : (1 <= S r)%nat) by lia. specialize (Hf H1).
    rewrite List.Forall_forall in Hf. rewrite Nat.sub_0_r in Hf. now apply Hf.
Qed.

Lemma amazon_session_requests (cfg : Amazon.Config) (Elem : Type)
    (select : jsstring -> jsstring -> list Elem)
    (el_attr : Elem -> jsstring -> option jsstring)
    (find_text find_last_text : Elem -> jsstring -> jsstring)
    (find_attr : Elem -> jsstring -> jsstring -> option jsstring)
    (toLowerCase : jsstring -> jsstring)
    (first_dynamic_image : jsstring -> option jsstring)
    (Date_now : Z) (Math_log10 : number -> number) (net : oracle)
    (sources : list Amazon.ScrapeSource) (limit : option Z) (u : jsstring) :
  In u (requests
          (Amazon.trace
             (snd (Amazon.discoverProducts cfg Elem select el_attr find_text
                     find_last_text find_attr toLowerCase
                     first_dynamic_image Date_now Math_log10 net sources
                     limit)))) ->
  In u (List.map Amazon.src_url
          (firstn (Amazon.MAX_REQUESTS_PER_SESSION cfg) sources)).
Proof.
  rewrite amazon_discover_session.
  destruct (amazon_loop_effect cfg Elem select el_attr find_text
              find_last_text find_attr toLowerCase
              first_dynamic_image Date_now Math_log10 net sources []
              (Amazon.new_session Date_now))
    as (extra & errs & Hr & _ & _ & _ & Hf & Hz).
  rewrite Hr. simpl. intros Hu.
  destruct (Amazon.MAX_RETRIES cfg) as [| r] eqn:ER.
  - rewrite Hz in Hu by reflexivity. destruct Hu.
  - assert (H1 : (1 <= S r)%nat) by lia. specialize (Hf H1).
    rewrite List.Forall_forall in Hf. rewrite Nat.sub_0_r in Hf. now apply Hf.
Qed.

(** C6, as amended.  Once the request count has reached the budget,
    [fetchWithRetry] returns [null] at once: it makes no request, leaves the
    statistics as they are and only logs the skip; and the discovery loop
    stops: the remaining sources get no request and no error entry.  Every
    attempt counts against the budget, retries included, so the requests of
    a session go to the first [MAX_REQUESTS] sources at most: with a budget
    of 2 and five sources, to the first two at most, and to both of them
    when the first is answered at its first attempt. *)
Theorem C6_budget_exhaustion :
  (forall cfg net url w,
     (Community.MAX_REQUESTS cfg <= Community.requestCount (Community.stats w))%nat ->
     Community.fetchWithRetry cfg net url w
     = (None, Community.emit (Skipped url) w)) /\
  (forall cfg net url w,
     (Amazon.MAX_REQUESTS_PER_SESSION cfg
      <= Amazon.requestCount (Amazon.stats w))%nat ->
     Amazon.fetchWithRetry cfg net url w = (None, Amazon.emit (Skipped url) w)) /\
  (forall cfg Elem select find_text find_attr find_all_attr toLowerCase
          toUpperCase Number_toString Date_now Math_log10
          net sources allDeals w,
     (Community.MAX_REQUESTS cfg <= Community.requestCount (Community.stats w))%nat ->
     fst (Community.scrapeSources cfg Elem select find_text find_attr
            find_all_attr toLowerCase toUpperCase Number_toString Date_now Math_log10 net sources allDeals w)
     = allDeals /\
     Community.stats
       (snd (Community.scrapeSources cfg Elem select find_text find_attr
               find_all_attr toLowerCase toUpperCase Number_toString Date_now Math_log10 net sources allDeals w))
     = Community.stats w /\
     requests
       (Community.trace
          (snd (Community.scrapeSources cfg Elem select find_text find_attr
                  find_all_attr toLowerCase toUpperCase Number_toString Date_now Math_log10 net sources allDeals w)))
     = requests (Community.trace w)) /\
  (forall cfg Elem select el_attr find_text find_last_text find_attr
          toLowerCase first_dynamic_image Date_now
          Math_log10 net sources allProducts w,
     (Amazon.MAX_REQUESTS_PER_SESSION cfg
      <= Amazon.requestCount (Amazon.stats w))%nat ->
     fst (Amazon.scrapeSources cfg Elem select el_attr find_text
            find_last_text find_attr toLowerCase
            first_dynamic_image Date_now Math_log10 net sources allProducts w)
     = allProducts /\
     Amazon.stats
       (snd (Amazon.scrapeSources cfg Elem select el_attr find_text
               find_last_text find_attr toLowerCase
               first_dynamic_image Date_now Math_log10 net sources
               allProducts w))
     = Amazon.stats w /\
     requests
       (Amazon.trace
          (snd (Amazon.scrapeSources cfg Elem select el_attr find_text
                  find_last_text find_attr toLowerCase
                  first_dynamic_image Date_now Math_log10 net sources
                  allProducts w)))
     = requests (Amazon.trace w)) /\
  (forall cfg Elem select find_text find_attr find_all_attr toLowerCase
          toUpperCase Number_toString Date_now Math_log10
          net sources limit u,
     In u (requests
             (Community.trace
                (snd (Community.discoverCommunityDeals cfg Elem select
                        find_text find_attr find_all_attr toLowerCase
                        toUpperCase Number_toString Date_now
                        Math_log10 net sources limit)))) ->
     In u (List.map Community.src_url
             (firstn (Community.MAX_REQUESTS cfg) sources))) /\
  (forall cfg Elem select el_attr find_text find_last_text find_attr
          toLowerCase first_dynamic_image Date_now
          Math_log10 net sources limit u,
     In u (requests
             (Amazon.trace
                (snd (Amazon.discoverProducts cfg Elem select el_attr
                        find_text find_last_text find_attr toLowerCase first_dynamic_image Date_now
                        Math_log10 net sources limit)))) ->
     In u (List.map Amazon.src_url
             (firstn (Amazon.MAX_REQUESTS_PER_SESSION cfg) sources))) /\
  Spec.attempted Samples.five_urls
    (Community.trace
       (snd (Samples.run_community Samples.budget_two Samples.always_ok
               Samples.five_sources)))
  = firstn 2 Samples.five_urls /\
  Community.errors
    (Community.stats
       (snd (Samples.run_community Samples.budget_two Samples.always_ok
               Samples.five_sources)))
  = [].
Proof.
  split; [intros; now apply community_fetch_skips |].
  split; [intros; now apply amazon_fetch_skips |].
  split; [intros; now apply community_loop_stops |].
  split; [intros; now apply amazon_loop_stops |].
  split; [intros *; apply community_session_requests |].
  split; [intros *; apply amazon_session_requests |].
  split; vm_compute; reflexivity.
Qed.

(** A call at the budget of the default configuration. *)
Lemma C6_witness :
  (Community.MAX_REQUESTS Community.CONFIG <= 4)%nat /\
  Community.fetchWithRetry Community.CONFIG Samples.always_ok
    (str "https://www.promobit.com.br/promocoes/loja/amazon")
    {| Community.stats :=
         {| Community.requestCount := 4; Community.dealsFound := 12;
            Community.errors := []; Community.startTime := 0 |};
       Community.trace := [] |}
  = (None,
     {| Community.stats :=
          {| Community.requestCount := 4; Community.dealsFound := 12;
             Community.errors := []; Community.startTime := 0 |};
        Community.trace :=
          [Skipped (str "https://www.promobit.com.br/promocoes/loja/amazon")] |}).
Proof.
  split; [vm_compute; lia |].
  apply (proj1 C6_budget_exhaustion). vm_compute. lia.
Defined.

(** C6 as stated fails in its example.  Budget 2, five sources, two
    retries: the first request times out and its retry is answered; the
    two requests use up the budget, so one source only gets fetch attempts,
    not two, and the other four are skipped, without any error entry. *)
Lemma C6_counterexample :
  Spec.attempted Samples.five_urls
    (Community.trace
       (snd (Samples.run_community Samples.budget_two Samples.first_times_out
               Samples.five_sources)))
  = firstn 1 Samples.five_urls /\
  requests
    (Community.trace
       (snd (Samples.run_community Samples.budget_two Samples.first_times_out
               Samples.five_sources)))
  = [str "https://one.example/amazon"; str "https://one.example/amazon"] /\
  Community.errors
    (Community.stats
       (snd (Samples.run_community Samples.budget_two Samples.first_times_out
               Samples.five_sources)))
  = [] /\
  length
    (Spec.attempted Samples.five_urls
       (Community.trace
          (snd (Samples.run_community Samples.budget_two
                  Samples.first_times_out Samples.five_sources))))
  <> 2%nat.
Proof.
  repeat split; try (vm_compute; reflexivity).
  vm_compute. discriminate.
Qed.


(** ** The discount of a card *)

Lemma digit_not_space (c : N) : is_digit c = true -> is_space c = false.
Proof.
  unfold is_digit, is_space. intros H.
  apply andb_true_iff in H. destruct H as [H1 H2].
  apply N.leb_le in H1, H2.
  rewrite (proj2 (N.leb_gt c 13)) by lia.
  rewrite (proj2 (N.eqb_neq c 32)) by lia.
  rewrite (proj2 (N.eqb_neq c 160)) by lia.
  rewrite (proj2 (N.eqb_neq c 5760)) by lia.
  rewrite (proj2 (N.leb_gt 8192 c)) by lia.
  rewrite (proj2 (N.eqb_neq c 8232)) by lia.
  rewrite (proj2 (N.eqb_neq c 8233)) by lia.
  rewrite (proj2 (N.eqb_neq c 8239)) by lia.
  rewrite (proj2 (N.eqb_neq c 8287)) by lia.
  rewrite (proj2 (N.eqb_neq c 12288)) by lia.
  rewrite (proj2 (N.eqb_neq c 65279)) by lia.
  now rewrite andb_false_r.
Qed.

Lemma take_while_all (p : N -> bool) (s : jsstring) :
  Forall (fun c => p c = true) (take_while p s).
Proof.
  induction s as [| c s IH]; simpl; [constructor |].
  destruct (p c) eqn:E; now constructor.
Qed.

Lemma take_while_id (p : N -> bool) (s : jsstring) :
  Forall (fun c => p c = true) s -> take_while p s = s.
Proof.
  induction 1 as [| c s Hc Hs IH]; simpl; [reflexivity |].
  now rewrite Hc, IH.
Qed.

Lemma fold_digits_nonneg (ds : jsstring) (acc : Z) :
  Forall (fun c => is_digit c = true) ds -> 0 <= acc ->
  0 <= fold_left (fun a c => 10 * a + digit_val c) ds acc.
Proof.
  intros H. revert acc.
  induction H as [| c ds Hc Hds IH]; intros acc Hacc; simpl; [exact Hacc |].
  apply IH. unfold is_digit in Hc. apply andb_true_iff in Hc.
  destruct Hc as [Hc _]. apply N.leb_le in Hc. unfold digit_val. lia.
Qed.

(** [parseInt] of a run of digits is the number that the digits write. *)
Lemma parseInt_digits (c : N) (ds : jsstring) :
  Forall (fun c => is_digit c = true) (c :: ds) ->
  exists n : Z, 0 <= n /\ parseInt (c :: ds) = of_Z n.
Proof.
  intros H. exists (digits_val (c :: ds)). split.
  - now apply fold_digits_nonneg.
  - inversion H as [| ? ? Hc Hds]; subst.
    unfold parseInt. simpl JSString.drop_while.
    rewrite (digit_not_space c Hc).
    unfold is_digit in Hc. apply andb_true_iff in Hc.
    destruct Hc as [Hc1 Hc2]. apply N.leb_le in Hc1, Hc2.
    rewrite (proj2 (N.eqb_neq c 45)) by lia.
    rewrite (proj2 (N.eqb_neq c 43)) by lia.
    rewrite (take_while_id is_digit (c :: ds)) by exact H.
    reflexivity.
Qed.

Lemma drop_while_head (p : N -> bool) (s : jsstring) (c : N) (r : jsstring) :
  drop_while p s = c :: r -> p c = false.
Proof.
  induction s as [| a s IH]; simpl; [discriminate |].
  destruct (p a) eqn:E; [exact IH |]. now intros [= <- <-].
Qed.

Lemma parseDiscount_integer (s : jsstring) :
  exists n : Z, 0 <= n /\ Community.parseDiscount s = of_Z n.
Proof.
  unfold Community.parseDiscount.
  destruct (negb (JSString.truthy s)); [exists 0; split; [lia | reflexivity] |].
  unfold first_digit_run.
  destruct (drop_while (fun c => negb (is_digit c)) s) as [| c r] eqn:E;
    [exists 0; split; [lia | reflexivity] |].
  apply drop_while_head in E. apply negb_false_iff in E.
  simpl. rewrite E. apply parseInt_digits.
  constructor; [exact E | apply take_while_all].
Qed.



Lemma loop_until_parseDiscount (init : Z) (texts : list jsstring) :
  0 <= init ->
  exists n : Z,
    0 <= n /\
    loop_until (fun discount => (discount >? Finite 0)%js) (of_Z init)
      (List.map Community.parseDiscount texts) = of_Z n.
Proof.
  revert init.
  induction texts as [| t texts IH]; intros init Hinit;
    cbn [loop_until List.map].
  - now exists init.
  - destruct (parseDiscount_integer t) as (n & Hn & E). rewrite E.
    destruct (of_Z n >? Finite 0)%js.
    + exists n. split; [exact Hn | reflexivity].
    + apply IH. exact Hn.
Qed.

Section CommunityDiscount.
Variable Elem : Type.
Variable find_text : Elem -> jsstring -> jsstring.
Variable source : Community.Source.
Variable el : Elem.

Local Abbreviation price := (Community.cardPrice Elem find_text source el).
Local Abbreviation originalPrice :=
  (Community.cardOriginalPrice Elem find_text source el).
Local Abbreviation badge := (Community.cardBadge Elem find_text source el).
Local Abbreviation discount := (Community.cardDiscount Elem find_text source el).

Lemma community_badge_integer : exists n : Z, 0 <= n /\ badge = of_Z n.
Proof.
  unfold Community.cardBadge.
  rewrite <- (List.map_map (find_text el) Community.parseDiscount).
  apply (loop_until_parseDiscount 0). lia.
Qed.




End CommunityDiscount.

Section AmazonDiscount.
Variable Elem : Type.
Variable find_text : Elem -> jsstring -> jsstring.
Variable el : Elem.

Local Abbreviation price := (Amazon.cardPrice Elem find_text el).
Local Abbreviation originalPrice := (Amazon.cardOriginalPrice Elem find_text el).
Local Abbreviation percentage :=
  (Math_round ((originalPrice - price) / originalPrice * Finite 100)).
Local Abbreviation discount := (Amazon.cardDiscount Elem find_text el).




End AmazonDiscount.

(** ** The scores that the extractors store *)

Lemma of_Z_not_negative (n : Z) : 0 <= n -> (of_Z n <? zero)%js = false.
Proof.
  intros Hn. unfold ltb, of_Z, zero. apply Qltb_ge.
  change 0%Q with (inject_Z 0). now rewrite <- Zle_Qle.
Qed.

(** The percentage between a price and a higher list price is not
    negative. *)
Lemma percentage_not_negative (price originalPrice : number) :
  (originalPrice >? price)%js = true -> (price >? Finite 0)%js = true ->
  (Math_round ((originalPrice - price) / originalPrice * Finite 100) <? zero)%js
  = false.
Proof.
  destruct price as [| s | a], originalPrice as [| t | b];
    cbn [gtb ltb]; try discriminate.
  - destruct s, t; cbn; discriminate.
  - destruct s; cbn; discriminate.
  - destruct t; cbn; [discriminate | reflexivity].
  - intros Hab Ha. apply Qltb_lt in Hab, Ha.
    cbn [sub neg add div]. rewrite Qeq_bool_pos by lra.
    cbn [mul Math_round]. apply of_Z_not_negative.
    change 0 with (Qfloor 0). apply Qfloor_resp_le.
    assert (0 <= (b + - a) / b)%Q by (apply Qdiv_nonneg; lra).
    assert (0 <= (b + - a) / b * 100)%Q by (apply Qmult_le_0_compat; lra).
    lra.
Qed.

Lemma community_discount_not_negative (Elem : Type)
    (find_text : Elem -> jsstring -> jsstring) (source : Community.Source)
    (el : Elem) :
  (Community.cardDiscount Elem find_text source el <? zero)%js = false.
Proof.
  unfold Community.cardDiscount.
  destruct (community_badge_integer Elem find_text source el) as (n & Hn & E).
  rewrite E.
  destruct ((of_Z n === Finite 0)%js
            && (Community.cardOriginalPrice Elem find_text source el
                >? Community.cardPrice Elem find_text source el)%js
            && (Community.cardPrice Elem find_text source el >? Finite 0)%js)
    eqn:Eg.
  - apply andb_true_iff in Eg. destruct Eg as [Eg Hp].
    apply andb_true_iff in Eg. destruct Eg as [_ Ho].
    now apply percentage_not_negative.
  - now apply of_Z_not_negative.
Qed.

Lemma percent_run_digits (prev : bool) (s ds : jsstring) :
  percent_run prev s = Some ds ->
  exists c r, ds = c :: r /\ Forall (fun c => is_digit c = true) ds.
Proof.
  revert prev. induction s as [| c r IH]; intros prev; [discriminate |].
  cbn [percent_run].
  destruct (is_digit c && negb prev) eqn:E; [| apply IH].
  destruct (startsWith _ _); [| apply IH].
  intros [= <-]. apply andb_true_iff in E. destruct E as [Hc _].
  cbn [take_while]. rewrite Hc. exists c, (take_while is_digit r).
  split; [reflexivity |]. constructor; [exact Hc | apply take_while_all].
Qed.

Lemma amazon_discount_not_negative (Elem : Type)
    (find_text : Elem -> jsstring -> jsstring) (el : Elem) :
  (Amazon.cardDiscount Elem find_text el <? zero)%js = false.
Proof.
  unfold Amazon.cardDiscount, Amazon.computedDiscount.
  destruct ((Amazon.cardOriginalPrice Elem find_text el
             >? Amazon.cardPrice Elem find_text el)%js
            && (Amazon.cardPrice Elem find_text el >? Finite 0)%js) eqn:Eg.
  - apply andb_true_iff in Eg. destruct Eg as [Ho Hp].
    pose proof (percentage_not_negative _ _ Ho Hp) as Hn.
    destruct (_ === _)%js eqn:Ez; [| exact Hn].
    unfold Amazon.cardBadge.
    destruct (percent_run false _) as [ds |] eqn:Ep; [| exact Hn].
    apply percent_run_digits in Ep. destruct Ep as (c & r & -> & Hd).
    destruct (parseInt_digits c r Hd) as (n & Hpos & ->).
    now apply of_Z_not_negative.
  - change (zero === Finite 0)%js with true. cbv iota.
    unfold Amazon.cardBadge.
    destruct (percent_run false _) as [ds |] eqn:Ep; [| reflexivity].
    apply percent_run_digits in Ep. destruct Ep as (c & r & -> & Hd).
    destruct (parseInt_digits c r Hd) as (n & Hpos & ->).
    now apply of_Z_not_negative.
Qed.

Lemma score_value_of_score (x : number) :
  Spec.is_score x -> x = of_Z (Community.score_value x).
Proof.
  intros (z & -> & _). unfold Community.score_value, to_Z, of_Z.
  rewrite Qfloor_Z. now rewrite Qeq_bool_refl.
Qed.

(** The score that an extractor stores in a listing is the integer that
    [calculateDealScore] returns for it, between 0 and 100. *)
Lemma community_stored_score (Elem : Type)
    (find_text : Elem -> jsstring -> jsstring)
    (find_attr : Elem -> jsstring -> jsstring -> option jsstring)
    (toLowerCase toUpperCase : jsstring -> jsstring)
    (Number_toString : number -> jsstring) (Date_now : Z)
    (Math_log10 : number -> number) (source : Community.Source) (el : Elem)
    (title amazonUrl : jsstring) :
  Spec.log10_ok Math_log10 ->
  let deal :=
    Community.buildDeal Elem find_text find_attr toLowerCase toUpperCase
      Number_toString Date_now Math_log10 source el title amazonUrl in
  Community.calculateDealScore Math_log10 deal
  = of_Z (Community.dealScore deal) /\
  0 <= Community.dealScore deal <= 100.
Proof.
  intros Hlog deal.
  assert (Hs : Spec.is_score (Community.calculateDealScore Math_log10 deal)).
  { apply (community_score_range Math_log10 Hlog).
    - apply community_discount_not_negative.
    - apply canonical_not_inherited, community_normalizeCategory_canonical. }
  pose proof (score_value_of_score _ Hs) as E.
  change (Community.dealScore deal)
    with (Community.score_value (Community.calculateDealScore Math_log10 deal)).
  split; [exact E |].
  destruct Hs as (z & Hz & Hr). rewrite Hz in E. apply of_Z_inj in E.
  rewrite Hz, <- E. exact Hr.
Qed.

Lemma amazon_stored_score (Elem : Type)
    (find_text find_last_text : Elem -> jsstring -> jsstring)
    (find_attr : Elem -> jsstring -> jsstring -> option jsstring)
    (toLowerCase : jsstring -> jsstring)
    (first_dynamic_image : jsstring -> option jsstring) (Date_now : Z)
    (Math_log10 : number -> number) (category : jsstring)
    (source : Amazon.SourceType) (el : Elem) (asin title : jsstring) :
  Spec.log10_ok Math_log10 ->
  let product :=
    Amazon.buildProduct Elem find_text find_last_text find_attr toLowerCase
      first_dynamic_image Date_now Math_log10 category source el asin title in
  Amazon.calculateDealScore Math_log10 product
  = of_Z (Amazon.dealScore product) /\
  0 <= Amazon.dealScore product <= 100.
Proof.
  intros Hlog product.
  assert (Hs : Spec.is_score (Amazon.calculateDealScore Math_log10 product)).
  { apply (amazon_score_range Math_log10 Hlog).
    - apply amazon_discount_not_negative.
    - apply canonical_not_inherited, amazon_normalizeCategory_canonical. }
  pose proof (score_value_of_score _ Hs) as E.
  change (Amazon.dealScore product)
    with (Community.score_value (Amazon.calculateDealScore Math_log10 product)).
  split; [exact E |].
  destruct Hs as (z & Hz & Hr). rewrite Hz in E. apply of_Z_inj in E.
  rewrite Hz, <- E. exact Hr.
Qed.




(** ** Card discovery *)

Section CommunityCards.
Variable cfg : Community.Config.
Variable Elem : Type.
Variable select : jsstring -> jsstring -> list Elem.
Variable find_text : Elem -> jsstring -> jsstring.
Variable find_attr : Elem -> jsstring -> jsstring -> option jsstring.
Variable find_all_attr : Elem -> jsstring -> jsstring -> list (option jsstring).
Variable toLowerCase : jsstring -> jsstring.
Variable toUpperCase : jsstring -> jsstring.
Variable Number_toString : number -> jsstring.
Variable Date_now : Z.
Variable Math_log10 : number -> number.
Variable html : jsstring.
Variable source : Community.Source.

Local Abbreviation card_step :=
  (Community.scrapeCard cfg Elem find_text find_attr find_all_attr toLowerCase
     toUpperCase Number_toString Date_now Math_log10 source).
Local Abbreviation selectors_loop :=
  (Community.scrapeSelectors cfg Elem select find_text find_attr find_all_attr
     toLowerCase toUpperCase Number_toString Date_now
     Math_log10 html source).

(** The loop stops at the first selector whose cards give a deal, and its
    result is what the cards of that selector give. *)
Lemma community_selectors_first_hit (cardSelectors : list jsstring)
    (seen : gset jsstring) :
  fst (selectors_loop cardSelectors ([], seen)) = [] \/
  exists pre sel post seen',
    cardSelectors = pre ++ sel :: post /\
    selectors_loop pre ([], seen) = ([], seen') /\
    selectors_loop cardSelectors ([], seen)
    = fold_left card_step (select html sel) ([], seen') /\
    fst (selectors_loop cardSelectors ([], seen)) <> [].
Proof.
  revert seen. induction cardSelectors as [| sel rest IH]; intros seen.
  - now left.
  - cbn [Community.scrapeSelectors].
    destruct (fold_left card_step (select html sel) ([], seen))
      as [deals seen1] eqn:E.
    cbn [fst]. destruct deals as [| d deals].
    + cbn [length Nat.ltb Nat.leb].
      destruct (IH seen1) as [H | (pre & sel' & post & seen' & Hs & Hp & Hr & Hn)].
      * now left.
      * right. exists (sel :: pre), sel', post, seen'.
        split; [now rewrite Hs |]. split; [| split; [exact Hr | exact Hn]].
        cbn [Community.scrapeSelectors]. rewrite E. exact Hp.
    + right. exists [], sel, rest, seen.
      split; [reflexivity |]. split; [reflexivity |].
      split; [now rewrite E | discriminate].
Qed.

End CommunityCards.

Section AmazonCards.
Variable cfg : Amazon.Config.
Variable Elem : Type.
Variable select : jsstring -> jsstring -> list Elem.
Variable el_attr : Elem -> jsstring -> option jsstring.
Variable find_text find_last_text : Elem -> jsstring -> jsstring.
Variable find_attr : Elem -> jsstring -> jsstring -> option jsstring.
Variable toLowerCase : jsstring -> jsstring.
Variable first_dynamic_image : jsstring -> option jsstring.
Variable Date_now : Z.
Variable Math_log10 : number -> number.
Variable html category : jsstring.
Variable source : Amazon.SourceType.

Local Abbreviation card_step :=
  (Amazon.scrapeCard cfg Elem el_attr find_text find_last_text find_attr
     toLowerCase first_dynamic_image Date_now Math_log10
     category source).
Local Abbreviation selectors_loop :=
  (Amazon.scrapeSelectors cfg Elem select el_attr find_text find_last_text
     find_attr toLowerCase first_dynamic_image Date_now
     Math_log10 html category source).
Local Abbreviation MAX := (Amazon.MAX_PRODUCTS_PER_SOURCE cfg).

(** A card adds at most one product, behind those collected so far, and
    none once the cap is reached. *)
Lemma amazon_card_step (st : list Amazon.ScrapedProduct * gset jsstring)
    (el : Elem) :
  (exists more, fst (card_step st el) = fst st ++ more /\ (length more <= 1)%nat) /\
  ((MAX <= length (fst st))%nat -> card_step st el = st).
Proof.
  destruct st as [products seen]. unfold Amazon.scrapeCard.
  destruct (MAX <=? length products)%nat eqn:E.
  - split; [| reflexivity]. exists []. simpl. rewrite app_nil_r. split; [reflexivity | lia].
  - apply Nat.leb_gt in E. split; [| cbn [fst]; lia].
    match goal with |- context [if ?c then (products, seen) else _] => destruct c end.
    + exists []. simpl. rewrite app_nil_r. split; [reflexivity | lia].
    + match goal with |- context [if ?c then _ else _] => destruct c end.
      * exists []. simpl. rewrite app_nil_r. split; [reflexivity | lia].
      * eexists [_]. simpl. split; [reflexivity | lia].
Qed.

Lemma amazon_cards_fold (cards : list Elem)
    (st : list Amazon.ScrapedProduct * gset jsstring) :
  (exists more, fst (fold_left card_step cards st) = fst st ++ more /\
                (length more <= length cards)%nat) /\
  ((MAX <= length (fst st))%nat -> fold_left card_step cards st = st).
Proof.
  revert st. induction cards as [| el cards IH]; intros st; simpl.
  - split; [| reflexivity]. exists []. simpl. rewrite app_nil_r. split; [reflexivity | lia].
  - destruct (amazon_card_step st el) as [(m1 & H1 & L1) Hcap1].
    destruct (IH (card_step st el)) as [(m2 & H2 & L2) Hcap2].
    split.
    + exists (m1 ++ m2). rewrite H2, H1, <- app_assoc, length_app.
      split; [reflexivity | lia].
    + intros Hc. rewrite (Hcap1 Hc). rewrite (Hcap1 Hc) in Hcap2. now apply Hcap2.
Qed.

(** The products collected under earlier selectors stay in the result. *)
Lemma amazon_selectors_keep (sels : list jsstring)
    (st : list Amazon.ScrapedProduct * gset jsstring) :
  exists more, fst (selectors_loop sels st) = fst st ++ more.
Proof.
  revert st. induction sels as [| sel rest IH]; intros st;
    cbn [Amazon.scrapeSelectors].
  - exists []. now rewrite app_nil_r.
  - destruct (amazon_cards_fold (select html sel) st) as [(m1 & H1 & _) _].
    destruct (MAX <=? _)%nat.
    + now exists m1.
    + destruct (IH (fold_left card_step (select html sel) st)) as (m2 & H2).
      exists (m1 ++ m2). now rewrite H2, H1, <- app_assoc.
Qed.

(** Below the cap the next selectors are tried, from the products
    collected so far. *)
Lemma amazon_selectors_continue (pre post : list jsstring)
    (st : list Amazon.ScrapedProduct * gset jsstring) :
  (length (fst (selectors_loop pre st)) < MAX)%nat ->
  selectors_loop (pre ++ post) st = selectors_loop post (selectors_loop pre st).
Proof.
  revert st. induction pre as [| sel pre IH]; intros st; [reflexivity |].
  cbn [Amazon.scrapeSelectors app].
  destruct (MAX <=? _)%nat eqn:E.
  - apply Nat.leb_le in E. intros H. lia.
  - apply IH.
Qed.

(** At the cap the loop stops. *)
Lemma amazon_selectors_stop (sels : list jsstring)
    (st : list Amazon.ScrapedProduct * gset jsstring) :
  (MAX <= length (fst st))%nat -> selectors_loop sels st = st.
Proof.
  intros H. destruct sels as [| sel rest]; [reflexivity |].
  cbn [Amazon.scrapeSelectors].
  rewrite (proj2 (amazon_cards_fold (select html sel) st) H).
  now rewrite (proj2 (Nat.leb_le _ _) H).
Qed.

End AmazonCards.

(** C7, as amended.  The community extractor tries its card selectors in
    order and stops at the first one whose cards give at least one deal:
    its result is empty, or it is what the cards of one selector give, all
    selectors before it having given no deal.  The Amazon extractor merges:
    it tries every card selector in order, keeps the products collected
    under the earlier selectors and adds those of the later ones (an ASIN
    only once), and stops only when [MAX_PRODUCTS_PER_SOURCE] products are
    collected. *)
Theorem C7_card_discovery :
  (forall cfg Elem select find_text find_attr find_all_attr toLowerCase
          toUpperCase Number_toString Date_now Math_log10
          html source,
     Community.scrapeDealsFromHTML cfg Elem select find_text find_attr
       find_all_attr toLowerCase toUpperCase Number_toString
       Date_now Math_log10 html source = [] \/
     exists pre sel post seen,
       split (Community.sel_dealCard (Community.selectors source)) (str ", ")
       = pre ++ sel :: post /\
       Community.scrapeSelectors cfg Elem select find_text find_attr
         find_all_attr toLowerCase toUpperCase Number_toString Date_now Math_log10 html source pre ([], ∅)
       = ([], seen) /\
       Community.scrapeDealsFromHTML cfg Elem select find_text find_attr
         find_all_attr toLowerCase toUpperCase Number_toString Date_now Math_log10 html source
       = fst (fold_left
                (Community.scrapeCard cfg Elem find_text find_attr
                   find_all_attr toLowerCase toUpperCase Number_toString Date_now Math_log10 source)
                (select html sel) ([], seen)) /\
       Community.scrapeDealsFromHTML cfg Elem select find_text find_attr
         find_all_attr toLowerCase toUpperCase Number_toString Date_now Math_log10 html source <> []) /\
  (forall cfg Elem select el_attr find_text find_last_text find_attr
          toLowerCase first_dynamic_image Date_now
          Math_log10 html category source sels st,
     exists more,
       fst (Amazon.scrapeSelectors cfg Elem select el_attr find_text
              find_last_text find_attr toLowerCase
              first_dynamic_image Date_now Math_log10 html category source
              sels st)
       = fst st ++ more) /\
  (forall cfg Elem select el_attr find_text find_last_text find_attr
          toLowerCase first_dynamic_image Date_now
          Math_log10 html category source pre post st,
     (length
        (fst (Amazon.scrapeSelectors cfg Elem select el_attr find_text
                find_last_text find_attr toLowerCase
                first_dynamic_image Date_now Math_log10 html category source
                pre st))
      < Amazon.MAX_PRODUCTS_PER_SOURCE cfg)%nat ->
     Amazon.scrapeSelectors cfg Elem select el_attr find_text find_last_text
       find_attr toLowerCase first_dynamic_image Date_now
       Math_log10 html category source (pre ++ post) st
     = Amazon.scrapeSelectors cfg Elem select el_attr find_text
         find_last_text find_attr toLowerCase
         first_dynamic_image Date_now Math_log10 html category source post
         (Amazon.scrapeSelectors cfg Elem select el_attr find_text
            find_last_text find_attr toLowerCase
            first_dynamic_image Date_now Math_log10 html category source
            pre st)) /\
  (forall cfg Elem select el_attr find_text find_last_text find_attr
          toLowerCase first_dynamic_image Date_now
          Math_log10 html category source sels st,
     (Amazon.MAX_PRODUCTS_PER_SOURCE cfg <= length (fst st))%nat ->
     Amazon.scrapeSelectors cfg Elem select el_attr find_text find_last_text
       find_attr toLowerCase first_dynamic_image Date_now
       Math_log10 html category source sels st
     = st).
Proof.
  split; [| split; [| split]].
  - intros. unfold Community.scrapeDealsFromHTML.
    destruct (community_selectors_first_hit cfg Elem select find_text
                find_attr find_all_attr toLowerCase toUpperCase
                Number_toString Date_now Math_log10 html
                source
                (split (Community.sel_dealCard (Community.selectors source))
                   Community.comma) ∅)
      as [H | (pre & sel & post & seen & Hs & Hp & Hr & Hn)].
    + now left.
    + right. exists pre, sel, post, seen.
      split; [exact Hs |]. split; [exact Hp |].
      split; [now rewrite Hr | exact Hn].
  - intros. apply amazon_selectors_keep.
  - intros *. apply amazon_selectors_continue.
  - intros *. apply amazon_selectors_stop.
Qed.

(** At the cap of 25 products the loop over the selectors adds nothing. *)
Lemma C7_witness :
  (Amazon.MAX_PRODUCTS_PER_SOURCE Amazon.CONFIG
   <= length (fst (List.repeat Samples.mouse 25, (∅ : gset jsstring))))%nat /\
  Amazon.scrapeSelectors Amazon.CONFIG Samples.card
    (Samples.page_select Samples.mixed_page) Samples.card_own
    Samples.card_text Samples.card_last_text Samples.card_attr
    Samples.lower_case (fun _ => None) 0
    Spec.log10_series (str "<html>") (str "general") Amazon.deals
    Amazon.selectors (List.repeat Samples.mouse 25, ∅)
  = (List.repeat Samples.mouse 25, ∅).
Proof.
  split; [vm_compute; lia |].
  apply (proj2 (proj2 (proj2 C7_card_discovery))). vm_compute. lia.
Defined.

(** C7 as stated fails in the Amazon extractor.  On a page where the first
    card selector matches a best-seller tile and the fourth a deal tile, the
    result holds the products of both: it is not what the cards of one
    selector give, whatever the library functions are. *)
Lemma C7_counterexample :
  (forall toLowerCase first_dynamic_image Date_now Math_log10,
     List.map Amazon.asin
       (Samples.scrape_amazon Samples.mixed_page toLowerCase
          first_dynamic_image Date_now Math_log10 (str "general")
          Amazon.deals)
     = [str "B08WM3LMJF"; str "B07W6JN8V8"]) /\
  List.map (fun sel => length (Samples.page_select Samples.mixed_page
                                 (str "<html>") sel)) Amazon.selectors
  = [1; 0; 0; 1; 0; 0; 0]%nat /\
  (forall toLowerCase first_dynamic_image Date_now Math_log10,
     ~ Spec.amazon_from_one_selector Amazon.CONFIG Samples.card
         (Samples.page_select Samples.mixed_page) Samples.card_own
         Samples.card_text Samples.card_last_text Samples.card_attr
         toLowerCase first_dynamic_image Date_now Math_log10 (str "<html>")
         (str "general") Amazon.deals
         (Samples.scrape_amazon Samples.mixed_page toLowerCase
            first_dynamic_image Date_now Math_log10 (str "general")
            Amazon.deals)).
Proof.
  assert (Hasins : forall toLowerCase first_dynamic_image Date_now Math_log10,
             List.map Amazon.asin
               (Samples.scrape_amazon Samples.mixed_page toLowerCase
                  first_dynamic_image Date_now Math_log10 (str "general")
                  Amazon.deals)
             = [str "B08WM3LMJF"; str "B07W6JN8V8"])
    by (intros; vm_compute; reflexivity).
  split; [exact Hasins |]. split; [vm_compute; reflexivity |].
  intros toLowerCase first_dynamic_image Date_now Math_log10
         (selector & seen & H).
  apply (f_equal (@length _)) in H.
  match type of H with
  | _ = length (fst (fold_left ?f ?cards ?st)) =>
      destruct (amazon_cards_fold Amazon.CONFIG Samples.card Samples.card_own
                  Samples.card_text Samples.card_last_text Samples.card_attr
                  toLowerCase first_dynamic_image Date_now Math_log10
                  (str "general") Amazon.deals cards st)
        as [(more & Hm & Hl) _]
  end.
  rewrite Hm in H. cbn [fst app] in H.
  assert (Hcards : (length (Samples.page_select Samples.mixed_page
                              (str "<html>") selector) <= 1)%nat).
  { unfold Samples.page_select, Samples.mixed_page, Samples.assoc.
    destruct (JSString.eqb selector _); [simpl; lia |].
    destruct (JSString.eqb selector _); simpl; lia. }
  pose proof (f_equal (@length _)
                (Hasins toLowerCase first_dynamic_image Date_now Math_log10))
    as Hres.
  rewrite length_map in Hres. cbn [length] in Hres.
  lia.
Qed.

(** * Further properties of the code *)

Import Behaviour.

(** ** The lines of the title bar *)

Lemma spaceless_rev (s : jsstring) : spaceless s -> spaceless (rev s).
Proof.
  unfold spaceless. rewrite !List.Forall_forall. intros H x Hx.
  apply H. now apply in_rev.
Qed.

Lemma startsWith_nil (s : jsstring) : startsWith s [] = true.
Proof. now destruct s. Qed.

Lemma split_spaceless_aux (cur s : jsstring) :
  spaceless cur ->
  Forall spaceless (split_aux (str " ") 0 cur s).
Proof.
  revert cur. induction s as [| c r IH]; intros cur Hcur; cbn [split_aux].
  - constructor; [now apply spaceless_rev | constructor].
  - change (str " ") with [space]. cbn [startsWith length Nat.sub].
    rewrite startsWith_nil.
    destruct (space =? c)%N eqn:E.
    + cbn [andb]. constructor; [now apply spaceless_rev |].
      apply IH. constructor.
    + cbn [andb]. apply IH. constructor; [| exact Hcur].
      apply N.eqb_neq in E. congruence.
Qed.

Lemma split_unspaced_aux (cur s : jsstring) :
  unspaced (concat (split_aux (str " ") 0 cur s)) = unspaced (rev cur ++ s).
Proof.
  revert cur. induction s as [| c r IH]; intros cur; cbn [split_aux].
  - cbn [concat]. now rewrite !app_nil_r.
  - change (str " ") with [space]. cbn [startsWith length Nat.sub].
    rewrite startsWith_nil.
    destruct (space =? c)%N eqn:E; cbn [andb].
    + cbn [concat]. unfold unspaced in *. rewrite !List.filter_app, IH. cbn [rev app List.filter].
      apply N.eqb_eq in E. subst c. rewrite N.eqb_refl. reflexivity.
    + rewrite IH. cbn [rev]. now rewrite <- app_assoc.
Qed.

Lemma unspaced_app (a b : jsstring) : unspaced (a ++ b) = unspaced a ++ unspaced b.
Proof. apply List.filter_app. Qed.

Lemma wrapStep_wrapped (m : Z) (st : list jsstring * jsstring) (seen w : jsstring) :
  wrapped m st seen -> spaceless w -> wrapped m (Creative.wrapStep m st w) (seen ++ w).
Proof.
  destruct st as [lines cur]. intros (Hl & Hc & Hu) Hw. cbn [fst snd] in *.
  unfold Creative.wrapStep.
  destruct (Z.of_nat (length _) <=? m) eqn:E.
  - apply Z.leb_le in E. split; [exact Hl |]. split; [now left |]. cbn [fst snd].
    rewrite (unspaced_app seen w), <- Hu.
    destruct cur as [| c cur']; cbn [JSString.truthy].
    + rewrite !unspaced_app. change (unspaced []) with (@nil N).
      now rewrite ?app_nil_r.
    + rewrite !unspaced_app. change (unspaced (str " ")) with (@nil N).
      cbn [app]. now rewrite <- !app_assoc.
  - split; [| split; [now right |]]; cbn [fst snd].
    + destruct (JSString.truthy cur) eqn:Et; [| exact Hl].
      apply Forall_app. split; [exact Hl |]. constructor; [now split | constructor].
    + rewrite (unspaced_app seen w), <- Hu.
      destruct cur as [| c cur']; cbn [JSString.truthy].
      * rewrite !unspaced_app. change (unspaced []) with (@nil N).
        now rewrite ?app_nil_r.
      * rewrite concat_app. cbn [concat]. rewrite app_nil_r.
        now rewrite !unspaced_app.
Qed.

Lemma wrap_fold (m : Z) (words : list jsstring) (st : list jsstring * jsstring)
    (seen : jsstring) :
  Forall spaceless words -> wrapped m st seen ->
  wrapped m (fold_left (Creative.wrapStep m) words st) (seen ++ concat words).
Proof.
  intros Hw. revert st seen.
  induction Hw as [| w ws Hw1 Hws IH]; intros st seen Hst; cbn [fold_left concat].
  - now rewrite app_nil_r.
  - rewrite app_assoc. apply IH. now apply wrapStep_wrapped.
Qed.

Lemma wrapText_wrapped (text : jsstring) (m : Z) :
  Forall (fun l => JSString.truthy l = true /\ fits m l) (Creative.wrapText text m) /\
  unspaced (concat (Creative.wrapText text m)) = unspaced text.
Proof.
  unfold Creative.wrapText.
  assert (H0 : wrapped m ([], []) []).
  { split; [constructor |]. split; [right; constructor | reflexivity]. }
  pose proof (wrap_fold m (split text (str " ")) _ _
                (split_spaceless_aux [] text (List.Forall_nil _)) H0) as H.
  destruct (fold_left _ _ _) as [lines cur].
  destruct H as (Hl & Hc & Hu). cbn [fst snd app] in *.
  unfold split in Hu. rewrite split_unspaced_aux in Hu. cbn [rev app] in Hu.
  destruct cur as [| c cur']; cbn [JSString.truthy].
  - rewrite app_nil_r in Hu. now split.
  - split.
    + apply Forall_app. split; [exact Hl |]. constructor; [now split | constructor].
    + rewrite concat_app. cbn [concat]. now rewrite app_nil_r.
Qed.

(** X1. [wrapText] never returns an empty line; each of its lines fits in
    [maxCharsPerLine] characters or is a single word (it has no space); and
    the lines hold the characters of the text other than spaces, all of
    them and in their order. *)
Theorem wrapText_lines (text : jsstring) (maxCharsPerLine : Z) :
  Forall (fun line => line <> [] /\ fits maxCharsPerLine line)
    (Creative.wrapText text maxCharsPerLine) /\
  unspaced (concat (Creative.wrapText text maxCharsPerLine)) = unspaced text.
Proof.
  destruct (wrapText_wrapped text maxCharsPerLine) as [Hl Hu].
  split; [| exact Hu].
  eapply List.Forall_impl; [| exact Hl]. cbn beta.
  intros l [Ht Hf]. split; [| exact Hf]. intros ->. discriminate Ht.
Qed.

(** X2. The title bar shows at most two lines, and the last one has at most
    45 characters (a longer one is cut to 42 and gets an ellipsis).  The
    first of two lines is not cut: it has at most 45 characters unless it is
    a single word, and a first line of more than 45 characters does
    occur. *)
Theorem title_bar_lines :
  (forall text,
     match Creative.titleLines text with
     | [] => True
     | [line0] => (length line0 <= 45)%nat
     | [line0; line1] =>
         line0 <> [] /\ ((length line0 <= 45)%nat \/ spaceless line0) /\
         (length line1 <= 45)%nat
     | _ => False
     end) /\
  (exists text line0 line1,
     Creative.titleLines text = [line0; line1] /\ (45 < length line0)%nat).
Proof.
  split.
  - intros text. unfold Creative.titleLines.
    rewrite slice0_firstn by lia. change (Z.to_nat 2) with 2%nat.
    destruct (wrapText_wrapped text 45) as [Hl _].
    change (Z.of_nat 45) with 45.
    destruct (Creative.wrapText text 45) as [| l0 [| l1 rest]]; cbn [firstn].
    + exact I.
    + destruct (45 <? length l0)%nat eqn:E.
      * rewrite length_app. unfold substring0. rewrite length_firstn.
        apply Nat.ltb_lt in E. change (length (str "...")) with 3%nat. lia.
      * apply Nat.ltb_ge in E. exact E.
    + inversion Hl as [| ? ? [Ht Hf] _]; subst.
      assert (l0 <> []) by (intros ->; discriminate Ht).
      assert (Hf' : (length l0 <= 45)%nat \/ spaceless l0)
        by (destruct Hf as [Hf | Hf]; [left; lia | now right]).
      destruct (45 <? length l1)%nat eqn:E.
      * split; [assumption |]. split; [exact Hf' |].
        rewrite length_app. unfold substring0. rewrite length_firstn.
        apply Nat.ltb_lt in E. change (length (str "...")) with 3%nat. lia.
      * apply Nat.ltb_ge in E. now split.
  - exists (repeat 97%N 50 ++ [32; 98]%N), (repeat 97%N 50), [98%N].
    split; [vm_compute; reflexivity | vm_compute; lia].
Qed.

(** ** What the extractors return *)

Lemma first_such_hit {A : Type} (hit : A -> bool) (init : A) (l : list A) :
  first_such hit init l = init \/ hit (first_such hit init l) = true.
Proof.
  unfold first_such. destruct (List.find hit l) eqn:E; [| now left].
  right. now apply List.find_some in E.
Qed.

Section AmazonExtracted.
Variable cfg : Amazon.Config.
Variable Elem : Type.
Variable select : jsstring -> jsstring -> list Elem.
Variable el_attr : Elem -> jsstring -> option jsstring.
Variable find_text find_last_text : Elem -> jsstring -> jsstring.
Variable find_attr : Elem -> jsstring -> jsstring -> option jsstring.
Variable toLowerCase : jsstring -> jsstring.
Variable first_dynamic_image : jsstring -> option jsstring.
Variable Date_now : Z.
Variable Math_log10 : number -> number.
Variable html category : jsstring.
Variable source : Amazon.SourceType.

Local Abbreviation card_step :=
  (Amazon.scrapeCard cfg Elem el_attr find_text find_last_text find_attr
     toLowerCase first_dynamic_image Date_now Math_log10 category source).
Local Abbreviation selectors_loop :=
  (Amazon.scrapeSelectors cfg Elem select el_attr find_text find_last_text
     find_attr toLowerCase first_dynamic_image Date_now Math_log10 html
     category source).
Local Abbreviation MAX := (Amazon.MAX_PRODUCTS_PER_SOURCE cfg).
Local Abbreviation collected := (amazon_collected cfg source).

Lemma amazon_card_collected (st : list Amazon.ScrapedProduct * gset jsstring)
    (el : Elem) :
  collected st -> collected (card_step st el).
Proof.
  destruct st as [products seen]. intros (Hnd & Hall & Hlen).
  cbn [fst snd] in *. unfold Amazon.scrapeCard.
  destruct (MAX <=? length products)%nat eqn:Ecap; [now repeat split |].
  apply Nat.leb_gt in Ecap.
  set (asin := Amazon.cardAsin Elem el_attr find_attr el).
  destruct (negb (JSString.truthy asin) || negb (length asin =? 10)%nat
            || bool_decide (asin ∈ seen)) eqn:Eg; [now repeat split |].
  apply orb_false_iff in Eg. destruct Eg as [Eg Hseen].
  apply orb_false_iff in Eg. destruct Eg as [_ Hten].
  apply negb_false_iff, Nat.eqb_eq in Hten.
  apply bool_decide_eq_false in Hseen.
  assert (Hall' : Forall (fun p => Amazon.asin p ∈ seen ∪ {[asin]} /\
                                   amazon_product_ok source p) products).
  { eapply List.Forall_impl; [| exact Hall]. cbn beta.
    intros p (H1 & H2). split; [apply elem_of_union; now left | exact H2]. }
  set (title := Amazon.cardTitle Elem find_text find_attr el).
  destruct (negb (JSString.truthy title) || (length title <? 5)%nat) eqn:Et;
    unfold amazon_collected; cbn [fst snd]; [now repeat split |].
  apply orb_false_iff in Et. destruct Et as [_ Et]. apply Nat.ltb_ge in Et.
  split; [| split].
  - rewrite List.map_app.
    cbn [List.map Amazon.buildProduct Amazon.set_dealScore Amazon.asin].
    apply List.NoDup_app; [exact Hnd | |].
    + constructor; [intros [] | constructor].
    + intros a Ha [<- | []]. apply Hseen.
      apply in_map_iff in Ha. destruct Ha as (p & <- & Hp).
      rewrite List.Forall_forall in Hall. now apply Hall.
  - apply Forall_app. split; [exact Hall' |]. constructor; [| constructor].
    unfold amazon_product_ok.
    cbn [Amazon.buildProduct Amazon.set_dealScore Amazon.asin Amazon.title
         Amazon.source Amazon.productUrl].
    split; [apply elem_of_union; right; now apply elem_of_singleton |].
    split; [exact Hten |]. split; [| now split].
    unfold substring0. rewrite length_firstn. lia.
  - rewrite length_app. cbn [length]. lia.
Qed.

Lemma amazon_cards_collected (cards : list Elem)
    (st : list Amazon.ScrapedProduct * gset jsstring) :
  collected st -> collected (fold_left card_step cards st).
Proof.
  revert st. induction cards as [| el cards IH]; intros st H; cbn [fold_left];
    [exact H |].
  now apply IH, amazon_card_collected.
Qed.

Lemma amazon_selectors_collected (sels : list jsstring)
    (st : list Amazon.ScrapedProduct * gset jsstring) :
  collected st -> collected (selectors_loop sels st).
Proof.
  revert st. induction sels as [| sel rest IH]; intros st H;
    cbn [Amazon.scrapeSelectors]; [exact H |].
  pose proof (amazon_cards_collected (select html sel) st H) as H'.
  destruct (MAX <=? _)%nat; [exact H' | now apply IH].
Qed.

Lemma amazon_extracted_collected :
  List.NoDup
    (List.map Amazon.asin
       (Amazon.scrapeProductsFromHTML cfg Elem select el_attr find_text
          find_last_text find_attr toLowerCase first_dynamic_image Date_now
          Math_log10 html category source)) /\
  Forall (amazon_product_ok source)
    (Amazon.scrapeProductsFromHTML cfg Elem select el_attr find_text
       find_last_text find_attr toLowerCase first_dynamic_image Date_now
       Math_log10 html category source) /\
  (length
     (Amazon.scrapeProductsFromHTML cfg Elem select el_attr find_text
        find_last_text find_attr toLowerCase first_dynamic_image Date_now
        Math_log10 html category source) <= MAX)%nat.
Proof.
  unfold Amazon.scrapeProductsFromHTML.
  destruct (amazon_selectors_collected Amazon.selectors ([], ∅))
    as (Hnd & Hall & Hlen).
  { split; [constructor |]. split; [constructor | cbn; lia]. }
  split; [exact Hnd |]. split; [| exact Hlen].
  eapply List.Forall_impl; [| exact Hall]. now intros p [_ H].
Qed.

(** X3. The products that [scrapeProductsFromHTML] returns have pairwise
    different ASINs, each of exactly 10 characters; there are at most
    [MAX_PRODUCTS_PER_SOURCE] of them; each has a title of 5 to 250
    characters, the type of the source it was found on, and the product URL
    [AMAZON_BASE/dp/ASIN]. *)
Theorem amazon_extracted_products :
  let products :=
    Amazon.scrapeProductsFromHTML cfg Elem select el_attr find_text
      find_last_text find_attr toLowerCase first_dynamic_image Date_now
      Math_log10 html category source in
  List.NoDup (List.map Amazon.asin products) /\
  Forall (amazon_product_ok source) products /\
  (length products <= MAX)%nat.
Proof. exact amazon_extracted_collected. Qed.

End AmazonExtracted.

Section CommunityExtracted.
Variable cfg : Community.Config.
Variable Elem : Type.
Variable select : jsstring -> jsstring -> list Elem.
Variable find_text : Elem -> jsstring -> jsstring.
Variable find_attr : Elem -> jsstring -> jsstring -> option jsstring.
Variable find_all_attr : Elem -> jsstring -> jsstring -> list (option jsstring).
Variable toLowerCase toUpperCase : jsstring -> jsstring.
Variable Number_toString : number -> jsstring.
Variable Date_now : Z.
Variable Math_log10 : number -> number.
Variable html : jsstring.
Variable source : Community.Source.

Local Abbreviation card_step :=
  (Community.scrapeCard cfg Elem find_text find_attr find_all_attr toLowerCase
     toUpperCase Number_toString Date_now Math_log10 source).
Local Abbreviation selectors_loop :=
  (Community.scrapeSelectors cfg Elem select find_text find_attr find_all_attr
     toLowerCase toUpperCase Number_toString Date_now Math_log10 html source).
Local Abbreviation MAX := (Community.MAX_PRODUCTS_PER_SOURCE cfg).
Local Abbreviation deal_ok := (community_deal_ok source).

Lemma community_link_is_amazon (el : Elem) :
  JSString.truthy (Community.cardAmazonUrl Elem find_attr find_all_attr source el)
  = true ->
  amazon_link (Community.cardAmazonUrl Elem find_attr find_all_attr source el).
Proof.
  unfold Community.cardAmazonUrl.
  set (direct := first_such _ [] (List.map _ (split _ _))).
  destruct (JSString.truthy direct) eqn:E; cbn [negb].
  - intros _. subst direct.
    match goal with |- amazon_link (first_such ?h ?i ?l) =>
      destruct (first_such_hit h i l) as [H | H] end.
    + rewrite H in E. discriminate E.
    + now left.
  - match goal with |- JSString.truthy (first_such ?h ?i ?l) = true -> _ =>
      destruct (first_such_hit h i l) as [H | H] end.
    + rewrite H. discriminate.
    + intros _. apply orb_true_iff in H. exact H.
Qed.

Lemma community_card_ok (st : list Community.CommunityDeal * gset jsstring)
    (el : Elem) :
  Forall deal_ok (fst st) /\ (length (fst st) <= MAX)%nat ->
  Forall deal_ok (fst (card_step st el)) /\
  (length (fst (card_step st el)) <= MAX)%nat.
Proof.
  destruct st as [deals seen]. cbn [fst]. intros [Hall Hlen].
  unfold Community.scrapeCard.
  destruct (MAX <=? length deals)%nat eqn:Ecap; [now split |].
  apply Nat.leb_gt in Ecap.
  set (title := Community.cardTitle Elem find_text source el).
  destruct (negb (JSString.truthy title) || (length title <? 10)%nat) eqn:Et;
    [now split |].
  apply orb_false_iff in Et. destruct Et as [_ Et]. apply Nat.ltb_ge in Et.
  destruct (bool_decide _); [now split |].
  set (amazonUrl := Community.cardAmazonUrl Elem find_attr find_all_attr source el).
  destruct (negb (JSString.truthy amazonUrl)) eqn:Eu; cbn [fst]; [now split |].
  apply negb_false_iff in Eu.
  split; [| rewrite length_app; cbn [length]; lia].
  apply Forall_app. split; [exact Hall |]. constructor; [| constructor].
  unfold community_deal_ok.
  cbn [Community.buildDeal Community.set_dealScore Community.title
       Community.amazonUrl Community.dealUrl Community.source Community.category].
  split; [unfold substring0; rewrite length_firstn; lia |].
  split.
  { exists amazonUrl. split; [reflexivity |].
    split; [intros H; rewrite H in Eu; discriminate Eu |].
    now apply community_link_is_amazon. }
  split.
  { match goal with
    | |- startsWith (if ?c then _ else _) _ = true => destruct c eqn:Eh
    end; [exact Eh | reflexivity]. }
  split; [reflexivity |].
  unfold JSString.or_else.
  destruct (Community.cardCategory Elem find_text source el);
    cbn [JSString.truthy]; [vm_compute |]; discriminate.
Qed.

Lemma community_cards_ok (cards : list Elem)
    (st : list Community.CommunityDeal * gset jsstring) :
  Forall deal_ok (fst st) /\ (length (fst st) <= MAX)%nat ->
  Forall deal_ok (fst (fold_left card_step cards st)) /\
  (length (fst (fold_left card_step cards st)) <= MAX)%nat.
Proof.
  revert st. induction cards as [| el cards IH]; intros st H; cbn [fold_left];
    [exact H |].
  now apply IH, community_card_ok.
Qed.

Lemma community_selectors_ok (sels : list jsstring)
    (st : list Community.CommunityDeal * gset jsstring) :
  Forall deal_ok (fst st) /\ (length (fst st) <= MAX)%nat ->
  Forall deal_ok (fst (selectors_loop sels st)) /\
  (length (fst (selectors_loop sels st)) <= MAX)%nat.
Proof.
  revert st. induction sels as [| sel rest IH]; intros st H;
    cbn [Community.scrapeSelectors]; [exact H |].
  pose proof (community_cards_ok (select html sel) st H) as H'.
  destruct (0 <? _)%nat; [exact H' | now apply IH].
Qed.

Lemma community_extracted_ok :
  Forall deal_ok
    (Community.scrapeDealsFromHTML cfg Elem select find_text find_attr
       find_all_attr toLowerCase toUpperCase Number_toString Date_now
       Math_log10 html source) /\
  (length
     (Community.scrapeDealsFromHTML cfg Elem select find_text find_attr
        find_all_attr toLowerCase toUpperCase Number_toString Date_now
        Math_log10 html source) <= MAX)%nat.
Proof.
  unfold Community.scrapeDealsFromHTML.
  apply community_selectors_ok. split; [constructor | cbn; lia].
Qed.

(** X4. There are at most [MAX_PRODUCTS_PER_SOURCE] deals in what
    [scrapeDealsFromHTML] returns, and each of them has a title of 10 to 250
    characters, a link that is not empty and contains [amazon] or [amzn],
    a deal URL that starts with [http], the name of its source and a
    category that is not empty. *)
Theorem community_extracted_deals :
  let deals :=
    Community.scrapeDealsFromHTML cfg Elem select find_text find_attr
      find_all_attr toLowerCase toUpperCase Number_toString Date_now
      Math_log10 html source in
  Forall deal_ok deals /\ (length deals <= MAX)%nat.
Proof. exact community_extracted_ok. Qed.

End CommunityExtracted.

Section AmazonBuilt.
Variable cfg : Amazon.Config.
Variable Elem : Type.
Variable select : jsstring -> jsstring -> list Elem.
Variable el_attr : Elem -> jsstring -> option jsstring.
Variable find_text find_last_text : Elem -> jsstring -> jsstring.
Variable find_attr : Elem -> jsstring -> jsstring -> option jsstring.
Variable toLowerCase : jsstring -> jsstring.
Variable first_dynamic_image : jsstring -> option jsstring.
Variable Date_now : Z.
Variable Math_log10 : number -> number.
Variable html category : jsstring.
Variable source : Amazon.SourceType.
Variable P : Amazon.ScrapedProduct -> Prop.
Hypothesis built :
  forall el asin title,
    P (Amazon.buildProduct Elem find_text find_last_text find_attr toLowerCase
         first_dynamic_image Date_now Math_log10 category source el asin title).

Local Abbreviation card_step :=
  (Amazon.scrapeCard cfg Elem el_attr find_text find_last_text find_attr
     toLowerCase first_dynamic_image Date_now Math_log10 category source).

Lemma amazon_card_built (st : list Amazon.ScrapedProduct * gset jsstring)
    (el : Elem) :
  Forall P (fst st) -> Forall P (fst (card_step st el)).
Proof.
  destruct st as [products seen]. cbn [fst]. intros H.
  unfold Amazon.scrapeCard.
  repeat match goal with
         | |- context [if ?c then _ else _] => destruct c; cbn [fst]; try exact H
         end.
  apply Forall_app. split; [exact H |]. constructor; [apply built | constructor].
Qed.

Lemma amazon_extracted_built :
  Forall P
    (Amazon.scrapeProductsFromHTML cfg Elem select el_attr find_text
       find_last_text find_attr toLowerCase first_dynamic_image Date_now
       Math_log10 html category source).
Proof.
  unfold Amazon.scrapeProductsFromHTML.
  assert (Hcards : forall cards st,
             Forall P (fst st) -> Forall P (fst (fold_left card_step cards st))).
  { induction cards as [| el cards IH]; intros st H; cbn [fold_left];
      [exact H | now apply IH, amazon_card_built]. }
  assert (Hsels : forall sels st,
             Forall P (fst st) ->
             Forall P (fst (Amazon.scrapeSelectors cfg Elem select el_attr
                              find_text find_last_text find_attr toLowerCase
                              first_dynamic_image Date_now Math_log10 html
                              category source sels st))).
  { induction sels as [| sel rest IH]; intros st H;
      cbn [Amazon.scrapeSelectors]; [exact H |].
    pose proof (Hcards (select html sel) st H) as H'.
    destruct (_ <=? _)%nat; [exact H' | now apply IH]. }
  apply Hsels. constructor.
Qed.

End AmazonBuilt.

Section CommunityBuilt.
Variable cfg : Community.Config.
Variable Elem : Type.
Variable select : jsstring -> jsstring -> list Elem.
Variable find_text : Elem -> jsstring -> jsstring.
Variable find_attr : Elem -> jsstring -> jsstring -> option jsstring.
Variable find_all_attr : Elem -> jsstring -> jsstring -> list (option jsstring).
Variable toLowerCase toUpperCase : jsstring -> jsstring.
Variable Number_toString : number -> jsstring.
Variable Date_now : Z.
Variable Math_log10 : number -> number.
Variable html : jsstring.
Variable source : Community.Source.
Variable P : Community.CommunityDeal -> Prop.
Hypothesis built :
  forall el title amazonUrl,
    P (Community.buildDeal Elem find_text find_attr toLowerCase toUpperCase
         Number_toString Date_now Math_log10 source el title amazonUrl).

Local Abbreviation card_step :=
  (Community.scrapeCard cfg Elem find_text find_attr find_all_attr toLowerCase
     toUpperCase Number_toString Date_now Math_log10 source).

Lemma community_card_built (st : list Community.CommunityDeal * gset jsstring)
    (el : Elem) :
  Forall P (fst st) -> Forall P (fst (card_step st el)).
Proof.
  destruct st as [deals seen]. cbn [fst]. intros H.
  unfold Community.scrapeCard.
  repeat match goal with
         | |- context [if ?c then _ else _] => destruct c; cbn [fst]; try exact H
         end.
  apply Forall_app. split; [exact H |]. constructor; [apply built | constructor].
Qed.

Lemma community_extracted_built :
  Forall P
    (Community.scrapeDealsFromHTML cfg Elem select find_text find_attr
       find_all_attr toLowerCase toUpperCase Number_toString Date_now
       Math_log10 html source).
Proof.
  unfold Community.scrapeDealsFromHTML.
  assert (Hcards : forall cards st,
             Forall P (fst st) -> Forall P (fst (fold_left card_step cards st))).
  { induction cards as [| el cards IH]; intros st H; cbn [fold_left];
      [exact H | now apply IH, community_card_built]. }
  assert (Hsels : forall sels st,
             Forall P (fst st) ->
             Forall P (fst (Community.scrapeSelectors cfg Elem select
                              find_text find_attr find_all_attr toLowerCase
                              toUpperCase Number_toString Date_now Math_log10
                              html source sels st))).
  { induction sels as [| sel rest IH]; intros st H;
      cbn [Community.scrapeSelectors]; [exact H |].
    pose proof (Hcards (select html sel) st H) as H'.
    destruct (_ <? _)%nat; [exact H' | now apply IH]. }
  apply Hsels. constructor.
Qed.

End CommunityBuilt.

(** X5. Let [Math.log10] be as [Spec.log10_ok] says.  The [dealScore]
    that either extractor stores in a listing is the value of
    [calculateDealScore] for that listing, and it is an integer from 0 to
    100, whatever the card holds. *)
Theorem extracted_scores (Math_log10 : number -> number) :
  Spec.log10_ok Math_log10 ->
  (forall cfg Elem select find_text find_attr find_all_attr toLowerCase
          toUpperCase Number_toString Date_now html source,
     Forall (fun d =>
               Community.calculateDealScore Math_log10 d
               = of_Z (Community.dealScore d) /\
               0 <= Community.dealScore d <= 100)
       (Community.scrapeDealsFromHTML cfg Elem select find_text find_attr
          find_all_attr toLowerCase toUpperCase Number_toString Date_now
          Math_log10 html source)) /\
  (forall cfg Elem select el_attr find_text find_last_text find_attr
          toLowerCase first_dynamic_image Date_now html category source,
     Forall (fun p =>
               Amazon.calculateDealScore Math_log10 p
               = of_Z (Amazon.dealScore p) /\
               0 <= Amazon.dealScore p <= 100)
       (Amazon.scrapeProductsFromHTML cfg Elem select el_attr find_text
          find_last_text find_attr toLowerCase first_dynamic_image Date_now
          Math_log10 html category source)).
Proof.
  intros Hlog. split.
  - intros. apply community_extracted_built.
    intros el title amazonUrl. now apply community_stored_score.
  - intros. apply amazon_extracted_built.
    intros el asin title. now apply amazon_stored_score.
Qed.

Lemma forallb_latin1 (s : jsstring) :
  forallb (fun c => (c <? 256)%N) s = true -> Forall (fun c => (c < 256)%N) s.
Proof.
  intros H. apply List.Forall_forall. intros c Hc.
  rewrite forallb_forall in H. now apply N.ltb_lt, H.
Qed.

Lemma amazon_canonical_is_other (toLowerCase : jsstring -> jsstring)
    (category : jsstring) :
  lowers_latin1 toLowerCase ->
  In category [str "electronics"; str "home"; str "sports"; str "toys"; str "other"] ->
  Amazon.normalizeCategory toLowerCase category = str "other".
Proof.
  intros Hlow Hin.
  cbn [In] in Hin.
  destruct Hin as [<- | [<- | [<- | [<- | [<- | []]]]]];
    unfold Amazon.normalizeCategory, Amazon.CATEGORY_MAPPING;
    cbn [List.find existsb snd fst negb];
    rewrite !Hlow by (apply forallb_latin1; vm_compute; reflexivity);
    vm_compute; reflexivity.
Qed.

(** The stored scores of the sample pages under the series logarithm. *)
Lemma extracted_scores_witness :
  Spec.log10_ok Spec.log10_series /\
  Forall (fun d =>
            Community.calculateDealScore Spec.log10_series d
            = of_Z (Community.dealScore d) /\
            0 <= Community.dealScore d <= 100)
    (Samples.scrape_community Samples.badge_page Samples.lower_case
       Samples.upper_case Samples.decimal 0 Spec.log10_series
       Samples.promobit) /\
  Forall (fun p =>
            Amazon.calculateDealScore Spec.log10_series p
            = of_Z (Amazon.dealScore p) /\
            0 <= Amazon.dealScore p <= 100)
    (Samples.scrape_amazon Samples.mixed_page Samples.lower_case
       (fun _ => None) 0 Spec.log10_series (str "electronics")
       Amazon.bestsellers).
Proof.
  split; [exact log10_series_ok |]. split.
  - apply (proj1 (extracted_scores Spec.log10_series log10_series_ok)).
  - apply (proj2 (extracted_scores Spec.log10_series log10_series_ok)).
Defined.

(** X6. Let [toLowerCase] map the characters of Latin-1 as Unicode does.
    Every product that [scrapeProductsFromHTML] builds from the page of a
    source of [SCRAPE_SOURCES] is filed under [other]: the category of the
    source, or the canonical name found for the title on the general deals
    page, is an English name, which [normalizeCategory] does not find among
    the Portuguese names of its tables. *)
Theorem amazon_products_filed_under_other (cfg : Amazon.Config) (Elem : Type)
    (select : jsstring -> jsstring -> list Elem)
    (el_attr : Elem -> jsstring -> option jsstring)
    (find_text find_last_text : Elem -> jsstring -> jsstring)
    (find_attr : Elem -> jsstring -> jsstring -> option jsstring)
    (toLowerCase : jsstring -> jsstring)
    (first_dynamic_image : jsstring -> option jsstring) (Date_now : Z)
    (Math_log10 : number -> number) (html : jsstring)
    (source : Amazon.ScrapeSource) :
  lowers_latin1 toLowerCase ->
  In source Amazon.SCRAPE_SOURCES ->
  Forall (fun p => Amazon.normalizedCategory p = str "other")
    (Amazon.scrapeProductsFromHTML cfg Elem select el_attr find_text
       find_last_text find_attr toLowerCase first_dynamic_image Date_now
       Math_log10 html (Amazon.src_category source) (Amazon.src_type source)).
Proof.
  intros Hlow Hin.
  apply amazon_extracted_built. intros el asin title.
  unfold Amazon.buildProduct. cbn [Amazon.normalizedCategory Amazon.set_dealScore].
  apply amazon_canonical_is_other; [exact Hlow |].
  change (In (if JSString.eqb (Amazon.src_category source) (str "general")
              then Amazon.normalizeCategory toLowerCase title
              else Amazon.src_category source) Spec.canonical).
  destruct (JSString.eqb _ _) eqn:E.
  - apply amazon_normalizeCategory_canonical.
  - cbn [In Amazon.SCRAPE_SOURCES] in Hin.
    destruct Hin as [<- | [<- | [<- | [<- | [<- | [<- | []]]]]]];
      solve [ discriminate E
            | unfold Spec.canonical; cbn [In Amazon.src_category]; tauto ].
Qed.

(** The sample page as the page of the second source, under the case
    mapping of Latin-1. *)
Lemma amazon_products_filed_under_other_witness :
  lowers_latin1 Samples.lower_case /\
  In (List.nth 1 Amazon.SCRAPE_SOURCES
        {| Amazon.src_url := []; Amazon.src_category := [];
           Amazon.src_type := Amazon.deals |}) Amazon.SCRAPE_SOURCES /\
  Forall (fun p => Amazon.normalizedCategory p = str "other")
    (Samples.scrape_amazon Samples.mixed_page Samples.lower_case
       (fun _ => None) 0 Spec.log10_series (str "electronics")
       Amazon.bestsellers).
Proof.
  split; [intros s _; reflexivity |].
  split; [right; left; reflexivity |].
  apply (amazon_products_filed_under_other Amazon.CONFIG Samples.card
           (Samples.page_select Samples.mixed_page) Samples.card_own
           Samples.card_text Samples.card_last_text Samples.card_attr
           Samples.lower_case (fun _ => None) 0 Spec.log10_series
           (str "<html>")
           (List.nth 1 Amazon.SCRAPE_SOURCES
              {| Amazon.src_url := []; Amazon.src_category := [];
                 Amazon.src_type := Amazon.deals |})).
  - intros s _; reflexivity.
  - right; left; reflexivity.
Defined.

(** ** The outcome of a fetch *)

Lemma sleeps_app (l1 l2 : list event) : sleeps (l1 ++ l2) = sleeps l1 ++ sleeps l2.
Proof. unfold sleeps. apply flat_map_app. Qed.

Lemma community_attempts_outcome (cfg : Community.Config) (net : oracle)
    (url : jsstring) (remaining attempt : nat) (w : Community.session) :
  (attempt + remaining = Community.MAX_RETRIES cfg + 1)%nat ->
  exists k, (k <= remaining)%nat /\
    community_outcome cfg net url attempt w
      (fst (Community.attempts cfg net url remaining attempt w))
      (snd (Community.attempts cfg net url remaining attempt w)) k.
Proof.
  revert attempt w. induction remaining as [| remaining IH]; intros attempt w Ha.
  - exists 0%nat. split; [lia |]. cbn [Community.attempts fst snd].
    unfold community_outcome. cbn zeta.
    rewrite Nat.add_0_r. split; [reflexivity |]. split; [intros; lia |].
    cbn [seq List.map repeat Nat.sub]. rewrite !app_nil_r.
    repeat split; lia.
  - cbn [Community.attempts].
    set (w1 := Community.count_request url w).
    assert (Hrc : Community.requestCount (Community.stats w1)
                  = (Community.requestCount (Community.stats w) + 1)%nat)
      by (cbn; lia).
    rewrite Hrc.
    destruct (net (Community.requestCount (Community.stats w) + 1)%nat url)
      as [html | msg] eqn:En.
    + exists 1%nat. split; [lia |]. cbn [fst snd]. unfold community_outcome.
      cbn zeta. split; [exact Hrc |]. split; [intros; lia |].
      cbn [Nat.sub seq List.map repeat]. rewrite app_nil_r.
      split; [subst w1; cbn [Community.count_request Community.trace];
              rewrite sleeps_app; cbn; now rewrite app_nil_r |].
      split; [subst w1; cbn [Community.count_request Community.trace];
              now rewrite requests_app |].
      split; [reflexivity |].
      split; [lia |]. split; [exact En | reflexivity].
    + set (w2 := if (attempt <? Community.MAX_RETRIES cfg)%nat
                 then Community.emit _ w1 else Community.push_error _ w1).
      assert (Hrc2 : Community.requestCount (Community.stats w2)
                     = (Community.requestCount (Community.stats w) + 1)%nat).
      { subst w2. destruct (attempt <? _)%nat; cbn; lia. }
      destruct (IH (S attempt) w2 ltac:(lia)) as (k & Hk & Hout).
      exists (S k). split; [lia |].
      unfold community_outcome in Hout. cbn zeta in Hout.
      rewrite Hrc2 in Hout. destruct Hout as (H1 & H2 & H3 & H4 & Hf & H5).
      assert (Hf2 : Community.dealsFound (Community.stats w2)
                    = Community.dealsFound (Community.stats w))
        by (subst w2; destruct (attempt <? _)%nat; reflexivity).
      unfold community_outcome. cbn zeta.
      split; [rewrite H1; lia |].
      split.
      { intros j Hj. destruct (Nat.eq_dec j 1%nat) as [-> | Hne]; [now exists msg |].
        destruct (H2 (j - 1)%nat ltac:(lia)) as (m & Hm). exists m.
        rewrite <- Hm. f_equal. lia. }
      assert (Hreq : requests (Community.trace w2)
                     = requests (Community.trace w) ++ [url]).
      { subst w2 w1. destruct (attempt <? _)%nat;
          cbn [Community.emit Community.push_error Community.count_request
               Community.trace]; rewrite ?requests_app; cbn;
          now rewrite ?app_nil_r. }
      split.
      { rewrite H3. cbn [Nat.sub]. rewrite Nat.sub_0_r.
        destruct k as [| k'].
        - cbn [Nat.sub seq List.map]. rewrite !app_nil_r.
          destruct (fst _) eqn:Er in H5; [destruct H5 as [H5 _]; lia |].
          destruct H5 as [H5 _].
          assert (Hlt : (attempt <? Community.MAX_RETRIES cfg)%nat = false)
            by (apply Nat.ltb_ge; lia).
          subst w2 w1. rewrite Hlt.
          cbn [Community.push_error Community.count_request Community.trace].
          rewrite sleeps_app. cbn. now rewrite app_nil_r.
        - cbn [Nat.sub]. rewrite Nat.sub_0_r. cbn [seq List.map].
          assert (Hlt : (attempt <? Community.MAX_RETRIES cfg)%nat = true).
          { apply Nat.ltb_lt.
            destruct (fst _) eqn:Er in H5.
            - lia.
            - destruct H5 as [H5 _]. lia. }
          subst w2 w1. rewrite Hlt.
          cbn [Community.emit Community.count_request Community.trace].
          rewrite !sleeps_app. cbn [sleeps flat_map app].
          now rewrite <- !app_assoc. }
      split.
      { rewrite H4, Hreq, <- app_assoc. reflexivity. }
      split; [now rewrite Hf |].
      destruct (fst (Community.attempts cfg net url remaining (S attempt) w2))
        as [html |] eqn:Er.
      * destruct H5 as (Hk1 & Hb & He). split; [lia |].
        split; [rewrite <- Hb; f_equal; lia |].
        rewrite He. subst w2 w1.
        assert (Hlt : (attempt <? Community.MAX_RETRIES cfg)%nat = true)
          by (apply Nat.ltb_lt; lia).
        now rewrite Hlt.
      * destruct H5 as (Hsum & Hk0). split; [lia |].
        destruct k as [| k'].
        -- exists msg. split; [rewrite <- En; f_equal; lia |].
           rewrite Hk0. subst w2 w1.
           assert (Hlt : (attempt <? Community.MAX_RETRIES cfg)%nat = false)
             by (apply Nat.ltb_ge; lia).
           now rewrite Hlt.
        -- destruct Hk0 as (m & Hm & He). exists m.
           split; [rewrite <- Hm; f_equal; lia |].
           rewrite He. subst w2 w1.
           assert (Hlt : (attempt <? Community.MAX_RETRIES cfg)%nat = true)
             by (apply Nat.ltb_lt; lia).
           now rewrite Hlt.
Qed.

Lemma amazon_attempts_outcome (cfg : Amazon.Config) (net : oracle)
    (url : jsstring) (remaining attempt : nat) (w : Amazon.session) :
  (attempt + remaining = Amazon.MAX_RETRIES cfg + 1)%nat ->
  exists k, (k <= remaining)%nat /\
    amazon_outcome cfg net url attempt w
      (fst (Amazon.attempts cfg net url remaining attempt w))
      (snd (Amazon.attempts cfg net url remaining attempt w)) k.
Proof.
  revert attempt w. induction remaining as [| remaining IH]; intros attempt w Ha.
  - exists 0%nat. split; [lia |]. cbn [Amazon.attempts fst snd].
    unfold amazon_outcome. cbn zeta.
    rewrite Nat.add_0_r. split; [reflexivity |]. split; [intros; lia |].
    cbn [seq List.map repeat Nat.sub]. rewrite !app_nil_r.
    split; [reflexivity |]. split; [reflexivity |]. right. repeat split; lia.
  - cbn [Amazon.attempts].
    set (w1 := Amazon.count_request url w).
    assert (Hrc : Amazon.requestCount (Amazon.stats w1)
                  = (Amazon.requestCount (Amazon.stats w) + 1)%nat)
      by (cbn; lia).
    assert (Hs1 : sleeps (Amazon.trace w1) = sleeps (Amazon.trace w)).
    { subst w1. cbn [Amazon.count_request Amazon.trace].
      rewrite sleeps_app. cbn. now rewrite app_nil_r. }
    assert (Hr1 : requests (Amazon.trace w1) = requests (Amazon.trace w) ++ [url]).
    { subst w1. cbn [Amazon.count_request Amazon.trace].
      now rewrite requests_app. }
    rewrite Hrc.
    destruct (net (Amazon.requestCount (Amazon.stats w) + 1)%nat url)
      as [html | msg] eqn:En.
    + exists 1%nat. split; [lia |].
      destruct (Amazon.looks_blocked html) eqn:Eb; cbn [fst snd];
        unfold amazon_outcome; cbn zeta;
        (split; [exact Hrc |]); (split; [intros; lia |]);
        cbn [Nat.sub seq List.map repeat app].
      * split; [cbn [Amazon.emit Amazon.push_error Amazon.trace];
                rewrite requests_app, Hr1; cbn; now rewrite app_nil_r |].
        split; [reflexivity |].
        left. exists html.
        split; [lia |]. split; [exact En |]. split; [exact Eb |].
        split; [reflexivity |].
        cbn [Amazon.emit Amazon.push_error Amazon.trace].
        rewrite sleeps_app, Hs1. reflexivity.
      * split; [exact Hr1 |]. split; [reflexivity |].
        split; [lia |]. split; [exact En |].
        split; [exact Eb |]. split; [reflexivity |].
        now rewrite Hs1, app_nil_r.
    + set (w2 := if (attempt <? Amazon.MAX_RETRIES cfg)%nat
                 then Amazon.emit _ w1 else Amazon.push_error _ w1).
      assert (Hrc2 : Amazon.requestCount (Amazon.stats w2)
                     = (Amazon.requestCount (Amazon.stats w) + 1)%nat).
      { subst w2. destruct (attempt <? _)%nat; cbn; lia. }
      assert (Hreq : requests (Amazon.trace w2)
                     = requests (Amazon.trace w) ++ [url]).
      { subst w2. destruct (attempt <? _)%nat;
          cbn [Amazon.emit Amazon.push_error Amazon.trace];
          rewrite ?requests_app, Hr1; cbn; now rewrite ?app_nil_r. }
      destruct (IH (S attempt) w2 ltac:(lia)) as (k & Hk & Hout).
      exists (S k). split; [lia |].
      unfold amazon_outcome in Hout. cbn zeta in Hout.
      rewrite Hrc2 in Hout. destruct Hout as (H1 & H2 & H4 & Hf & H5).
      assert (Hf2 : Amazon.productsFound (Amazon.stats w2)
                    = Amazon.productsFound (Amazon.stats w))
        by (subst w2; destruct (attempt <? _)%nat; reflexivity).
      unfold amazon_outcome. cbn zeta.
      split; [rewrite H1; lia |].
      split.
      { intros j Hj. destruct (Nat.eq_dec j 1%nat) as [-> | Hne]; [now exists msg |].
        destruct (H2 (j - 1)%nat ltac:(lia)) as (m & Hm). exists m.
        rewrite <- Hm. f_equal. lia. }
      split.
      { rewrite H4, Hreq, <- app_assoc. reflexivity. }
      split; [now rewrite Hf |].
      assert (Hmore : (1 <= k)%nat ->
                (attempt <? Amazon.MAX_RETRIES cfg)%nat = true ->
                sleeps (Amazon.trace w2)
                ++ List.map (fun a => Amazon.RETRY_DELAY_MS cfg * Z.of_nat a)
                     (seq (S attempt) (k - 1))
                = sleeps (Amazon.trace w)
                  ++ List.map (fun a => Amazon.RETRY_DELAY_MS cfg * Z.of_nat a)
                       (seq attempt (S k - 1)) /\
                Amazon.errors (Amazon.stats w2) = Amazon.errors (Amazon.stats w)).
      { intros Hk1 Hlt. subst w2. rewrite Hlt.
        cbn [Amazon.emit Amazon.trace Amazon.stats].
        split; [| reflexivity].
        rewrite sleeps_app, Hs1. cbn [sleeps flat_map app].
        destruct k as [| k']; [lia |].
        cbn [Nat.sub]. rewrite !Nat.sub_0_r. cbn [seq List.map].
        now rewrite <- app_assoc. }
      assert (Hlast : k = 0%nat ->
                (attempt <? Amazon.MAX_RETRIES cfg)%nat = false ->
                sleeps (Amazon.trace w2) = sleeps (Amazon.trace w) /\
                Amazon.errors (Amazon.stats w2)
                = Amazon.errors (Amazon.stats w)
                  ++ [str "Failed to fetch " ++ url ++ str ": " ++ msg]).
      { intros -> Hlt. subst w2. rewrite Hlt.
        cbn [Amazon.push_error Amazon.trace Amazon.stats Amazon.errors].
        now split. }
      destruct (fst (Amazon.attempts cfg net url remaining (S attempt) w2))
        as [html |] eqn:Er.
      * destruct H5 as (Hk1 & Hb & Hnb & He & Hs).
        assert (Hlt : (attempt <? Amazon.MAX_RETRIES cfg)%nat = true)
          by (apply Nat.ltb_lt; lia).
        destruct (Hmore Hk1 Hlt) as [Hm1 Hm2].
        split; [lia |]. split; [rewrite <- Hb; f_equal; lia |].
        split; [exact Hnb |]. split; [now rewrite He |].
        now rewrite Hs.
      * destruct H5 as [(html & Hk1 & Hb & Hbl & He & Hs) | (Hsum & Hs & Hk0)].
        -- assert (Hlt : (attempt <? Amazon.MAX_RETRIES cfg)%nat = true)
             by (apply Nat.ltb_lt; lia).
           destruct (Hmore Hk1 Hlt) as [Hm1 Hm2].
           left. exists html. split; [lia |].
           split; [rewrite <- Hb; f_equal; lia |]. split; [exact Hbl |].
           split; [now rewrite He, Hm2 |].
           rewrite Hs, !app_assoc. now rewrite Hm1.
        -- right. split; [lia |].
           destruct k as [| k'].
           ++ assert (Hlt : (attempt <? Amazon.MAX_RETRIES cfg)%nat = false)
                by (apply Nat.ltb_ge; lia).
              destruct (Hlast eq_refl Hlt) as [Hl1 Hl2].
              cbn [Nat.sub seq List.map] in *. rewrite app_nil_r in *.
              split; [now rewrite Hs |].
              exists msg. split; [rewrite <- En; f_equal; lia |].
              now rewrite Hk0.
           ++ assert (Hlt : (attempt <? Amazon.MAX_RETRIES cfg)%nat = true)
                by (apply Nat.ltb_lt; lia).
              destruct (Hmore ltac:(lia) Hlt) as [Hm1 Hm2].
              split; [now rewrite Hs |].
              destruct Hk0 as (m & Hm & He). exists m.
              split; [rewrite <- Hm; f_equal; lia |].
              now rewrite He, Hm2.
Qed.

(** X7. A call of the community [fetchWithRetry] below the budget makes
    [k <= MAX_RETRIES] requests, all for the given URL.  It returns the body
    of the first attempt that is answered, having waited
    [RETRY_DELAY_MS * a] after each failed attempt [a] before it, and then
    leaves [stats.errors] as it was.  When none of the [MAX_RETRIES]
    attempts is answered it returns [null] and appends one entry,
    [Failed to fetch URL: message], with the message of the last attempt
    only, and it does not wait after that attempt.  It never changes
    [stats.dealsFound]. *)
Theorem community_fetch_outcome (cfg : Community.Config) (net : oracle)
    (url : jsstring) (w : Community.session) :
  if (Community.MAX_REQUESTS cfg <=? Community.requestCount (Community.stats w))%nat
  then Community.fetchWithRetry cfg net url w
       = (None, Community.emit (Skipped url) w)
  else
    exists k, (k <= Community.MAX_RETRIES cfg)%nat /\
      community_outcome cfg net url 1 w
        (fst (Community.fetchWithRetry cfg net url w))
        (snd (Community.fetchWithRetry cfg net url w)) k.
Proof.
  unfold Community.fetchWithRetry.
  destruct (_ <=? _)%nat; [reflexivity |].
  apply community_attempts_outcome. lia.
Qed.

(** X8. A call of the Amazon [fetchWithRetry] below the budget behaves as
    the community one, except for a page that is answered and contains
    [captcha], [robot] or [automated]: such a page is never returned; the
    call gives up at once, without using the attempts that are left,
    appends [Bot detection on URL] to [stats.errors] and waits
    [RETRY_DELAY_MS * 2]. *)
Theorem amazon_fetch_outcome (cfg : Amazon.Config) (net : oracle)
    (url : jsstring) (w : Amazon.session) :
  if (Amazon.MAX_REQUESTS_PER_SESSION cfg
      <=? Amazon.requestCount (Amazon.stats w))%nat
  then Amazon.fetchWithRetry cfg net url w = (None, Amazon.emit (Skipped url) w)
  else
    exists k, (k <= Amazon.MAX_RETRIES cfg)%nat /\
      amazon_outcome cfg net url 1 w
        (fst (Amazon.fetchWithRetry cfg net url w))
        (snd (Amazon.fetchWithRetry cfg net url w)) k.
Proof.
  unfold Amazon.fetchWithRetry.
  destruct (_ <=? _)%nat; [reflexivity |].
  apply amazon_attempts_outcome. lia.
Qed.

(** ** The post-processing *)

Section PostFacts.
Context {A : Type}.
Variable key : A -> jsstring.
Variable score : A -> Z.

Local Abbreviation step := (Spec.dedup_step key score).
Local Abbreviation dedup l := (JSMap.values (fold_left step l JSMap.empty)).

Lemma In_values_set (m : @JSMap.t A) (k : jsstring) (v x : A) :
  In x (JSMap.values (JSMap.set m k v)) -> x = v \/ In x (JSMap.values m).
Proof.
  unfold JSMap.values.
  induction m as [| [k' v'] m IH]; cbn [JSMap.set List.map In snd].
  - intros [<- | []]. now left.
  - destruct (JSString.eqb k k'); cbn [List.map In snd]; intuition auto.
Qed.

Lemma In_values_fold (l : list A) (m : @JSMap.t A) (x : A) :
  In x (JSMap.values (fold_left step l m)) -> In x l \/ In x (JSMap.values m).
Proof.
  revert m. induction l as [| d l IH]; intros m H; cbn [fold_left] in H.
  - now right.
  - destruct (IH _ H) as [Hl | Hm]; [left; now right |].
    unfold Spec.dedup_step in Hm.
    destruct (JSMap.get m (key d)) as [existing |].
    + destruct (score d >? score existing); [| now right].
      destruct (In_values_set _ _ _ _ Hm) as [-> | Hm']; [left; now left | now right].
    + destruct (In_values_set _ _ _ _ Hm) as [-> | Hm']; [left; now left | now right].
Qed.

Lemma dedup_subset (l : list A) (x : A) : In x (dedup l) -> In x l.
Proof. intros H. destruct (In_values_fold _ _ _ H) as [H' | []]. exact H'. Qed.

Lemma dedup_well_keyed (l : list A) :
  Spec.well_keyed key (fold_left step l JSMap.empty).
Proof.
  destruct (fold_step_invariant key score l [] JSMap.empty) as [Hw _].
  - split; constructor.
  - intros k. reflexivity.
  - exact Hw.
Qed.

Lemma dedup_distinct (l : list A) : List.NoDup (List.map key (dedup l)).
Proof.
  rewrite (well_keyed_keys key) by apply dedup_well_keyed.
  apply dedup_well_keyed.
Qed.

Lemma first_occurrences_length (seen : list jsstring) (l : list A) :
  (length (Spec.first_occurrences key seen l) <= length l)%nat.
Proof.
  revert seen. induction l as [| d l IH]; intros seen; cbn; [lia |].
  destruct (bool_decide _); cbn; [specialize (IH seen) | specialize (IH (seen ++ [key d]))]; lia.
Qed.

Lemma dedup_length (l : list A) : (length (dedup l) <= length l)%nat.
Proof.
  rewrite <- (length_map key), dedup_keys_order.
  apply first_occurrences_length.
Qed.

(** Listings with pairwise different identifiers go into the map one after
    the other. *)
Lemma fold_step_distinct (l : list A) (m : @JSMap.t A) :
  List.NoDup (List.map fst m ++ List.map key l) ->
  fold_left step l m = m ++ List.map (fun d => (key d, d)) l.
Proof.
  revert m. induction l as [| d l IH]; intros m Hnd; cbn [fold_left List.map].
  - now rewrite app_nil_r.
  - assert (Hget : JSMap.get m (key d) = None).
    { apply get_None_keys. intros Hin.
      cbn [List.map] in Hnd. apply NoDup_ListNoDup in Hnd.
      apply NoDup_app in Hnd. destruct Hnd as (_ & Hdis & _).
      apply (Hdis (key d)); [now apply list_elem_of_In | left]. }
    unfold Spec.dedup_step at 2. rewrite Hget, (set_absent _ _ _ Hget).
    rewrite IH.
    + now rewrite <- app_assoc.
    + rewrite List.map_app. cbn [List.map fst]. rewrite <- app_assoc. exact Hnd.
Qed.

Lemma dedup_of_distinct (l : list A) :
  List.NoDup (List.map key l) -> dedup l = l.
Proof.
  intros Hnd. rewrite fold_step_distinct by exact Hnd.
  unfold JSMap.empty, JSMap.values. cbn [app].
  rewrite List.map_map. cbn [snd]. apply List.map_id.
Qed.

Lemma dedup_idempotent (l : list A) : dedup (dedup l) = dedup l.
Proof. apply dedup_of_distinct, dedup_distinct. Qed.

Lemma NoDup_map_filter (f : A -> bool) (l : list A) :
  List.NoDup (List.map key l) -> List.NoDup (List.map key (List.filter f l)).
Proof.
  induction l as [| d l IH]; cbn [List.map List.filter]; [auto |].
  intros Hnd. inversion Hnd as [| ? ? Hn Hnd']; subst.
  destruct (f d); [| now apply IH].
  cbn [List.map]. constructor; [| now apply IH].
  intros Hin. apply Hn. apply in_map_iff in Hin. destruct Hin as (x & Hx & Hin).
  apply in_map_iff. exists x. split; [exact Hx |].
  now apply List.filter_In in Hin.
Qed.

Lemma NoDup_map_firstn (n : nat) (l : list A) :
  List.NoDup (List.map key l) -> List.NoDup (List.map key (firstn n l)).
Proof.
  intros Hnd. rewrite <- (firstn_skipn n l), List.map_app in Hnd.
  now apply List.NoDup_app_remove_r in Hnd.
Qed.

(** What deduplicating, filtering, sorting and cutting leave. *)
Lemma post_processed (f : A -> bool) (l : list A) (limit : Z) :
  let result :=
    JSArray.slice0
      (JSArray.sort (fun a b => score b - score a) (List.filter f (dedup l)))
      limit in
  List.NoDup (List.map key result) /\
  Forall (fun d => In d l /\ f d = true) result /\
  (length result <= length l)%nat.
Proof.
  cbv zeta. unfold JSArray.slice0.
  set (sorted := JSArray.sort _ _).
  set (n := Z.to_nat _).
  assert (Hperm : Permutation sorted (List.filter f (dedup l)))
    by apply sort_perm.
  split; [| split].
  - apply NoDup_map_firstn.
    eapply Permutation_NoDup; [apply Permutation_map, Permutation_sym, Hperm |].
    apply NoDup_map_filter, dedup_distinct.
  - apply List.Forall_forall. intros d Hd.
    assert (Hs : In d sorted).
    { rewrite <- (firstn_skipn n sorted). apply in_or_app. now left. }
    apply (Permutation_in _ Hperm) in Hs.
    apply List.filter_In in Hs. destruct Hs as [Hs Hf].
    split; [now apply dedup_subset | exact Hf].
  - rewrite length_firstn.
    pose proof (Permutation_length Hperm) as Hlen.
    pose proof (List.filter_length_le f (dedup l)).
    pose proof (dedup_length l). lia.
Qed.

End PostFacts.

(** ** The sessions *)

Section CommunitySession.
Variable cfg : Community.Config.
Variable Elem : Type.
Variable select : jsstring -> jsstring -> list Elem.
Variable find_text : Elem -> jsstring -> jsstring.
Variable find_attr : Elem -> jsstring -> jsstring -> option jsstring.
Variable find_all_attr : Elem -> jsstring -> jsstring -> list (option jsstring).
Variable toLowerCase : jsstring -> jsstring.
Variable toUpperCase : jsstring -> jsstring.
Variable Number_toString : number -> jsstring.
Variable Date_now : Z.
Variable Math_log10 : number -> number.
Variable net : oracle.

Local Abbreviation loop :=
  (Community.scrapeSources cfg Elem select find_text find_attr find_all_attr
     toLowerCase toUpperCase Number_toString Date_now Math_log10 net).
Local Abbreviation scrape :=
  (Community.scrapeDealsFromHTML cfg Elem select find_text find_attr
     find_all_attr toLowerCase toUpperCase Number_toString Date_now
     Math_log10).
Local Abbreviation count w := (Community.requestCount (Community.stats w)).
Local Abbreviation found w := (Community.dealsFound (Community.stats w)).
Local Abbreviation errors_of w := (Community.errors (Community.stats w)).
Local Abbreviation MAXP := (Community.MAX_PRODUCTS_PER_SOURCE cfg).

(** What the loop over the sources adds to the deals and to the
    statistics. *)
Lemma community_loop_found (sources : list Community.Source)
    (allDeals : list Community.CommunityDeal) (w : Community.session) :
  exists more,
    fst (loop sources allDeals w) = allDeals ++ more /\
    Forall (fun d => exists source html,
                       In source sources /\ In d (scrape html source)) more /\
    found (snd (loop sources allDeals w)) = (found w + length more)%nat /\
    (count w <= count (snd (loop sources allDeals w)))%nat /\
    (length more <= MAXP * (count (snd (loop sources allDeals w)) - count w))%nat /\
    (length (errors_of (snd (loop sources allDeals w)))
     <= length (errors_of w) + length sources)%nat.
Proof.
  revert allDeals w.
  induction sources as [| source rest IH]; intros allDeals w.
  - exists []. cbn [Community.scrapeSources fst snd length].
    rewrite app_nil_r. repeat split; try lia. constructor.
  - cbn [Community.scrapeSources].
    destruct (_ <=? _)%nat eqn:Eb.
    + exists []. cbn [fst snd length Community.emit Community.stats].
      rewrite app_nil_r. repeat split; try lia. constructor.
    + unfold Community.fetchWithRetry. rewrite Eb.
      destruct (community_attempts_outcome cfg net (Community.src_url source)
                  (Community.MAX_RETRIES cfg) 1 w ltac:(lia))
        as (k & Hk & Hout).
      destruct (Community.attempts _ _ _ _ _ _) as [html w1].
      cbn [fst snd] in Hout. unfold community_outcome in Hout.
      cbn zeta in Hout. destruct Hout as (Hrc & _ & _ & _ & Hf & Hr).
      assert (Hstep :
        exists deals w2,
          match html with
          | Some html =>
              if JSString.truthy html
              then (allDeals ++ scrape html source,
                    Community.add_found (length (scrape html source)) w1)
              else (allDeals, w1)
          | None => (allDeals, w1)
          end = (allDeals ++ deals, w2) /\
          Forall (fun d => exists html, In d (scrape html source)) deals /\
          found w2 = (found w + length deals)%nat /\
          count w2 = (count w + k)%nat /\
          (length deals <= MAXP * k)%nat /\
          (length (errors_of w2) <= length (errors_of w) + 1)%nat).
      { destruct html as [html |].
        - destruct Hr as (Hk1 & _ & Herr).
          destruct (JSString.truthy html).
          + exists (scrape html source), (Community.add_found (length (scrape html source)) w1).
            cbn [Community.add_found Community.stats Community.dealsFound
                 Community.requestCount Community.errors].
            split; [reflexivity |]. split.
            { apply List.Forall_forall. intros d Hd. now exists html. }
            pose proof (proj2 (community_extracted_ok cfg Elem select
                                 find_text find_attr find_all_attr toLowerCase
                                 toUpperCase Number_toString Date_now
                                 Math_log10 html source)) as Hlen.
            rewrite Herr.
            repeat split; try lia. nia.
          + exists [], w1. rewrite app_nil_r. cbn [length].
            split; [reflexivity |]. split; [constructor |].
            rewrite Herr. repeat split; lia.
        - exists [], w1. rewrite app_nil_r. cbn [length].
          split; [reflexivity |]. split; [constructor |].
          destruct Hr as (_ & Hr). split; [lia |]. split; [lia |].
          split; [lia |].
          destruct k as [| k']; [rewrite Hr; lia |].
          destruct Hr as (msg & _ & ->). rewrite length_app. cbn. lia. }
      destruct Hstep as (deals & w2 & -> & Hall & Hfound & Hcount & Hlen & Herrs).
      set (w3 := if (_ <? _)%nat then _ else w2).
      assert (Hstats : Community.stats w3 = Community.stats w2)
        by (subst w3; now destruct (_ <? _)%nat).
      destruct (IH (allDeals ++ deals) w3)
        as (more & Hfst & Hmore & Hfound' & Hmono & Hlen' & Herrs').
      rewrite Hstats in *.
      exists (deals ++ more). rewrite Hfst, <- app_assoc.
      split; [reflexivity |]. split.
      { apply Forall_app. split.
        - eapply List.Forall_impl; [| exact Hall].
          intros d (html' & Hd). exists source, html'. split; [now left | exact Hd].
        - eapply List.Forall_impl; [| exact Hmore].
          intros d (s & html' & Hs & Hd). exists s, html'.
          split; [now right | exact Hd]. }
      rewrite length_app. cbn [length].
      split; [lia |]. split; [lia |]. split; [nia | lia].
Qed.

End CommunitySession.

Section AmazonSession.
Variable cfg : Amazon.Config.
Variable Elem : Type.
Variable select : jsstring -> jsstring -> list Elem.
Variable el_attr : Elem -> jsstring -> option jsstring.
Variable find_text find_last_text : Elem -> jsstring -> jsstring.
Variable find_attr : Elem -> jsstring -> jsstring -> option jsstring.
Variable toLowerCase : jsstring -> jsstring.
Variable first_dynamic_image : jsstring -> option jsstring.
Variable Date_now : Z.
Variable Math_log10 : number -> number.
Variable net : oracle.

Local Abbreviation loop :=
  (Amazon.scrapeSources cfg Elem select el_attr find_text find_last_text
     find_attr toLowerCase first_dynamic_image Date_now Math_log10 net).
Local Abbreviation scrape :=
  (Amazon.scrapeProductsFromHTML cfg Elem select el_attr find_text
     find_last_text find_attr toLowerCase first_dynamic_image Date_now
     Math_log10).
Local Abbreviation count w := (Amazon.requestCount (Amazon.stats w)).
Local Abbreviation found w := (Amazon.productsFound (Amazon.stats w)).
Local Abbreviation errors_of w := (Amazon.errors (Amazon.stats w)).
Local Abbreviation MAXP := (Amazon.MAX_PRODUCTS_PER_SOURCE cfg).

(** What the loop over the sources adds to the products and to the
    statistics. *)
Lemma amazon_loop_found (sources : list Amazon.ScrapeSource)
    (allProducts : list Amazon.ScrapedProduct) (w : Amazon.session) :
  exists more,
    fst (loop sources allProducts w) = allProducts ++ more /\
    Forall (fun p => exists source html,
                       In source sources /\
                       In p (scrape html (Amazon.src_category source)
                               (Amazon.src_type source))) more /\
    found (snd (loop sources allProducts w)) = (found w + length more)%nat /\
    (count w <= count (snd (loop sources allProducts w)))%nat /\
    (length more
     <= MAXP * (count (snd (loop sources allProducts w)) - count w))%nat /\
    (length (errors_of (snd (loop sources allProducts w)))
     <= length (errors_of w) + length sources)%nat.
Proof.
  revert allProducts w.
  induction sources as [| source rest IH]; intros allProducts w.
  - exists []. cbn [Amazon.scrapeSources fst snd length].
    rewrite app_nil_r. repeat split; try lia. constructor.
  - cbn [Amazon.scrapeSources].
    destruct (_ <=? _)%nat eqn:Eb.
    + exists []. cbn [fst snd length Amazon.emit Amazon.stats].
      rewrite app_nil_r. repeat split; try lia. constructor.
    + unfold Amazon.fetchWithRetry. rewrite Eb.
      destruct (amazon_attempts_outcome cfg net (Amazon.src_url source)
                  (Amazon.MAX_RETRIES cfg) 1 w ltac:(lia))
        as (k & Hk & Hout).
      destruct (Amazon.attempts _ _ _ _ _ _) as [html w1].
      cbn [fst snd] in Hout. unfold amazon_outcome in Hout.
      cbn zeta in Hout. destruct Hout as (Hrc & _ & _ & Hf & Hr).
      assert (Hstep :
        exists products w2,
          match html with
          | Some html =>
              if JSString.truthy html
              then (allProducts
                    ++ scrape html (Amazon.src_category source)
                         (Amazon.src_type source),
                    Amazon.add_found
                      (length (scrape html (Amazon.src_category source)
                                 (Amazon.src_type source))) w1)
              else (allProducts, w1)
          | None => (allProducts, w1)
          end = (allProducts ++ products, w2) /\
          Forall (fun p => exists html,
                             In p (scrape html (Amazon.src_category source)
                                     (Amazon.src_type source))) products /\
          found w2 = (found w + length products)%nat /\
          count w2 = (count w + k)%nat /\
          (length products <= MAXP * k)%nat /\
          (length (errors_of w2) <= length (errors_of w) + 1)%nat).
      { destruct html as [html |].
        - destruct Hr as (Hk1 & _ & _ & Herr & _).
          destruct (JSString.truthy html).
          + exists (scrape html (Amazon.src_category source)
                      (Amazon.src_type source)),
              (Amazon.add_found
                 (length (scrape html (Amazon.src_category source)
                            (Amazon.src_type source))) w1).
            cbn [Amazon.add_found Amazon.stats Amazon.productsFound
                 Amazon.requestCount Amazon.errors].
            split; [reflexivity |]. split.
            { apply List.Forall_forall. intros p Hp. now exists html. }
            pose proof (proj2 (proj2 (amazon_extracted_collected cfg Elem select
                                 el_attr find_text find_last_text find_attr
                                 toLowerCase first_dynamic_image Date_now
                                 Math_log10 html (Amazon.src_category source)
                                 (Amazon.src_type source)))) as Hlen.
            rewrite Herr.
            repeat split; try lia. nia.
          + exists [], w1. rewrite app_nil_r. cbn [length].
            split; [reflexivity |]. split; [constructor |].
            rewrite Herr. repeat split; lia.
        - exists [], w1. rewrite app_nil_r. cbn [length].
          split; [reflexivity |]. split; [constructor |].
          split; [lia |]. split; [lia |]. split; [lia |].
          destruct Hr as [(html & _ & _ & _ & -> & _) | (_ & _ & Hr)].
          + rewrite length_app. cbn. lia.
          + destruct k as [| k']; [rewrite Hr; lia |].
            destruct Hr as (msg & _ & ->). rewrite length_app. cbn. lia. }
      destruct Hstep
        as (products & w2 & -> & Hall & Hfound & Hcount & Hlen & Herrs).
      set (w3 := if (_ <? _)%nat && _ then _ else w2).
      assert (Hstats : Amazon.stats w3 = Amazon.stats w2)
        by (subst w3; now destruct (_ && _)).
      destruct (IH (allProducts ++ products) w3)
        as (more & Hfst & Hmore & Hfound' & Hmono & Hlen' & Herrs').
      rewrite Hstats in *.
      exists (products ++ more). rewrite Hfst, <- app_assoc.
      split; [reflexivity |]. split.
      { apply Forall_app. split.
        - eapply List.Forall_impl; [| exact Hall].
          intros p (html' & Hp). exists source, html'.
          split; [now left | exact Hp].
        - eapply List.Forall_impl; [| exact Hmore].
          intros p (s & html' & Hs & Hp). exists s, html'.
          split; [now right | exact Hp]. }
      rewrite length_app. cbn [length].
      split; [lia |]. split; [lia |]. split; [nia | lia].
Qed.

End AmazonSession.

(** ** What a discovery returns *)

Section CommunityDiscovery.
Variable cfg : Community.Config.
Variable Elem : Type.
Variable select : jsstring -> jsstring -> list Elem.
Variable find_text : Elem -> jsstring -> jsstring.
Variable find_attr : Elem -> jsstring -> jsstring -> option jsstring.
Variable find_all_attr : Elem -> jsstring -> jsstring -> list (option jsstring).
Variable toLowerCase : jsstring -> jsstring.
Variable toUpperCase : jsstring -> jsstring.
Variable Number_toString : number -> jsstring.
Variable Date_now : Z.
Variable Math_log10 : number -> number.
Variable net : oracle.
Variable sources : list Community.Source.
Variable limit : option Z.

Lemma community_discovered_ok :
  List.NoDup
    (List.map Community.dedup_key
       (fst (Community.discoverCommunityDeals cfg Elem select find_text
               find_attr find_all_attr toLowerCase toUpperCase
               Number_toString Date_now Math_log10 net sources limit))) /\
  Forall (fun d =>
            (exists source, In source sources /\ community_deal_ok source d) /\
            Community.filterQualityDeals cfg [d] = [d])
    (fst (Community.discoverCommunityDeals cfg Elem select find_text
            find_attr find_all_attr toLowerCase toUpperCase Number_toString
            Date_now Math_log10 net sources limit)).
Proof.
  unfold Community.discoverCommunityDeals.
  destruct (community_loop_found cfg Elem select find_text find_attr
              find_all_attr toLowerCase toUpperCase Number_toString Date_now
              Math_log10 net sources [] (Community.new_session Date_now))
    as (more & Hfst & Hmore & _).
  destruct (Community.scrapeSources _ _ _ _ _ _ _ _ _ _ _ _ _ _ _)
    as [allDeals w].
  cbn [fst snd app] in *. subst more.
  unfold Community.postProcess, Community.filterQualityDeals,
    Community.deduplicateDeals.
  rewrite community_dedup_step.
  match goal with
  | |- context [List.filter ?f _] =>
      destruct (post_processed Community.dedup_key Community.dealScore f
                  allDeals (match limit with Some l => l | None => 20 end))
        as (Hnd & Hall & _)
  end.
  split; [exact Hnd |].
  eapply List.Forall_impl; [| exact Hall]. cbn beta.
  intros d [Hin Hf]. split.
  - rewrite List.Forall_forall in Hmore.
    destruct (Hmore d Hin) as (source & html & Hs & Hd).
    exists source. split; [exact Hs |].
    pose proof (proj1 (community_extracted_ok cfg Elem select find_text
                         find_attr find_all_attr toLowerCase toUpperCase
                         Number_toString Date_now Math_log10 html source))
      as Hok.
    rewrite List.Forall_forall in Hok. now apply Hok.
  - cbn [List.filter]. now rewrite Hf.
Qed.

(** X9. The deals that [discoverCommunityDeals] returns have pairwise
    different identifiers ([asin || id]); each of them passes the quality
    filter and was built from a card of one of the sources: its [source] is
    that source's name, its title has 10 to 250 characters, its link is not
    empty and contains [amazon] or [amzn], and its deal URL starts with
    [http]. *)
Theorem community_discovered_deals :
  let run :=
    Community.discoverCommunityDeals cfg Elem select find_text find_attr
      find_all_attr toLowerCase toUpperCase Number_toString Date_now
      Math_log10 net sources limit in
  List.NoDup (List.map Community.dedup_key (fst run)) /\
  Forall (fun d =>
            (exists source, In source sources /\ community_deal_ok source d) /\
            Community.filterQualityDeals cfg [d] = [d])
    (fst run).
Proof. exact community_discovered_ok. Qed.

(** X10. At the end of [discoverCommunityDeals], [stats.dealsFound] is the
    number of deals extracted, before deduplication and filtering: it is at
    least the number of deals returned, and at most
    [MAX_PRODUCTS_PER_SOURCE] for each request made.  [stats.errors] has at
    most one entry for each source. *)
Theorem community_discovery_statistics :
  let run :=
    Community.discoverCommunityDeals cfg Elem select find_text find_attr
      find_all_attr toLowerCase toUpperCase Number_toString Date_now
      Math_log10 net sources limit in
  (length (fst run)
   <= Community.dealsFound (Community.stats (snd run)))%nat /\
  (Community.dealsFound (Community.stats (snd run))
   <= Community.MAX_PRODUCTS_PER_SOURCE cfg
      * Community.requestCount (Community.stats (snd run)))%nat /\
  (length (Community.errors (Community.stats (snd run)))
   <= length sources)%nat.
Proof.
  cbv zeta. unfold Community.discoverCommunityDeals.
  destruct (community_loop_found cfg Elem select find_text find_attr
              find_all_attr toLowerCase toUpperCase Number_toString Date_now
              Math_log10 net sources [] (Community.new_session Date_now))
    as (more & Hfst & _ & Hfound & _ & Hlen & Herrs).
  destruct (Community.scrapeSources _ _ _ _ _ _ _ _ _ _ _ _ _ _ _)
    as [allDeals w].
  cbn [fst snd app Community.new_session Community.stats
       Community.dealsFound Community.requestCount Community.errors length]
    in *.
  subst more. rewrite Nat.sub_0_r in Hlen.
  unfold Community.postProcess, Community.filterQualityDeals,
    Community.deduplicateDeals.
  rewrite community_dedup_step.
  match goal with
  | |- context [List.filter ?f _] =>
      destruct (post_processed Community.dedup_key Community.dealScore f
                  allDeals (match limit with Some l => l | None => 20 end))
        as (_ & _ & Hle)
  end.
  split; [lia |]. split; lia.
Qed.

End CommunityDiscovery.

Section AmazonDiscovery.
Variable cfg : Amazon.Config.
Variable Elem : Type.
Variable select : jsstring -> jsstring -> list Elem.
Variable el_attr : Elem -> jsstring -> option jsstring.
Variable find_text find_last_text : Elem -> jsstring -> jsstring.
Variable find_attr : Elem -> jsstring -> jsstring -> option jsstring.
Variable toLowerCase : jsstring -> jsstring.
Variable first_dynamic_image : jsstring -> option jsstring.
Variable Date_now : Z.
Variable Math_log10 : number -> number.
Variable net : oracle.
Variable sources : list Amazon.ScrapeSource.
Variable limit : option Z.

(** X11. The products that [discoverProducts] returns have pairwise
    different ASINs; each of them passes the quality filter and was built
    from a card of one of the sources: it has the type of that source, an
    ASIN of 10 characters, a title of 5 to 250 characters and the product
    URL [AMAZON_BASE/dp/ASIN]. *)
Theorem amazon_discovered_products :
  let run :=
    Amazon.discoverProducts cfg Elem select el_attr find_text find_last_text
      find_attr toLowerCase first_dynamic_image Date_now Math_log10 net
      sources limit in
  List.NoDup (List.map Amazon.asin (fst run)) /\
  Forall (fun p =>
            (exists source,
               In source sources /\
               amazon_product_ok (Amazon.src_type source) p) /\
            Amazon.filterQualityProducts cfg [p] = [p])
    (fst run).
Proof.
  cbv zeta. unfold Amazon.discoverProducts.
  destruct (amazon_loop_found cfg Elem select el_attr find_text
              find_last_text find_attr toLowerCase first_dynamic_image
              Date_now Math_log10 net sources [] (Amazon.new_session Date_now))
    as (more & Hfst & Hmore & _).
  destruct (Amazon.scrapeSources _ _ _ _ _ _ _ _ _ _ _ _ _ _ _)
    as [allProducts w].
  cbn [fst snd app] in *. subst more.
  unfold Amazon.postProcess, Amazon.filterQualityProducts,
    Amazon.deduplicateProducts.
  rewrite amazon_dedup_step.
  match goal with
  | |- context [List.filter ?f _] =>
      destruct (post_processed Amazon.asin Amazon.dealScore f
                  allProducts (match limit with Some l => l | None => 20 end))
        as (Hnd & Hall & _)
  end.
  split; [exact Hnd |].
  eapply List.Forall_impl; [| exact Hall]. cbn beta.
  intros p [Hin Hf]. split.
  - rewrite List.Forall_forall in Hmore.
    destruct (Hmore p Hin) as (source & html & Hs & Hp).
    exists source. split; [exact Hs |].
    pose proof (proj1 (proj2 (amazon_extracted_collected cfg Elem select
                         el_attr find_text find_last_text find_attr
                         toLowerCase first_dynamic_image Date_now Math_log10
                         html (Amazon.src_category source)
                         (Amazon.src_type source))))
      as Hok.
    rewrite List.Forall_forall in Hok. now apply Hok.
  - cbn [List.filter]. now rewrite Hf.
Qed.

(** X12. At the end of [discoverProducts], [stats.productsFound] is the
    number of products extracted, before deduplication and filtering: it is
    at least the number of products returned, and at most
    [MAX_PRODUCTS_PER_SOURCE] for each request made.  [stats.errors] has at
    most one entry for each source. *)
Theorem amazon_discovery_statistics :
  let run :=
    Amazon.discoverProducts cfg Elem select el_attr find_text find_last_text
      find_attr toLowerCase first_dynamic_image Date_now Math_log10 net
      sources limit in
  (length (fst run)
   <= Amazon.productsFound (Amazon.stats (snd run)))%nat /\
  (Amazon.productsFound (Amazon.stats (snd run))
   <= Amazon.MAX_PRODUCTS_PER_SOURCE cfg
      * Amazon.requestCount (Amazon.stats (snd run)))%nat /\
  (length (Amazon.errors (Amazon.stats (snd run))) <= length sources)%nat.
Proof.
  cbv zeta. unfold Amazon.discoverProducts.
  destruct (amazon_loop_found cfg Elem select el_attr find_text
              find_last_text find_attr toLowerCase first_dynamic_image
              Date_now Math_log10 net sources [] (Amazon.new_session Date_now))
    as (more & Hfst & _ & Hfound & _ & Hlen & Herrs).
  destruct (Amazon.scrapeSources _ _ _ _ _ _ _ _ _ _ _ _ _ _ _)
    as [allProducts w].
  cbn [fst snd app Amazon.new_session Amazon.stats
       Amazon.productsFound Amazon.requestCount Amazon.errors length]
    in *.
  subst more. rewrite Nat.sub_0_r in Hlen.
  unfold Amazon.postProcess, Amazon.filterQualityProducts,
    Amazon.deduplicateProducts.
  rewrite amazon_dedup_step.
  match goal with
  | |- context [List.filter ?f _] =>
      destruct (post_processed Amazon.asin Amazon.dealScore f
                  allProducts (match limit with Some l => l | None => 20 end))
        as (_ & _ & Hle)
  end.
  split; [lia |]. split; lia.
Qed.

End AmazonDiscovery.

(** X13. Deduplicating twice changes nothing, and a list whose identifiers
    are pairwise different is left as it is, in its order. *)
Theorem dedup_idempotent_identity :
  (forall deals,
     Community.deduplicateDeals (Community.deduplicateDeals deals)
     = Community.deduplicateDeals deals) /\
  (forall deals,
     List.NoDup (List.map Community.dedup_key deals) ->
     Community.deduplicateDeals deals = deals) /\
  (forall products,
     Amazon.deduplicateProducts (Amazon.deduplicateProducts products)
     = Amazon.deduplicateProducts products) /\
  (forall products,
     List.NoDup (List.map Amazon.asin products) ->
     Amazon.deduplicateProducts products = products).
Proof.
  unfold Community.deduplicateDeals, Amazon.deduplicateProducts.
  rewrite community_dedup_step, amazon_dedup_step.
  split; [intros; apply dedup_idempotent |].
  split; [intros; now apply dedup_of_distinct |].
  split; [intros; apply dedup_idempotent |].
  intros; now apply dedup_of_distinct.
Qed.

(** ** The waits between the sources *)

Lemma ends_with_delay_snoc (log : list event) (e : event) :
  ends_with_delay (log ++ [e])
  = match e with RandomDelay _ _ => true | _ => false end.
Proof. unfold ends_with_delay. now rewrite last_last. Qed.

Lemma last_app_cons {A : Type} (l1 l2 : list A) (x d : A) :
  List.last (l1 ++ x :: l2) d = List.last (x :: l2) d.
Proof.
  induction l1 as [| y l1 IH]; [reflexivity |].
  cbn [app]. rewrite <- IH. cbn [List.last].
  destruct (l1 ++ x :: l2) eqn:E; [now destruct l1 | reflexivity].
Qed.

Lemma last_In {A : Type} (l : list A) (x d : A) : In (List.last (x :: l) d) (x :: l).
Proof.
  revert x. induction l as [| y l IH]; intros x; [now left |].
  right. apply IH.
Qed.

(** After events that are no random delays the log does not end with
    one. *)
Lemma ends_with_delay_app (log evs : list event) :
  evs <> [] ->
  Forall (fun e => match e with RandomDelay _ _ => False | _ => True end) evs ->
  ends_with_delay (log ++ evs) = false.
Proof.
  intros Hne Hall. destruct evs as [| e evs]; [congruence |].
  unfold ends_with_delay. rewrite last_app_cons.
  rewrite List.Forall_forall in Hall.
  specialize (Hall _ (last_In evs e LimitReached)).
  now destruct (List.last (e :: evs) LimitReached).
Qed.

Section CommunityDelays.
Variable cfg : Community.Config.
Variable Elem : Type.
Variable select : jsstring -> jsstring -> list Elem.
Variable find_text : Elem -> jsstring -> jsstring.
Variable find_attr : Elem -> jsstring -> jsstring -> option jsstring.
Variable find_all_attr : Elem -> jsstring -> jsstring -> list (option jsstring).
Variable toLowerCase : jsstring -> jsstring.
Variable toUpperCase : jsstring -> jsstring.
Variable Number_toString : number -> jsstring.
Variable Date_now : Z.
Variable Math_log10 : number -> number.
Variable net : oracle.

Local Abbreviation loop :=
  (Community.scrapeSources cfg Elem select find_text find_attr find_all_attr
     toLowerCase toUpperCase Number_toString Date_now Math_log10 net).
Local Abbreviation count w := (Community.requestCount (Community.stats w)).
Local Abbreviation MAX := (Community.MAX_REQUESTS cfg).

Lemma community_loop_final_delay (sources : list Community.Source)
    (allDeals : list Community.CommunityDeal) (w : Community.session) :
  sources <> [] ->
  (count (snd (loop sources allDeals w)) < MAX)%nat ->
  ends_with_delay (Community.trace (snd (loop sources allDeals w))) = true.
Proof.
  revert allDeals w.
  induction sources as [| source rest IH]; intros allDeals w Hne;
    [congruence |].
  cbn [Community.scrapeSources].
  destruct (_ <=? _)%nat eqn:Eb.
  - cbn [snd Community.emit Community.stats]. apply Nat.leb_le in Eb. lia.
  - destruct (Community.fetchWithRetry _ _ _ _) as [html w1].
    destruct (match html with Some _ => _ | None => _ end) as [allDeals1 w2].
    destruct rest as [| source' rest'].
    + cbn [Community.scrapeSources snd].
      destruct (_ <? _)%nat eqn:El.
      * intros _. cbn [Community.emit Community.trace].
        apply ends_with_delay_snoc.
      * apply Nat.ltb_ge in El. lia.
    + apply IH. discriminate.
Qed.

End CommunityDelays.

Section AmazonDelays.
Variable cfg : Amazon.Config.
Variable Elem : Type.
Variable select : jsstring -> jsstring -> list Elem.
Variable el_attr : Elem -> jsstring -> option jsstring.
Variable find_text find_last_text : Elem -> jsstring -> jsstring.
Variable find_attr : Elem -> jsstring -> jsstring -> option jsstring.
Variable toLowerCase : jsstring -> jsstring.
Variable first_dynamic_image : jsstring -> option jsstring.
Variable Date_now : Z.
Variable Math_log10 : number -> number.
Variable net : oracle.

Local Abbreviation loop :=
  (Amazon.scrapeSources cfg Elem select el_attr find_text find_last_text
     find_attr toLowerCase first_dynamic_image Date_now Math_log10 net).
Local Abbreviation no_delay :=
  (fun e : event => match e with RandomDelay _ _ => False | _ => True end).

(** The retry loop logs requests and waits of its own only, and at least
    one request when it has an iteration to run. *)
Lemma amazon_attempts_trace (url : jsstring) (remaining attempt : nat)
    (w : Amazon.session) :
  exists evs,
    Amazon.trace (snd (Amazon.attempts cfg net url remaining attempt w))
    = Amazon.trace w ++ evs /\
    Forall no_delay evs /\ ((1 <= remaining)%nat -> evs <> []).
Proof.
  revert attempt w.
  induction remaining as [| remaining IH]; intros attempt w;
    cbn [Amazon.attempts].
  - exists []. cbn [snd]. rewrite app_nil_r.
    split; [reflexivity |]. split; [constructor | lia].
  - destruct (net _ url) as [html | errorMsg].
    + destruct (Amazon.looks_blocked html).
      * exists [Request url; Slept (Amazon.RETRY_DELAY_MS cfg * 2)].
        cbn [snd Amazon.emit Amazon.push_error Amazon.count_request
             Amazon.trace].
        rewrite <- app_assoc. split; [reflexivity |].
        split; [repeat constructor | discriminate].
      * exists [Request url].
        cbn [snd Amazon.count_request Amazon.trace].
        split; [reflexivity |]. split; [repeat constructor | discriminate].
    + match goal with
      | |- context [Amazon.attempts cfg net url remaining (S attempt) ?w2] =>
          destruct (IH (S attempt) w2) as (evs & -> & Hall & _);
          assert (Hw2 : exists pre,
                    Amazon.trace w2 = Amazon.trace w ++ Request url :: pre /\
                    Forall no_delay pre)
      end.
      { destruct (_ <? _)%nat.
        - eexists [_]. cbn [Amazon.emit Amazon.count_request Amazon.trace].
          rewrite <- app_assoc. split; [reflexivity | repeat constructor].
        - exists []. cbn [Amazon.push_error Amazon.count_request Amazon.trace].
          split; [reflexivity | constructor]. }
      destruct Hw2 as (pre & -> & Hpre).
      exists (Request url :: pre ++ evs). rewrite <- app_assoc.
      split; [reflexivity |]. split; [| discriminate].
      constructor; [exact I |]. apply Forall_app. now split.
Qed.

Lemma amazon_loop_no_final_delay (sources : list Amazon.ScrapeSource)
    (allProducts : list Amazon.ScrapedProduct) (w : Amazon.session) :
  (1 <= Amazon.MAX_RETRIES cfg)%nat ->
  (sources = [] -> ends_with_delay (Amazon.trace w) = false) ->
  ends_with_delay (Amazon.trace (snd (loop sources allProducts w))) = false.
Proof.
  intros Hretries. revert allProducts w.
  induction sources as [| source rest IH]; intros allProducts w Hw.
  - cbn [Amazon.scrapeSources snd]. now apply Hw.
  - cbn [Amazon.scrapeSources].
    destruct (_ <=? _)%nat eqn:Eb.
    + cbn [snd Amazon.emit Amazon.trace]. apply ends_with_delay_snoc.
    + unfold Amazon.fetchWithRetry. rewrite Eb.
      destruct (amazon_attempts_trace (Amazon.src_url source)
                  (Amazon.MAX_RETRIES cfg) 1 w) as (evs & Htr & Hall & Hne).
      destruct (Amazon.attempts _ _ _ _ _ _) as [html w1].
      cbn [snd] in Htr.
      assert (Hw2 :
        Amazon.trace
          (snd (match html with
                | Some html =>
                    if JSString.truthy html
                    then (allProducts
                          ++ Amazon.scrapeProductsFromHTML cfg Elem select
                               el_attr find_text find_last_text find_attr
                               toLowerCase first_dynamic_image Date_now
                               Math_log10 html (Amazon.src_category source)
                               (Amazon.src_type source),
                          Amazon.add_found
                            (length
                               (Amazon.scrapeProductsFromHTML cfg Elem select
                                  el_attr find_text find_last_text find_attr
                                  toLowerCase first_dynamic_image Date_now
                                  Math_log10 html (Amazon.src_category source)
                                  (Amazon.src_type source))) w1)
                    else (allProducts, w1)
                | None => (allProducts, w1)
                end)) = Amazon.trace w ++ evs).
      { destruct html as [html |]; [| exact Htr].
        destruct (JSString.truthy html); exact Htr. }
      destruct (match html with Some _ => _ | None => _ end)
        as [allProducts1 w2].
      cbn [snd] in Hw2.
      apply IH. intros ->. rewrite andb_false_r, Hw2.
      apply ends_with_delay_app; [now apply Hne | exact Hall].
Qed.

End AmazonDelays.

(** X14. A run of [discoverCommunityDeals] over at least one source that
    stays below the request budget ends with a random delay: the loop waits
    after its last source as well. *)
Theorem community_session_ends_with_delay (cfg : Community.Config)
    (Elem : Type) (select : jsstring -> jsstring -> list Elem)
    (find_text : Elem -> jsstring -> jsstring)
    (find_attr : Elem -> jsstring -> jsstring -> option jsstring)
    (find_all_attr : Elem -> jsstring -> jsstring -> list (option jsstring))
    (toLowerCase toUpperCase : jsstring -> jsstring)
    (Number_toString : number -> jsstring) (Date_now : Z)
    (Math_log10 : number -> number) (net : oracle)
    (sources : list Community.Source) (limit : option Z) :
  let w :=
    snd (Community.discoverCommunityDeals cfg Elem select find_text find_attr
           find_all_attr toLowerCase toUpperCase Number_toString Date_now
           Math_log10 net sources limit) in
  sources <> [] ->
  (Community.requestCount (Community.stats w) < Community.MAX_REQUESTS cfg)%nat ->
  ends_with_delay (Community.trace w) = true.
Proof.
  cbv zeta. unfold Community.discoverCommunityDeals.
  pose proof (community_loop_final_delay cfg Elem select find_text find_attr
                find_all_attr toLowerCase toUpperCase Number_toString
                Date_now Math_log10 net sources []
                (Community.new_session Date_now)) as H.
  destruct (Community.scrapeSources _ _ _ _ _ _ _ _ _ _ _ _ _ _ _)
    as [allDeals w].
  exact H.
Qed.

(** X15. With at least one attempt for each fetch, a run of
    [discoverProducts] never ends with a random delay: there is none after
    the last source, and none after the budget is used up. *)
Theorem amazon_session_ends_without_delay (cfg : Amazon.Config) (Elem : Type)
    (select : jsstring -> jsstring -> list Elem)
    (el_attr : Elem -> jsstring -> option jsstring)
    (find_text find_last_text : Elem -> jsstring -> jsstring)
    (find_attr : Elem -> jsstring -> jsstring -> option jsstring)
    (toLowerCase : jsstring -> jsstring)
    (first_dynamic_image : jsstring -> option jsstring) (Date_now : Z)
    (Math_log10 : number -> number) (net : oracle)
    (sources : list Amazon.ScrapeSource) (limit : option Z) :
  (1 <= Amazon.MAX_RETRIES cfg)%nat ->
  ends_with_delay
    (Amazon.trace
       (snd (Amazon.discoverProducts cfg Elem select el_attr find_text
               find_last_text find_attr toLowerCase first_dynamic_image
               Date_now Math_log10 net sources limit))) = false.
Proof.
  intros Hretries. unfold Amazon.discoverProducts.
  pose proof (amazon_loop_no_final_delay cfg Elem select el_attr find_text
                find_last_text find_attr toLowerCase first_dynamic_image
                Date_now Math_log10 net sources []
                (Amazon.new_session Date_now) Hretries (fun _ => eq_refl))
    as H.
  destruct (Amazon.scrapeSources _ _ _ _ _ _ _ _ _ _ _ _ _ _ _)
    as [allProducts w].
  exact H.
Qed.

(** Two sample deals with different identifiers. *)
Lemma dedup_idempotent_identity_witness :
  List.NoDup (List.map Community.dedup_key [Samples.kindle; Samples.echo_low]) /\
  Community.deduplicateDeals [Samples.kindle; Samples.echo_low]
  = [Samples.kindle; Samples.echo_low] /\
  List.NoDup (List.map Amazon.asin [Samples.mouse; Samples.jbl_low]) /\
  Amazon.deduplicateProducts [Samples.mouse; Samples.jbl_low]
  = [Samples.mouse; Samples.jbl_low].
Proof.
  assert (Hc : List.NoDup
                 (List.map Community.dedup_key [Samples.kindle; Samples.echo_low])).
  { apply NoDup_ListNoDup. apply (bool_decide_unpack _). vm_compute. exact I. }
  assert (Ha : List.NoDup (List.map Amazon.asin [Samples.mouse; Samples.jbl_low])).
  { apply NoDup_ListNoDup. apply (bool_decide_unpack _). vm_compute. exact I. }
  split; [exact Hc |].
  split; [exact (proj1 (proj2 dedup_idempotent_identity) _ Hc) |].
  split; [exact Ha |].
  exact (proj2 (proj2 (proj2 dedup_idempotent_identity)) _ Ha).
Defined.

(** The configured sources, all answered: three requests of a budget of
    eight. *)
Lemma community_session_ends_with_delay_witness :
  let w :=
    snd (Community.discoverCommunityDeals Community.CONFIG Empty_set
           (fun _ _ => []) (fun _ _ => []) (fun _ _ _ => None)
           (fun _ _ _ => []) Samples.lower_case Samples.upper_case
           Samples.decimal 0 Spec.log10_series Samples.always_ok
           Community.COMMUNITY_SOURCES None) in
  Community.COMMUNITY_SOURCES <> [] /\
  (Community.requestCount (Community.stats w)
   < Community.MAX_REQUESTS Community.CONFIG)%nat /\
  ends_with_delay (Community.trace w) = true.
Proof.
  cbv zeta.
  assert (H1 : Community.COMMUNITY_SOURCES <> []) by discriminate.
  assert (H2 : (Community.requestCount
                  (Community.stats
                     (snd (Community.discoverCommunityDeals Community.CONFIG
                             Empty_set (fun _ _ => []) (fun _ _ => [])
                             (fun _ _ _ => None) (fun _ _ _ => [])
                             Samples.lower_case Samples.upper_case
                             Samples.decimal 0 Spec.log10_series
                             Samples.always_ok Community.COMMUNITY_SOURCES
                             None)))
                < Community.MAX_REQUESTS Community.CONFIG)%nat).
  { vm_compute. lia. }
  split; [exact H1 |]. split; [exact H2 |].
  exact (community_session_ends_with_delay Community.CONFIG Empty_set
           (fun _ _ => []) (fun _ _ => []) (fun _ _ _ => None)
           (fun _ _ _ => []) Samples.lower_case Samples.upper_case
           Samples.decimal 0 Spec.log10_series Samples.always_ok
           Community.COMMUNITY_SOURCES None H1 H2).
Defined.

(** The configured sources under the configuration of the scraper. *)
Lemma amazon_session_ends_without_delay_witness :
  (1 <= Amazon.MAX_RETRIES Amazon.CONFIG)%nat /\
  ends_with_delay
    (Amazon.trace
       (snd (Amazon.discoverProducts Amazon.CONFIG Empty_set (fun _ _ => [])
               (fun _ _ => None) (fun _ _ => []) (fun _ _ => [])
               (fun _ _ _ => None) Samples.lower_case (fun _ => None) 0
               Spec.log10_series Samples.always_ok Amazon.SCRAPE_SOURCES
               None))) = false.
Proof.
  assert (H : (1 <= Amazon.MAX_RETRIES Amazon.CONFIG)%nat)
    by (vm_compute; lia).
  split; [exact H |].
  exact (amazon_session_ends_without_delay Amazon.CONFIG Empty_set
           (fun _ _ => []) (fun _ _ => None) (fun _ _ => []) (fun _ _ => [])
           (fun _ _ _ => None) Samples.lower_case (fun _ => None) 0
           Spec.log10_series Samples.always_ok Amazon.SCRAPE_SOURCES None H).
Defined.

(** ** ASINs and numbers read from text *)







Lemma ten_alnum_asin (asin rest : jsstring) :
  length asin = 10%nat -> forallb is_alnum asin = true ->
  ten_alnum (asin ++ rest) = Some asin.
Proof.
  intros Hlen Hall. unfold ten_alnum.
  assert (Hf : firstn 10 (asin ++ rest) = asin).
  { rewrite <- Hlen. rewrite firstn_app, Nat.sub_diag, firstn_all.
    cbn [firstn]. apply app_nil_r. }
  now rewrite Hf, Hlen, Hall.
Qed.

Lemma match_after_skip (literal : jsstring)
    (group : jsstring -> option jsstring) (c : N) (r : jsstring) :
  startsWith_i (c :: r) literal = false ->
  match_after literal group (c :: r) = match_after literal group r.
Proof. cbn [match_after]. now intros ->. Qed.

Lemma match_after_here (literal : jsstring)
    (group : jsstring -> option jsstring) (s captured : jsstring) :
  startsWith_i s literal = true ->
  group (skipn (length literal) s) = Some captured ->
  match_after literal group s = Some captured.
Proof. destruct s; cbn [match_after]; now intros -> ->. Qed.

Lemma startsWith_i_nil (s : jsstring) : startsWith_i s [] = true.
Proof. now destruct s. Qed.

(** A literal written in lower case is found where it stands. *)
Lemma startsWith_i_literal (literal t : jsstring) :
  List.map ascii_lower literal = literal ->
  startsWith_i (literal ++ t) literal = true.
Proof.
  induction literal as [| a literal IH]; intros H;
    [apply startsWith_i_nil |].
  cbn [List.map] in H. injection H as Ha Hl.
  cbn [app startsWith_i]. now rewrite Ha, N.eqb_refl, IH.
Qed.

Lemma skipn_literal (literal t : jsstring) :
  skipn (length literal) (literal ++ t) = t.
Proof. induction literal; [reflexivity | exact IHliteral]. Qed.












(** X18. The affiliate link that [toFirestoreProduct] builds for a deal with
    an ASIN of ten letters and digits is one from which the [extractAsin] of
    the community scraper reads that ASIN back, in upper case, whatever the
    partner tag is. *)
Theorem affiliate_link_round_trip (toUpperCase : jsstring -> jsstring)
    (PARTNER_TAG : jsstring) (deal : Community.CommunityDeal)
    (asin : jsstring) :
  Community.asin deal = Some asin ->
  length asin = 10%nat -> forallb is_alnum asin = true ->
  Community.extractAsin toUpperCase
    (FetchProducts.affiliateLink
       (FetchProducts.toFirestoreProduct PARTNER_TAG deal))
  = Some (toUpperCase asin).
Proof.
  intros Hasin Hlen Hall.
  unfold FetchProducts.toFirestoreProduct.
  cbn [FetchProducts.affiliateLink]. rewrite Hasin.
  destruct asin as [| c asin']; [discriminate Hlen |].
  cbn [opt_truthy JSString.truthy].
  set (asin := c :: asin') in *.
  assert (Hs : str "https://www.amazon.com.br/dp/"
               = str "https://www." ++ str "amazon.com.br/dp/")
    by (vm_compute; reflexivity).
  rewrite Hs, <- app_assoc. clear Hs.
  let b := eval vm_compute in (str "https://www.") in
  change (str "https://www.") with b.
  unfold Community.extractAsin, Community.patterns.
  cbn [app JSString.truthy negb Community.firstAsin].
  repeat rewrite match_after_skip by reflexivity.
  rewrite (match_after_here _ _ _ asin).
  - now rewrite Hlen.
  - now apply startsWith_i_literal.
  - rewrite skipn_literal. now apply ten_alnum_asin.
Qed.


(** The link stored for the sample deal with an ASIN. *)
Lemma affiliate_link_round_trip_witness :
  Community.asin Samples.echo_high = Some (str "B09B8VGCR8") /\
  Community.extractAsin Samples.upper_case
    (FetchProducts.affiliateLink
       (FetchProducts.toFirestoreProduct (str "ihuofertas-20")
          Samples.echo_high))
  = Some (Samples.upper_case (str "B09B8VGCR8")).
Proof.
  split; [reflexivity |].
  apply (affiliate_link_round_trip Samples.upper_case (str "ihuofertas-20")
           Samples.echo_high (str "B09B8VGCR8"));
    vm_compute; reflexivity.
Defined.

(** ** Storing the deals *)

Lemma docId_dedup_key (deal : Community.CommunityDeal) :
  FetchProducts.docId deal = Community.dedup_key deal.
Proof. reflexivity. Qed.

Lemma startsWith_app (s t p : jsstring) :
  startsWith s p = true -> startsWith (s ++ t) p = true.
Proof.
  revert s. induction p as [| a p IH]; intros s H; [apply startsWith_nil |].
  destruct s as [| b s]; [discriminate H |].
  cbn [startsWith app] in *. apply andb_true_iff in H. destruct H as [H1 H2].
  now rewrite H1, IH.
Qed.

Lemma includes_app (s t p : jsstring) :
  includes s p = true -> includes (s ++ t) p = true.
Proof.
  induction s as [| c s IH]; intros H.
  - cbn [includes] in H. rewrite orb_false_r in H.
    destruct p; [| discriminate H]. cbn [app].
    destruct t; cbn [includes]; now rewrite startsWith_nil.
  - cbn [includes app] in *. apply orb_true_iff in H.
    destruct H as [H | H].
    + change (c :: s ++ t) with ((c :: s) ++ t).
      now rewrite (startsWith_app _ _ _ H).
    + rewrite (IH H). apply orb_true_r.
Qed.

(** What the loop of the scheduled function adds to the batch. *)
Lemma scheduled_fold (tag : jsstring) (existing : FetchProducts.reads)
    (deals : list Community.CommunityDeal) (st : FetchProducts.saving) :
  let st' := fold_left (FetchProducts.scheduledStep tag existing) deals st in
  List.map FetchProducts.write_id (FetchProducts.batch st')
  = List.map FetchProducts.write_id (FetchProducts.batch st)
    ++ List.map FetchProducts.docId deals /\
  (FetchProducts.newCount st' + FetchProducts.updateCount st'
   = FetchProducts.newCount st + FetchProducts.updateCount st + length deals)%nat /\
  (FetchProducts.newCount st' - FetchProducts.newCount st
   = length (List.filter is_set (FetchProducts.batch st'))
     - length (List.filter is_set (FetchProducts.batch st)))%nat /\
  (FetchProducts.newCount st <= FetchProducts.newCount st')%nat /\
  (length (List.filter is_set (FetchProducts.batch st))
   <= length (List.filter is_set (FetchProducts.batch st')))%nat.
Proof.
  cbv zeta. revert st.
  induction deals as [| d deals IH]; intros st; cbn [fold_left List.map length].
  - rewrite app_nil_r. repeat split; lia.
  - destruct (IH (FetchProducts.scheduledStep tag existing st d))
      as (Hids & Hsum & Hnew & Hle & Hle').
    rewrite Hids, Hsum. clear Hids Hsum.
    unfold FetchProducts.scheduledStep in *.
    destruct (existing _ _);
      cbn [FetchProducts.batch FetchProducts.newCount
           FetchProducts.updateCount] in *;
      rewrite ?List.map_app, ?List.filter_app, ?length_app in *;
      cbn [List.map List.filter is_set FetchProducts.write_id length app] in *;
      rewrite <- ?app_assoc; cbn [app];
      repeat split; lia.
Qed.



Section Stored.
Variable cfg : Community.Config.
Variable Elem : Type.
Variable select : jsstring -> jsstring -> list Elem.
Variable find_text : Elem -> jsstring -> jsstring.
Variable find_attr : Elem -> jsstring -> jsstring -> option jsstring.
Variable find_all_attr : Elem -> jsstring -> jsstring -> list (option jsstring).
Variable toLowerCase toUpperCase : jsstring -> jsstring.
Variable Number_toString : number -> jsstring.
Variable Date_now : Z.
Variable Math_log10 : number -> number.
Variable net : oracle.
Variable sources : list Community.Source.
Variable AMAZON_PARTNER_TAG : option jsstring.
Variable existing : FetchProducts.reads.

Local Abbreviation discover :=
  (FetchProducts.discoverCommunityDeals cfg Elem select find_text find_attr
     find_all_attr toLowerCase toUpperCase Number_toString Date_now
     Math_log10 net sources).

Lemma discovered_length (limit : Z) :
  0 <= limit -> Z.of_nat (length (fst (discover limit))) <= limit.
Proof.
  intros H. unfold FetchProducts.discoverCommunityDeals.
  destruct (community_discover_postProcess cfg Elem select find_text
              find_attr find_all_attr toLowerCase toUpperCase Number_toString
              Date_now Math_log10 net sources (Some limit))
    as (allDeals & w & ->).
  cbn [fst]. unfold Community.postProcess. now apply slice0_length.
Qed.

Lemma discovered_none : fst (discover 0) = [].
Proof.
  pose proof (discovered_length 0 ltac:(lia)) as H.
  destruct (fst (discover 0)); [reflexivity | cbn [length] in H; lia].
Qed.

(** X19. A run of [fetchProductsScheduled] that discovers no deal writes
    nothing.  Otherwise it commits one write for each deal, at most 20, in
    the order of the deals, to the document [asin || id] of the deal; no
    document is written twice in the batch; and [newProducts], the number of
    documents created, and [updatedProducts] add up to [dealsDiscovered],
    the number of deals. *)
Theorem scheduled_batch :
  let deals := fst (discover 20) in
  match FetchProducts.fetchProductsScheduled cfg Elem select find_text
          find_attr find_all_attr toLowerCase toUpperCase Number_toString
          Date_now Math_log10 net sources AMAZON_PARTNER_TAG existing with
  | FetchProducts.no_deals => deals = []
  | FetchProducts.saved committed metric =>
      deals <> [] /\
      List.map FetchProducts.write_id committed
      = List.map FetchProducts.docId deals /\
      List.NoDup (List.map FetchProducts.write_id committed) /\
      (length committed <= 20)%nat /\
      FetchProducts.dealsDiscovered metric = length committed /\
      FetchProducts.newProducts metric
      = length (List.filter is_set committed) /\
      (FetchProducts.newProducts metric + FetchProducts.updatedProducts metric
       = FetchProducts.dealsDiscovered metric)%nat
  end.
Proof.
  cbv zeta. unfold FetchProducts.fetchProductsScheduled,
    FetchProducts.saveScheduled.
  pose proof (discovered_length 20 ltac:(lia)) as Hlen.
  pose proof (proj1 (community_discovered_ok cfg Elem select find_text
                       find_attr find_all_attr toLowerCase toUpperCase
                       Number_toString Date_now Math_log10 net sources
                       (Some 20))) as Hnd.
  fold (discover 20) in Hnd.
  set (deals := fst (discover 20)) in *.
  destruct (length deals =? 0)%nat eqn:E0.
  - apply Nat.eqb_eq in E0. now destruct deals.
  - apply Nat.eqb_neq in E0.
    destruct (scheduled_fold (FetchProducts.PARTNER_TAG AMAZON_PARTNER_TAG)
                existing deals FetchProducts.no_saving)
      as (Hids & Hsum & Hnew & _ & _).
    set (st' := fold_left _ deals _) in *.
    cbn [FetchProducts.no_saving FetchProducts.batch FetchProducts.newCount
         FetchProducts.updateCount List.map List.filter app length]
      in Hids, Hsum, Hnew.
    cbn [FetchProducts.dealsDiscovered FetchProducts.newProducts
         FetchProducts.updatedProducts].
    assert (Hl : length (FetchProducts.batch st') = length deals).
    { rewrite <- (length_map FetchProducts.write_id), Hids.
      apply length_map. }
    split; [intros Hd; apply E0; now rewrite Hd |].
    split; [exact Hids |].
    split; [rewrite Hids; exact Hnd |].
    split; [lia |]. split; [now rewrite Hl |]. split; lia.
Qed.


(** X21. [fetchProductsManual] discovers 20 deals at most when the request
    has no limit or an empty one, no deal when the limit is no number, and,
    for a limit that [parseInt] reads as [n >= 0], at most [n] and at most 50
    deals. *)
Theorem manual_limit (req : FetchProducts.Request) (k : nat) :
  deals_discovered
    (fst (FetchProducts.fetchProductsManual cfg Elem select find_text
            find_attr find_all_attr toLowerCase toUpperCase Number_toString
            Date_now Math_log10 net sources AMAZON_PARTNER_TAG existing req))
  = Some k ->
  (JSString.opt_or (FetchProducts.query_limit req) [] = [] -> (k <= 20)%nat) /\
  (FetchProducts.manualLimit (FetchProducts.query_limit req) = NaN ->
   k = 0%nat) /\
  (forall n,
     FetchProducts.manualLimit (FetchProducts.query_limit req) = of_Z n ->
     0 <= n -> Z.of_nat k <= Z.min n 50).
Proof.
  unfold FetchProducts.fetchProductsManual.
  destruct (_ && _); [discriminate |].
  cbn [fst deals_discovered FetchProducts.body_dealsDiscovered].
  intros [= <-].
  split; [| split].
  - intros Hq.
    assert (Hl : FetchProducts.manualLimit (FetchProducts.query_limit req)
                 = of_Z 20).
    { unfold FetchProducts.manualLimit.
      destruct (FetchProducts.query_limit req) as [s |]; [| reflexivity].
      destruct s; [reflexivity |]. discriminate Hq. }
    rewrite Hl.
    change (FetchProducts.sliceEnd (Math_min (of_Z 20) (of_Z 50))) with 20.
    pose proof (discovered_length 20 ltac:(lia)). lia.
  - intros ->. cbn [Math_min FetchProducts.sliceEnd].
    now rewrite discovered_none.
  - intros n -> Hn.
    assert (Hs : FetchProducts.sliceEnd (Math_min (of_Z n) (of_Z 50))
                 = Z.min n 50).
    { unfold Math_min, of_Z, ltb, Qltb.
      destruct (Qle_bool (inject_Z n) (inject_Z 50)) eqn:E; cbn [negb].
      - apply Qle_bool_iff in E. rewrite <- Zle_Qle in E.
        unfold FetchProducts.sliceEnd.
        assert (Hnn : Qle_bool 0 (inject_Z n) = true)
          by (apply Qle_bool_iff; change 0%Q with (inject_Z 0);
              now rewrite <- Zle_Qle).
        rewrite Hnn, Qfloor_Z. lia.
      - assert (Hgt : 50 < n).
        { destruct (Z.lt_ge_cases 50 n) as [H | H]; [exact H |].
          assert (Qle_bool (inject_Z n) (inject_Z 50) = true)
            by (apply Qle_bool_iff; now rewrite <- Zle_Qle).
          congruence. }
        change (FetchProducts.sliceEnd (Finite (inject_Z 50))) with 50. lia. }
    rewrite Hs. apply discovered_length. lia.
Qed.

(** X22. The document made of a deal that [discoverCommunityDeals]
    returned has an affiliate link that is not empty and contains [amazon]
    or [amzn]: the product page of the ASIN with the partner tag when the
    deal has an ASIN, and else the link of the deal as it was scraped,
    without a tag of the partner. *)
Theorem stored_affiliate_link (limit : Z) :
  Forall (fun d =>
            let tag := FetchProducts.PARTNER_TAG AMAZON_PARTNER_TAG in
            let p := FetchProducts.toFirestoreProduct tag d in
            FetchProducts.affiliateLink p <> [] /\
            amazon_link (FetchProducts.affiliateLink p) /\
            match FetchProducts.asin p with
            | Some asin =>
                FetchProducts.affiliateLink p
                = str "https://www.amazon.com.br/dp/" ++ asin ++ str "?tag="
                  ++ tag
            | None =>
                Some (FetchProducts.affiliateLink p) = Community.amazonUrl d
            end)
    (fst (discover limit)).
Proof.
  pose proof (proj2 (community_discovered_ok cfg Elem select find_text
                       find_attr find_all_attr toLowerCase toUpperCase
                       Number_toString Date_now Math_log10 net sources
                       (Some limit))) as Hok.
  fold (discover limit) in Hok.
  eapply List.Forall_impl; [| exact Hok]. cbn beta zeta.
  intros d [(source & _ & Hd) _].
  destruct Hd as (_ & (url & Hurl & Hne & Hlink) & _).
  unfold FetchProducts.toFirestoreProduct.
  cbn [FetchProducts.affiliateLink FetchProducts.asin].
  destruct (opt_truthy (Community.asin d)) as [asin |].
  - split; [discriminate |]. split; [| reflexivity].
    left. apply includes_app. vm_compute. reflexivity.
  - rewrite Hurl. unfold opt_or, JSString.or_else.
    destruct url as [| c url]; [congruence |].
    cbn [JSString.truthy]. split; [discriminate |]. now split.
Qed.

End Stored.


(** Manual fetches with the limits [abc] and [5]. *)
Lemma manual_limit_witness :
  deals_discovered
    (fst (Samples.manual_fetch (fun _ _ => false)
            (Samples.get_request (Some (str "abc")) None))) = Some 0%nat /\
  FetchProducts.manualLimit (Some (str "abc")) = NaN /\
  deals_discovered
    (fst (Samples.manual_fetch (fun _ _ => false)
            (Samples.get_request (Some (str "5")) None))) = Some 1%nat /\
  FetchProducts.manualLimit (Some (str "5")) = of_Z 5 /\
  1 <= Z.min 5 50.
Proof.
  assert (H0 : deals_discovered
                 (fst (Samples.manual_fetch (fun _ _ => false)
                         (Samples.get_request (Some (str "abc")) None)))
               = Some 0%nat) by (vm_compute; reflexivity).
  assert (H1 : deals_discovered
                 (fst (Samples.manual_fetch (fun _ _ => false)
                         (Samples.get_request (Some (str "5")) None)))
               = Some 1%nat) by (vm_compute; reflexivity).
  split; [exact H0 |]. split; [reflexivity |].
  split; [exact H1 |]. split; [reflexivity |].
  exact (proj2 (proj2 (manual_limit Community.CONFIG Samples.card
                         (Samples.page_select Samples.badge_page)
                         Samples.card_text Samples.card_attr
                         Samples.card_all_attr Samples.lower_case
                         Samples.upper_case Samples.decimal 0
                         Spec.log10_series Samples.always_ok
                         [Samples.promobit] None (fun _ _ => false)
                         (Samples.get_request (Some (str "5")) None) 1%nat H1))
           5 eq_refl ltac:(lia)).
Defined.

(** ** The score and the discount *)

Lemma grows_refl (x : number) : Spec.nonneg x -> grows x x.
Proof.
  intros [-> | (q & -> & _)]; [now right |].
  left. exists q, q. repeat split. lra.
Qed.

Lemma grows_add (x x' t : number) :
  grows x x' -> Spec.nonneg t -> grows (x + t) (x' + t).
Proof.
  intros [(s & s' & -> & -> & H) | [-> ->]] [-> | (q & -> & Hq)];
    cbn [add Bool.eqb]; try (now right).
  left. exists (s + q)%Q, (s' + q)%Q. repeat split. lra.
Qed.

Lemma grows_mul_pos (x x' : number) (c : Q) :
  grows x x' -> (0 < c)%Q -> grows (x * Finite c) (x' * Finite c).
Proof.
  intros [(s & s' & -> & -> & H) | [-> ->]] Hc; cbn [mul].
  - left. exists (s * c)%Q, (s' * c)%Q. repeat split.
    apply Qmult_le_compat_r; lra.
  - rewrite Qeq_bool_pos, Qsign_neg_pos by assumption. now right.
Qed.

Lemma grows_div_pos (x x' : number) (c : Q) :
  grows x x' -> (0 < c)%Q -> grows (x / Finite c) (x' / Finite c).
Proof.
  intros [(s & s' & -> & -> & H) | [-> ->]] Hc; cbn [div].
  - rewrite Qeq_bool_pos by assumption.
    left. exists (s / c)%Q, (s' / c)%Q. repeat split.
    unfold Qdiv. apply Qmult_le_compat_r; [exact H |].
    apply Qlt_le_weak, Qinv_lt_0_compat, Hc.
  - rewrite Qsign_neg_pos by assumption. now right.
Qed.

Lemma grows_min_cap (x x' : number) (c : Q) :
  grows x x' -> grows (Math_min x (Finite c)) (Math_min x' (Finite c)).
Proof.
  intros [(s & s' & -> & -> & H) | [-> ->]]; cbn [Math_min ltb negb andb].
  - left. destruct (Qltb c s) eqn:E, (Qltb c s') eqn:E';
      try apply Qltb_lt in E; try apply Qltb_lt in E';
      try apply Qltb_ge in E; try apply Qltb_ge in E';
      eexists _, _; (split; [reflexivity |]); (split; [reflexivity |]); lra.
  - left. exists c, c. repeat split. lra.
Qed.

Lemma grows_round (x x' : number) :
  grows x x' -> (Math_round x <=? Math_round x')%js = true.
Proof.
  intros [(s & s' & -> & -> & H) | [-> ->]]; cbn [Math_round leb];
    [| reflexivity].
  unfold of_Z. apply Qle_bool_iff. rewrite <- Zle_Qle.
  apply Qfloor_resp_le. lra.
Qed.

Lemma grows_or_else_zero (q q' : Q) :
  (0 <= q <= q')%Q ->
  grows (or_else (Finite q) zero) (or_else (Finite q') zero).
Proof.
  intros H. unfold or_else, JSNumber.truthy, zero. left.
  destruct (Qeq_bool q 0) eqn:E, (Qeq_bool q' 0) eqn:E'; cbn [negb];
    try apply Qeq_bool_eq in E; try apply Qeq_bool_eq in E';
    eexists _, _; (split; [reflexivity |]); (split; [reflexivity |]); lra.
Qed.

Lemma grows_discountScore (q q' : Q) :
  (0 <= q <= q')%Q ->
  grows
    (Math_min (or_else (Finite q) zero / Finite 40 * Finite 100) (Finite 100)
     * Finite 0.35)
    (Math_min (or_else (Finite q') zero / Finite 40 * Finite 100) (Finite 100)
     * Finite 0.35) /\
  grows
    (Math_min (or_else (Finite q) zero / Finite 40 * Finite 100) (Finite 100)
     * Finite 0.30)
    (Math_min (or_else (Finite q') zero / Finite 40 * Finite 100) (Finite 100)
     * Finite 0.30).
Proof.
  intros H.
  split; (apply grows_mul_pos; [| lra]); apply grows_min_cap;
    (apply grows_mul_pos; [| lra]); (apply grows_div_pos; [| lra]);
    now apply grows_or_else_zero.
Qed.

(** X23. Let [Math.log10] be as [Spec.log10_ok] says.  Of two listings that
    differ in the discount only (and in fields that the score does not
    read), the one with the higher discount never has the lower score, for
    either scorer. *)
Theorem score_grows_with_discount (Math_log10 : number -> number) :
  Spec.log10_ok Math_log10 ->
  (forall (deal deal' : Community.CommunityDeal) (q q' : Q),
     Community.discount deal = Finite q ->
     Community.discount deal' = Finite q' -> (0 <= q <= q')%Q ->
     Community.upvotes deal' = Community.upvotes deal ->
     Community.normalizedCategory deal' = Community.normalizedCategory deal ->
     Community.has_asin deal' = Community.has_asin deal ->
     JSObject.inherited (Community.normalizedCategory deal) = false ->
     (Community.calculateDealScore Math_log10 deal
      <=? Community.calculateDealScore Math_log10 deal')%js = true) /\
  (forall (product product' : Amazon.ScrapedProduct) (q q' : Q),
     Amazon.discount product = Finite q ->
     Amazon.discount product' = Finite q' -> (0 <= q <= q')%Q ->
     Amazon.rating product' = Amazon.rating product ->
     Amazon.reviewCount product' = Amazon.reviewCount product ->
     Amazon.normalizedCategory product' = Amazon.normalizedCategory product ->
     Amazon.source product' = Amazon.source product ->
     JSObject.inherited (Amazon.normalizedCategory product) = false ->
     (Amazon.calculateDealScore Math_log10 product
      <=? Amazon.calculateDealScore Math_log10 product')%js = true).
Proof.
  intros Hlog. split.
  - intros deal deal' q q' Hd Hd' Hq Hu Hc Ha Hin.
    unfold Community.calculateDealScore. rewrite Hd, Hd', Hu, Hc, Ha.
    apply grows_round, grows_min_cap.
    repeat apply grows_add.
    + now apply grows_discountScore.
    + apply mul_pos_nonneg; [| lra].
      apply within_nonneg with 0%Q 100%Q; [lra |].
      apply min_cap_within; [| lra].
      apply mul_pos_nonneg; [| lra]. apply div_pos_nonneg; [| lra].
      apply log10_of_max_one_plus_one; [exact Hlog |].
      apply or_else_zero_not_nan.
    + apply mul_pos_nonneg; [| lra].
      apply within_nonneg with 50%Q 100%Q; [lra |].
      now apply community_weight_within, or_else_not_inherited.
    + right. destruct (Community.has_asin deal);
        [exists 15%Q | exists 0%Q]; (split; [reflexivity | lra]).
  - intros product product' q q' Hd Hd' Hq Hr Hv Hc Hs Hin.
    unfold Amazon.calculateDealScore. rewrite Hd, Hd', Hr, Hv, Hc, Hs.
    apply grows_round, grows_min_cap.
    repeat apply grows_add.
    + now apply grows_discountScore.
    + apply mul_pos_nonneg; [| lra].
      apply max_floor_nonneg.
      apply mul_pos_not_nan; [| lra]. apply div_pos_not_nan; [| lra].
      apply sub_finite_not_nan, or_else_zero_not_nan.
    + apply mul_pos_nonneg; [| lra].
      apply within_nonneg with 0%Q 100%Q; [lra |].
      apply min_cap_within; [| lra].
      apply mul_pos_nonneg; [| lra].
      pose proof Hlog as (_ & (r & Hr5 & Hpos) & _).
      rewrite Hr5. apply div_pos_nonneg; [| exact Hpos].
      apply log10_of_max_one; [exact Hlog |].
      apply or_else_zero_not_nan.
    + apply mul_pos_nonneg; [| lra].
      apply within_nonneg with 40%Q 100%Q; [lra |].
      now apply amazon_weight_within, or_else_not_inherited.
    + right. destruct (Amazon.source product);
        [exists 10%Q | exists 0%Q]; (split; [reflexivity | lra]).
Qed.

(** Two sample deals with discounts of 5 and 10, and two sample products
    with discounts of 0 and 15, under the series logarithm. *)
Lemma score_grows_with_discount_witness :
  Spec.log10_ok Spec.log10_series /\
  (Community.calculateDealScore Spec.log10_series Samples.echo_five
   <=? Community.calculateDealScore Spec.log10_series Samples.echo_low)%js
  = true /\
  (Amazon.calculateDealScore Spec.log10_series
     (Samples.product (str "B07W6JN8V8") 89.90%Q 0%Q 4.7%Q 5400%Q
        Amazon.bestsellers 0)
   <=? Amazon.calculateDealScore Spec.log10_series Samples.mouse)%js = true.
Proof.
  split; [exact log10_series_ok |]. split.
  - apply (proj1 (score_grows_with_discount Spec.log10_series log10_series_ok)
             Samples.echo_five Samples.echo_low 5%Q 10%Q);
      try reflexivity. split; [vm_compute | vm_compute]; discriminate.
  - apply (proj2 (score_grows_with_discount Spec.log10_series log10_series_ok)
             (Samples.product (str "B07W6JN8V8") 89.90%Q 0%Q 4.7%Q 5400%Q
                Amazon.bestsellers 0)
             Samples.mouse 0%Q 15%Q);
      try reflexivity. split; [vm_compute | vm_compute]; discriminate.
Defined.

(** ** What the post-processing keeps *)

Section KeptFacts.
Context {A : Type}.
Variable key : A -> jsstring.
Variable score : A -> Z.

Lemma is_best_unique (kept kept' : A) (grp : list A) :
  Spec.is_best score kept grp -> Spec.is_best score kept' grp -> kept = kept'.
Proof.
  intros (pre & post & -> & Hpre & Hpost) (pre' & post' & E & Hpre' & Hpost').
  apply app_eq_app in E. destruct E as (l & [[-> E] | [-> E]]).
  - destruct l as [| x l]; cbn [app] in E.
    + now injection E.
    + injection E as <- ->.
      apply Forall_app in Hpre. destruct Hpre as [_ Hl].
      inversion Hl as [| ? ? Hlt _]; subst.
      rewrite List.Forall_forall in Hpost'.
      assert (score kept <= score kept') by (apply Hpost', in_or_app; right; now left).
      lia.
  - destruct l as [| x l]; cbn [app] in E.
    + now injection E.
    + injection E as <- ->.
      apply Forall_app in Hpre'. destruct Hpre' as [_ Hl].
      inversion Hl as [| ? ? Hlt _]; subst.
      rewrite List.Forall_forall in Hpost.
      assert (score kept' <= score kept) by (apply Hpost, in_or_app; right; now left).
      lia.
Qed.

Lemma best_in_dedup (l : list A) (d : A) :
  Spec.is_best score d (Spec.group key (key d) l) ->
  In d (JSMap.values (fold_left (Spec.dedup_step key score) l JSMap.empty)).
Proof.
  intros Hbest. pose proof (dedup_keeps_best key score l (key d)) as H.
  destruct (Spec.group key (key d) l) as [| x g] eqn:E.
  - destruct Hbest as (pre & post & Hg & _). now destruct pre.
  - destruct H as (kept & Hk & Hkept).
    rewrite (is_best_unique d kept _ Hbest Hkept).
    assert (Hin : In kept
                    (Spec.group key (key d)
                       (JSMap.values
                          (fold_left (Spec.dedup_step key score) l JSMap.empty))))
      by (rewrite Hk; now left).
    unfold Spec.group in Hin. now apply List.filter_In in Hin.
Qed.

Lemma slice0_uncut (l : list A) (limit : Z) :
  Z.of_nat (length (JSArray.slice0 l limit)) < limit ->
  JSArray.slice0 l limit = l.
Proof.
  intros H. assert (Hpos : 0 <= limit) by lia.
  rewrite slice0_firstn in * by exact Hpos.
  rewrite length_firstn in H. apply firstn_all2. lia.
Qed.

(** When the limit cuts nothing, a listing that is the best of its group
    and passes the filter is in the result. *)
Lemma best_kept (f : A -> bool) (l : list A) (limit : Z) (d : A) :
  let result :=
    JSArray.slice0
      (JSArray.sort (fun a b => score b - score a)
         (List.filter f
            (JSMap.values
               (fold_left (Spec.dedup_step key score) l JSMap.empty))))
      limit in
  Z.of_nat (length result) < limit ->
  Spec.is_best score d (Spec.group key (key d) l) -> f d = true ->
  In d result.
Proof.
  cbv zeta. intros Hlen Hbest Hf.
  rewrite slice0_uncut by exact Hlen.
  eapply Permutation_in; [apply Permutation_sym, sort_perm |].
  apply List.filter_In. split; [now apply best_in_dedup | exact Hf].
Qed.

End KeptFacts.

Lemma filter_singleton {A : Type} (f : A -> bool) (d : A) :
  List.filter f [d] = [d] -> f d = true.
Proof. cbn [List.filter]. now destruct (f d). Qed.

(** X24. When [discoverCommunityDeals] or [discoverProducts] returns fewer
    listings than the limit, nothing that qualifies is missing: every
    gathered listing that passes the quality filter and is the best of the
    listings with its identifier (the first-seen one among those with the
    highest score) is returned. *)
Theorem best_listings_returned :
  (forall cfg allDeals limit d,
     Z.of_nat (length (Community.postProcess cfg allDeals limit)) < limit ->
     Spec.is_best Community.dealScore d
       (Spec.group Community.dedup_key (Community.dedup_key d) allDeals) ->
     Community.filterQualityDeals cfg [d] = [d] ->
     In d (Community.postProcess cfg allDeals limit)) /\
  (forall cfg allProducts limit p,
     Z.of_nat (length (Amazon.postProcess cfg allProducts limit)) < limit ->
     Spec.is_best Amazon.dealScore p
       (Spec.group Amazon.asin (Amazon.asin p) allProducts) ->
     Amazon.filterQualityProducts cfg [p] = [p] ->
     In p (Amazon.postProcess cfg allProducts limit)).
Proof.
  split.
  - intros cfg allDeals limit d Hlen Hbest Hf.
    unfold Community.postProcess, Community.deduplicateDeals,
      Community.filterQualityDeals in *.
    rewrite community_dedup_step in *.
    apply filter_singleton in Hf.
    now apply (best_kept Community.dedup_key Community.dealScore).
  - intros cfg allProducts limit p Hlen Hbest Hf.
    unfold Amazon.postProcess, Amazon.deduplicateProducts,
      Amazon.filterQualityProducts in *.
    rewrite amazon_dedup_step in *.
    apply filter_singleton in Hf.
    now apply (best_kept Amazon.asin Amazon.dealScore).
Qed.

(** Three sample deals and three sample products, two of them with one
    identifier, under a limit of 20. *)
Lemma best_listings_returned_witness :
  In Samples.kindle
    (Community.postProcess Community.CONFIG
       [Samples.echo_low; Samples.kindle; Samples.echo_high] 20) /\
  In Samples.mouse
    (Amazon.postProcess Amazon.CONFIG
       [Samples.jbl_low; Samples.mouse; Samples.jbl_high] 20).
Proof.
  split.
  - apply (proj1 best_listings_returned Community.CONFIG
             [Samples.echo_low; Samples.kindle; Samples.echo_high] 20
             Samples.kindle).
    + vm_compute. reflexivity.
    + exists [], []. split; [vm_compute; reflexivity |].
      split; constructor.
    + vm_compute. reflexivity.
  - apply (proj2 best_listings_returned Amazon.CONFIG
             [Samples.jbl_low; Samples.mouse; Samples.jbl_high] 20
             Samples.mouse).
    + vm_compute. reflexivity.
    + exists [], []. split; [vm_compute; reflexivity |].
      split; constructor.
    + vm_compute. reflexivity.
Defined.
